(** * Inventory plugin: level engine, transaction ledger, forecast adapter

    A shallow embedding of the TypeScript services

      - [InventoryLevelService]  (inventory-level.service.ts)
      - [TransactionService]     (transaction.service.ts)
      - [ForecastingService]     (forecasting.service.ts)
      - [config]                 (config/config.ts)

    and of the handlers of [InventoryLevelController]
    (inventory-level.controller.ts) that answer for the level engine.

    The Prisma database is an explicit [Store] threaded through every
    call.  A service method is a function [Store -> Store * Result A]:
    the store that comes back is the database as the call left it, also
    when the call throws -- the services never open a database
    transaction, so writes made before a [throw] stay.

    Numbers.  Quantities are JavaScript numbers holding integers; they
    are [Z] here, and their sums and differences are exact.  That is the
    arithmetic of the code as long as the numbers are safe integers
    (below 2^53 in absolute value, [safeInteger]); past that the doubles
    of the code round and [Z] does not.  Products with the fractional
    configuration constants (0.1, 0.5, 1.5, 2.0, 0.7, 1.3, 0.6) and the
    averages of the forecast are taken in exact rational arithmetic
    ([Q]); the rounding of IEEE doubles is not modelled, so nothing is
    concluded here from a figure that hangs on it (the standard
    deviation of a flat series that is not zero).  For the alert
    thresholds of reorder points below 2^52 this loses nothing: 0.5, 1.5
    and 2.0 are exact doubles, and the double nearest to 0.1 lies above
    0.1 by less than one part in 10^16, which at that size moves
    [reorderPoint * 0.1] by less than 0.1 and so never across an integer
    quantity.

    Time.  [now] is the clock reading ([new Date()], [dayjs()]) in
    milliseconds; a calendar day is [t / msPerDay].  A transaction row
    gets the clock reading as its [transactionDate] (the column
    default).

    Optional values.  [undefined] and [null] are both [None]; a string
    that may be empty is [Some ""]. *)

From Stdlib Require Import ZArith QArith Qround List String Ascii Bool Lia.
From Stdlib Require Import DecimalString.
Import ListNotations.

Local Open Scope string_scope.
Local Open Scope Z_scope.

(** ** JavaScript helpers *)

(** Truthiness of an optional string: [undefined], [null] and [''] are falsy. *)
Definition truthy (o : option string) : bool :=
  match o with
  | Some s => negb (String.eqb s "")
  | None => false
  end.

(** [x || null] and [x || undefined]. *)
Definition orNull (o : option string) : option string :=
  if truthy o then o else None.

(** [x || d] for a string default [d]. *)
Definition orElse (o : option string) (d : string) : string :=
  match o with
  | Some s => if String.eqb s "" then d else s
  | None => d
  end.

(** [a || b] on optional strings. *)
Definition orOpt (a b : option string) : option string :=
  if truthy a then a else b.

(** [a ?? b]. *)
Definition nullish {A : Type} (a b : option A) : option A :=
  match a with
  | Some _ => a
  | None => b
  end.

(** Truthiness of an optional number: [null], [undefined] and [0] are falsy. *)
Definition truthyZ (o : option Z) : bool :=
  match o with
  | Some z => negb (z =? 0)
  | None => false
  end.

(** [a || b] on optional numbers. *)
Definition orOptZ (a b : option Z) : option Z :=
  if truthyZ a then a else b.

Definition opt_eqb (a b : option string) : bool :=
  match a, b with
  | Some x, Some y => String.eqb x y
  | None, None => true
  | _, _ => false
  end.

Definition newline : string := String (ascii_of_nat 10) EmptyString.

(** ** Enumerations of the Prisma schema *)

Inductive StockAlertLevel := NORMAL | LOW | CRITICAL | HIGH | OVERSTOCK.

Inductive TransactionType :=
  RECEIVE | CONSUME | TRANSFER | ADJUST | DAMAGE | DISPOSE | ASSIGN | UNASSIGN.

Inductive TransactionStatus := PENDING | APPROVED | REJECTED | COMPLETED | CANCELLED.

Definition StockAlertLevel_eqb (a b : StockAlertLevel) : bool :=
  match a, b with
  | NORMAL, NORMAL | LOW, LOW | CRITICAL, CRITICAL | HIGH, HIGH
  | OVERSTOCK, OVERSTOCK => true
  | _, _ => false
  end.

Definition TransactionStatus_eqb (a b : TransactionStatus) : bool :=
  match a, b with
  | PENDING, PENDING | APPROVED, APPROVED | REJECTED, REJECTED
  | COMPLETED, COMPLETED | CANCELLED, CANCELLED => true
  | _, _ => false
  end.

Definition TransactionType_eqb (a b : TransactionType) : bool :=
  match a, b with
  | RECEIVE, RECEIVE | CONSUME, CONSUME | TRANSFER, TRANSFER | ADJUST, ADJUST
  | DAMAGE, DAMAGE | DISPOSE, DISPOSE | ASSIGN, ASSIGN | UNASSIGN, UNASSIGN => true
  | _, _ => false
  end.

(** [level.alertLevel.toLowerCase()] *)
Definition alertLevel_toLowerCase (a : StockAlertLevel) : string :=
  match a with
  | NORMAL => "normal"
  | LOW => "low"
  | CRITICAL => "critical"
  | HIGH => "high"
  | OVERSTOCK => "overstock"
  end.

(** [transaction.type.toLowerCase()] *)
Definition type_toLowerCase (t : TransactionType) : string :=
  match t with
  | RECEIVE => "receive"
  | CONSUME => "consume"
  | TRANSFER => "transfer"
  | ADJUST => "adjust"
  | DAMAGE => "damage"
  | DISPOSE => "dispose"
  | ASSIGN => "assign"
  | UNASSIGN => "unassign"
  end.

(** ** config/config.ts *)

Module config.

Record StockAlertConfig := {
  criticalThreshold : Q;
  lowThreshold : Q;
  highThreshold : Q;
  overstockThreshold : Q }.

Definition stockAlert : StockAlertConfig := {|
  criticalThreshold := 1 # 10;   (* 10% of reorder point *)
  lowThreshold := 1 # 2;         (* 50% of reorder point *)
  highThreshold := 3 # 2;        (* 150% of max quantity *)
  overstockThreshold := 2 # 1    (* 200% of max quantity *) |}.

Record ForecastingConfig := {
  historicalDays : Z;
  forecastDays : Z }.

Definition forecasting : ForecastingConfig := {|
  historicalDays := 90;
  forecastDays := 30 |}.

End config.

(** ** The alert evaluator: [InventoryLevelService.calculateAlertLevel] *)

Definition calculateAlertLevel
    (quantity : Z) (reorderPoint maxQuantity : option Z) : StockAlertLevel :=
  match reorderPoint with
  | None => NORMAL
  | Some rp =>
    if rp =? 0 then NORMAL
    else
      let criticalThreshold :=
        (inject_Z rp * config.criticalThreshold config.stockAlert)%Q in
      let lowThreshold :=
        (inject_Z rp * config.lowThreshold config.stockAlert)%Q in
      if Qle_bool (inject_Z quantity) criticalThreshold then CRITICAL
      else if Qle_bool (inject_Z quantity) lowThreshold then LOW
      else if truthyZ maxQuantity &&
              match maxQuantity with
              | Some mq =>
                Qle_bool (inject_Z mq * config.overstockThreshold config.stockAlert)
                         (inject_Z quantity)
              | None => false
              end
      then OVERSTOCK
      else if truthyZ maxQuantity &&
              match maxQuantity with
              | Some mq =>
                Qle_bool (inject_Z mq * config.highThreshold config.stockAlert)
                         (inject_Z quantity)
              | None => false
              end
      then HIGH
      else NORMAL
  end.



(** ** Data model (the Prisma rows the services read and write)

    Row ids are generated by the database; a counter in the store hands
    them out.  Columns that no service computes with (bin and shelf
    location, cost, reference and attachment columns) are left out. *)

Record InventoryItem := {
  it_id : string;
  it_name : string;
  it_reorderPoint : option Z;
  it_reorderQuantity : option Z;
  it_maxQuantity : option Z;
  it_condition : string }.

Record InventoryLevel := {
  lvl_id : nat;
  lvl_itemId : string;
  lvl_propertyId : string;
  lvl_unitId : option string;
  lvl_roomId : option string;
  lvl_locationName : string;
  lvl_locationPath : string;
  quantityOnHand : Z;
  quantityReserved : Z;
  quantityAvailable : Z;
  lvl_minQuantity : option Z;
  lvl_maxQuantity : option Z;
  lvl_reorderPoint : option Z;
  alertLevel : StockAlertLevel;
  lastCountedDate : option Z;
  lastCountedBy : option string;
  lvl_notes : option string }.

Record Transaction := {
  tx_id : nat;
  tx_type : TransactionType;
  tx_status : TransactionStatus;
  tx_itemId : string;
  tx_quantity : Z;
  fromPropertyId : option string;
  fromUnitId : option string;
  fromRoomId : option string;
  fromLocation : option string;
  toPropertyId : option string;
  toUnitId : option string;
  toRoomId : option string;
  toLocation : option string;
  tx_reason : option string;
  tx_reasonCode : option string;
  tx_notes : option string;
  stagingDesignId : option string;
  tx_createdBy : option string;
  approvedBy : option string;
  approvedAt : option Z;
  rejectionReason : option string;
  completedAt : option Z;
  transactionDate : Z }.

Record StockAlert := {
  al_id : nat;
  al_itemId : string;
  al_levelId : nat;
  alertType : StockAlertLevel;
  al_message : string;
  severity : string;
  currentQuantity : Z;
  al_reorderPoint : option Z;
  isResolved : bool }.

Record DemandForecast := {
  fc_itemId : string;
  fc_propertyId : option string;
  forecastDate : Z;
  periodStart : Z;
  periodEnd : Z;
  fc_predictedDemand : Q;
  fc_lowerBound : Q;
  fc_upperBound : Q;
  fc_confidence : Q;
  seasonalFactor : option Q;
  trendFactor : option Q;
  modelVersion : string }.

Record Store := {
  inventoryItems : list InventoryItem;
  levels : list InventoryLevel;
  transactions : list Transaction;
  stockAlerts : list StockAlert;
  demandForecasts : list DemandForecast;
  nextId : nat }.

(** The database before any level, transaction, alert or forecast exists. *)
Definition initialStore (its : list InventoryItem) : Store := {|
  inventoryItems := its;
  levels := [];
  transactions := [];
  stockAlerts := [];
  demandForecasts := [];
  nextId := 0 |}.

(** ** Request shapes (types/index.ts) *)

Record CreateInventoryLevelDTO := {
  c_itemId : string;
  c_propertyId : string;
  c_unitId : option string;
  c_roomId : option string;
  c_locationName : string;
  c_quantityOnHand : option Z;
  c_minQuantity : option Z;
  c_maxQuantity : option Z;
  c_reorderPoint : option Z;
  c_notes : option string }.

Record UpdateInventoryLevelDTO := {
  u_itemId : option string;
  u_propertyId : option string;
  u_unitId : option string;
  u_roomId : option string;
  u_locationName : option string;
  u_quantityOnHand : option Z;
  u_quantityReserved : option Z;
  u_minQuantity : option Z;
  u_maxQuantity : option Z;
  u_reorderPoint : option Z;
  u_notes : option string }.

Record AdjustInventoryDTO := {
  a_itemId : string;
  a_propertyId : string;
  a_unitId : option string;
  a_roomId : option string;
  a_quantity : Z;
  a_reason : option string;
  a_reasonCode : option string;
  a_notes : option string;
  a_createdBy : option string }.

Record CreateTransactionDTO := {
  ct_type : TransactionType;
  ct_itemId : string;
  ct_quantity : Z;
  ct_fromPropertyId : option string;
  ct_fromUnitId : option string;
  ct_fromRoomId : option string;
  ct_fromLocation : option string;
  ct_toPropertyId : option string;
  ct_toUnitId : option string;
  ct_toRoomId : option string;
  ct_toLocation : option string;
  ct_reasonCode : option string;
  ct_reason : option string;
  ct_notes : option string;
  ct_requiresApproval : option bool;
  ct_stagingDesignId : option string;
  ct_createdBy : option string }.

Record ApproveTransactionDTO := {
  ap_approvedBy : string;
  ap_notes : option string }.

Record RejectTransactionDTO := {
  rj_rejectionReason : string;
  rj_rejectedBy : string }.

Record TransferInventoryDTO := {
  tr_itemId : string;
  tr_quantity : Z;
  tr_fromPropertyId : string;
  tr_fromUnitId : option string;
  tr_fromRoomId : option string;
  tr_toPropertyId : string;
  tr_toUnitId : option string;
  tr_toRoomId : option string;
  tr_reason : option string;
  tr_notes : option string;
  tr_createdBy : option string }.

(** ** Calls that read and write the store, and may throw *)

Inductive Result (A : Type) :=
| Ok (a : A)
| Throw (message : string).
Arguments Ok {A} a.
Arguments Throw {A} message.

Definition M (A : Type) : Type := Store -> Store * Result A.

Definition ret {A} (a : A) : M A := fun s => (s, Ok a).

Definition throw {A} (message : string) : M A := fun s => (s, Throw message).

Definition bind {A B} (m : M A) (k : A -> M B) : M B :=
  fun s =>
    match m s with
    | (s', Ok a) => k a s'
    | (s', Throw e) => (s', Throw e)
    end.

(** [try { body } catch (error) { handler(error.message) }] *)
Definition tryCatch {A} (body : M A) (handler : string -> M A) : M A :=
  fun s =>
    match body s with
    | (s', Ok a) => (s', Ok a)
    | (s', Throw e) => handler e s'
    end.

Notation "x <- c ;; k" := (bind c (fun x => k))
  (at level 61, c at next level, right associativity).
Notation "c ;;; k" := (bind c (fun _ => k))
  (at level 61, right associativity).

(** ** The Prisma client, table by table *)

Module prisma.

Definition replaceFirst {A} (p : A -> bool) (f : A -> A) : list A -> list A :=
  fix go (l : list A) : list A :=
    match l with
    | [] => []
    | x :: r => if p x then f x :: r else x :: go r
    end.

Definition recordNotFound : string := "Record to update not found".

(** [inventoryItem.findUnique({ where: { id } })] *)
Definition inventoryItem_findUnique (id : string) : M (option InventoryItem) :=
  fun s => (s, Ok (find (fun i => String.eqb (it_id i) id) (inventoryItems s))).

(** [inventoryItem.update({ where: { id }, data: { condition } })] *)
Definition inventoryItem_setCondition (id : string) (c : string) : M unit :=
  fun s =>
    match find (fun i => String.eqb (it_id i) id) (inventoryItems s) with
    | None => (s, Throw recordNotFound)
    | Some _ =>
      ({| inventoryItems :=
            replaceFirst (fun i => String.eqb (it_id i) id)
              (fun i => {| it_id := it_id i; it_name := it_name i;
                           it_reorderPoint := it_reorderPoint i;
                           it_reorderQuantity := it_reorderQuantity i;
                           it_maxQuantity := it_maxQuantity i;
                           it_condition := c |})
              (inventoryItems s);
          levels := levels s;
          transactions := transactions s;
          stockAlerts := stockAlerts s;
          demandForecasts := demandForecasts s;
          nextId := nextId s |}, Ok tt)
    end.

Definition withLevels (ls : list InventoryLevel) (n : nat) (s : Store) : Store := {|
  inventoryItems := inventoryItems s;
  levels := ls;
  transactions := transactions s;
  stockAlerts := stockAlerts s;
  demandForecasts := demandForecasts s;
  nextId := n |}.

Definition withTransactions (ts : list Transaction) (n : nat) (s : Store) : Store := {|
  inventoryItems := inventoryItems s;
  levels := levels s;
  transactions := ts;
  stockAlerts := stockAlerts s;
  demandForecasts := demandForecasts s;
  nextId := n |}.

Definition withAlerts (al : list StockAlert) (n : nat) (s : Store) : Store := {|
  inventoryItems := inventoryItems s;
  levels := levels s;
  transactions := transactions s;
  stockAlerts := al;
  demandForecasts := demandForecasts s;
  nextId := n |}.

Definition withForecasts (fs : list DemandForecast) (s : Store) : Store := {|
  inventoryItems := inventoryItems s;
  levels := levels s;
  transactions := transactions s;
  stockAlerts := stockAlerts s;
  demandForecasts := fs;
  nextId := nextId s |}.

(** [inventoryLevel.findUnique({ where: { id } })] *)
Definition inventoryLevel_findUnique (id : nat) : M (option InventoryLevel) :=
  fun s => (s, Ok (find (fun l => Nat.eqb (lvl_id l) id) (levels s))).

(** [inventoryLevel.findFirst({ where })] *)
Definition inventoryLevel_findFirst (cond : InventoryLevel -> bool)
  : M (option InventoryLevel) :=
  fun s => (s, Ok (find cond (levels s))).

(** [inventoryLevel.create({ data })]: the row gets the next id. *)
Definition inventoryLevel_create (data : nat -> InventoryLevel) : M InventoryLevel :=
  fun s =>
    let row := data (nextId s) in
    (withLevels (levels s ++ [row])%list (S (nextId s)) s, Ok row).

(** [inventoryLevel.update({ where: { id }, data })] *)
Definition inventoryLevel_update (id : nat) (data : InventoryLevel -> InventoryLevel)
  : M InventoryLevel :=
  fun s =>
    match find (fun l => Nat.eqb (lvl_id l) id) (levels s) with
    | None => (s, Throw recordNotFound)
    | Some l =>
      (withLevels (replaceFirst (fun l => Nat.eqb (lvl_id l) id) data (levels s))
                  (nextId s) s,
       Ok (data l))
    end.

(** [transaction.findUnique({ where: { id } })] *)
Definition transaction_findUnique (id : nat) : M (option Transaction) :=
  fun s => (s, Ok (find (fun t => Nat.eqb (tx_id t) id) (transactions s))).

(** [transaction.create({ data })] *)
Definition transaction_create (data : nat -> Transaction) : M Transaction :=
  fun s =>
    let row := data (nextId s) in
    (withTransactions (transactions s ++ [row])%list (S (nextId s)) s, Ok row).

(** [transaction.update({ where: { id }, data })] *)
Definition transaction_update (id : nat) (data : Transaction -> Transaction)
  : M Transaction :=
  fun s =>
    match find (fun t => Nat.eqb (tx_id t) id) (transactions s) with
    | None => (s, Throw recordNotFound)
    | Some t =>
      (withTransactions
         (replaceFirst (fun t => Nat.eqb (tx_id t) id) data (transactions s))
         (nextId s) s,
       Ok (data t))
    end.

(** [stockAlert.findFirst({ where })] *)
Definition stockAlert_findFirst (cond : StockAlert -> bool) : M (option StockAlert) :=
  fun s => (s, Ok (find cond (stockAlerts s))).

(** [stockAlert.create({ data })]; [isResolved] is filled by the caller
    with the column default. *)
Definition stockAlert_create (data : nat -> StockAlert) : M StockAlert :=
  fun s =>
    let row := data (nextId s) in
    (withAlerts (stockAlerts s ++ [row])%list (S (nextId s)) s, Ok row).

End prisma.

(** ** Messages of the errors the claims below speak of *)

Definition insufficient : string := "Insufficient inventory quantity".

Definition alreadyCompleted : string := "Transaction already completed".

Definition mustBeApproved : string :=
  "Transaction must be approved before processing".

(** ** InventoryLevelService (inventory-level.service.ts) *)

(** Reading [level.item.x] when the included relation is missing. *)
Definition nullItem : string := "Cannot read properties of null".

(** The [item] relation loaded by [include: { item: true }]. *)
Definition itemOf (level : InventoryLevel) : M InventoryItem :=
  item <- prisma.inventoryItem_findUnique (lvl_itemId level) ;;
  match item with
  | Some i => ret i
  | None => throw nullItem
  end.

(** [a ?? level.item.f]: the relation is read only when [a] is nullish. *)
Definition nullishItem (a : option Z) (level : InventoryLevel)
    (f : InventoryItem -> option Z) : M (option Z) :=
  match a with
  | Some _ => ret a
  | None => item <- itemOf level ;; ret (f item)
  end.

(** The [where] clause of [getLevelByLocation]. *)
Definition locationWhere (itemId propertyId : string) (unitId roomId : option string)
    (l : InventoryLevel) : bool :=
  String.eqb (lvl_itemId l) itemId &&
  String.eqb (lvl_propertyId l) propertyId &&
  opt_eqb (lvl_unitId l) (orNull unitId) &&
  opt_eqb (lvl_roomId l) (orNull roomId).

Definition getLevelByLocation (itemId propertyId : string)
    (unitId roomId : option string) : M (option InventoryLevel) :=
  prisma.inventoryLevel_findFirst (locationWhere itemId propertyId unitId roomId).

Definition buildLocationPath (propertyId : string) (unitId roomId : option string)
    (locationName : option string) : string :=
  let parts := [propertyId] in
  let parts := if truthy unitId then (parts ++ [orElse unitId ""])%list else parts in
  let parts := if truthy roomId then (parts ++ [orElse roomId ""])%list else parts in
  let parts := if truthy locationName then (parts ++ [orElse locationName ""])%list else parts in
  String.concat "/" parts.

Definition createLevel (data : CreateInventoryLevelDTO) : M InventoryLevel :=
  let locationPath :=
    buildLocationPath (c_propertyId data) (c_unitId data) (c_roomId data)
                      (Some (c_locationName data)) in
  item <- prisma.inventoryItem_findUnique (c_itemId data) ;;
  match item with
  | None => throw "Item not found"
  | Some item =>
    let quantityOnHand :=
      match c_quantityOnHand data with Some q => q | None => 0 end in
    let minQuantity := nullish (c_minQuantity data) (it_reorderPoint item) in
    let maxQuantity := nullish (c_maxQuantity data) (it_maxQuantity item) in
    let reorderPoint := nullish (c_reorderPoint data) (it_reorderPoint item) in
    let alertLevel := calculateAlertLevel quantityOnHand reorderPoint maxQuantity in
    prisma.inventoryLevel_create (fun id => {|
      lvl_id := id;
      lvl_itemId := c_itemId data;
      lvl_propertyId := c_propertyId data;
      lvl_unitId := c_unitId data;
      lvl_roomId := c_roomId data;
      lvl_locationName := c_locationName data;
      lvl_locationPath := locationPath;
      quantityOnHand := quantityOnHand;
      quantityReserved := 0;
      quantityAvailable := quantityOnHand;
      lvl_minQuantity := minQuantity;
      lvl_maxQuantity := maxQuantity;
      lvl_reorderPoint := reorderPoint;
      alertLevel := alertLevel;
      lastCountedDate := None;
      lastCountedBy := None;
      lvl_notes := c_notes data |})
  end.

(** The request with which [adjustInventory] creates a missing level. *)
Definition lazyLevel (itemId propertyId : string) (unitId roomId : option string)
    : CreateInventoryLevelDTO := {|
  c_itemId := itemId;
  c_propertyId := propertyId;
  c_unitId := unitId;
  c_roomId := roomId;
  c_locationName :=
    (propertyId
     ++ (if truthy unitId then "/" ++ orElse unitId "" else "")
     ++ (if truthy roomId then "/" ++ orElse roomId "" else ""))%string;
  c_quantityOnHand := Some 0;
  c_minQuantity := None;
  c_maxQuantity := None;
  c_reorderPoint := None;
  c_notes := None |}.

(** [{ ...data, quantityAvailable, alertLevel }] written over a row. *)
Definition updateData (data : UpdateInventoryLevelDTO)
    (quantityAvailable' : Z) (alertLevel' : StockAlertLevel)
    (l : InventoryLevel) : InventoryLevel := {|
  lvl_id := lvl_id l;
  lvl_itemId := match u_itemId data with Some x => x | None => lvl_itemId l end;
  lvl_propertyId :=
    match u_propertyId data with Some x => x | None => lvl_propertyId l end;
  lvl_unitId := nullish (u_unitId data) (lvl_unitId l);
  lvl_roomId := nullish (u_roomId data) (lvl_roomId l);
  lvl_locationName :=
    match u_locationName data with Some x => x | None => lvl_locationName l end;
  lvl_locationPath := lvl_locationPath l;
  quantityOnHand :=
    match u_quantityOnHand data with Some q => q | None => quantityOnHand l end;
  quantityReserved :=
    match u_quantityReserved data with Some q => q | None => quantityReserved l end;
  quantityAvailable := quantityAvailable';
  lvl_minQuantity := nullish (u_minQuantity data) (lvl_minQuantity l);
  lvl_maxQuantity := nullish (u_maxQuantity data) (lvl_maxQuantity l);
  lvl_reorderPoint := nullish (u_reorderPoint data) (lvl_reorderPoint l);
  alertLevel := alertLevel';
  lastCountedDate := lastCountedDate l;
  lastCountedBy := lastCountedBy l;
  lvl_notes := nullish (u_notes data) (lvl_notes l) |}.

Definition updateLevel (id : nat) (data : UpdateInventoryLevelDTO) : M InventoryLevel :=
  level <- prisma.inventoryLevel_findUnique id ;;
  match level with
  | None => throw "Inventory level not found"
  | Some level =>
    let quantityOnHand :=
      match u_quantityOnHand data with Some q => q | None => quantityOnHand level end in
    let quantityReserved :=
      match u_quantityReserved data with
      | Some q => q
      | None => quantityReserved level
      end in
    let quantityAvailable := quantityOnHand - quantityReserved in
    reorderPoint <-
      nullishItem (nullish (u_reorderPoint data) (lvl_reorderPoint level))
                  level it_reorderPoint ;;
    maxQuantity <-
      nullishItem (nullish (u_maxQuantity data) (lvl_maxQuantity level))
                  level it_maxQuantity ;;
    let alertLevel := calculateAlertLevel quantityOnHand reorderPoint maxQuantity in
    prisma.inventoryLevel_update id (updateData data quantityAvailable alertLevel)
  end.

(** [{ quantityOnHand: q }] *)
Definition setOnHand (q : Z) : UpdateInventoryLevelDTO := {|
  u_itemId := None; u_propertyId := None; u_unitId := None; u_roomId := None;
  u_locationName := None; u_quantityOnHand := Some q; u_quantityReserved := None;
  u_minQuantity := None; u_maxQuantity := None; u_reorderPoint := None;
  u_notes := None |}.

(** [{ quantityReserved: q }] *)
Definition setReserved (q : Z) : UpdateInventoryLevelDTO := {|
  u_itemId := None; u_propertyId := None; u_unitId := None; u_roomId := None;
  u_locationName := None; u_quantityOnHand := None; u_quantityReserved := Some q;
  u_minQuantity := None; u_maxQuantity := None; u_reorderPoint := None;
  u_notes := None |}.

Definition checkAndCreateAlert (level : InventoryLevel) : M unit :=
  match alertLevel level with
  | CRITICAL | LOW =>
    existingAlert <-
      prisma.stockAlert_findFirst (fun a =>
        String.eqb (al_itemId a) (lvl_itemId level) &&
        Nat.eqb (al_levelId a) (lvl_id level) &&
        negb (isResolved a)) ;;
    match existingAlert with
    | Some _ => ret tt
    | None =>
      item <- itemOf level ;;
      prisma.stockAlert_create (fun id => {|
        al_id := id;
        al_itemId := lvl_itemId level;
        al_levelId := lvl_id level;
        alertType := alertLevel level;
        al_message :=
          (it_name item ++ " is " ++ alertLevel_toLowerCase (alertLevel level)
           ++ " at " ++ lvl_locationName level)%string;
        severity :=
          if StockAlertLevel_eqb (alertLevel level) CRITICAL
          then "critical" else "high";
        currentQuantity := quantityOnHand level;
        al_reorderPoint := orOptZ (lvl_reorderPoint level) (it_reorderPoint item);
        isResolved := false |}) ;;;
      ret tt
    end
  | _ => ret tt
  end.

(** The ADJUST ledger row that [adjustInventory] and [cycleCount] write:
    the location goes to the to-side for a positive quantity and to the
    from-side for a negative one. *)
Definition adjustRecord (now : Z) (itemId : string) (quantity : Z)
    (propertyId unitId roomId : option string)
    (reason reasonCode notes createdBy : option string) (id : nat) : Transaction := {|
  tx_id := id;
  tx_type := ADJUST;
  tx_status := COMPLETED;
  tx_itemId := itemId;
  tx_quantity := Z.abs quantity;
  fromPropertyId := if quantity <? 0 then propertyId else None;
  fromUnitId := if quantity <? 0 then unitId else None;
  fromRoomId := if quantity <? 0 then roomId else None;
  fromLocation := None;
  toPropertyId := if quantity >? 0 then propertyId else None;
  toUnitId := if quantity >? 0 then unitId else None;
  toRoomId := if quantity >? 0 then roomId else None;
  toLocation := None;
  tx_reason := reason;
  tx_reasonCode := reasonCode;
  tx_notes := notes;
  stagingDesignId := None;
  tx_createdBy := createdBy;
  approvedBy := None;
  approvedAt := None;
  rejectionReason := None;
  completedAt := Some now;
  transactionDate := now |}.

(** [reason || (quantity > 0 ? 'Inventory increase' : 'Inventory decrease')] *)
Definition adjustReason (data : AdjustInventoryDTO) : option string :=
  Some (orElse (a_reason data)
          (if a_quantity data >? 0 then "Inventory increase"
           else "Inventory decrease")).

Definition adjustInventory (now : Z) (data : AdjustInventoryDTO) : M InventoryLevel :=
  let itemId := a_itemId data in
  let propertyId := a_propertyId data in
  let unitId := a_unitId data in
  let roomId := a_roomId data in
  let quantity := a_quantity data in
  found <- getLevelByLocation itemId propertyId unitId roomId ;;
  level <-
    match found with
    | Some level => ret level
    | None =>
      item <- prisma.inventoryItem_findUnique itemId ;;
      match item with
      | None => throw "Item not found"
      | Some _ =>
        createLevel (lazyLevel itemId propertyId unitId roomId)
      end
    end ;;
  let newQuantity := quantityOnHand level + quantity in
  if newQuantity <? 0 then throw insufficient
  else
    updatedLevel <- updateLevel (lvl_id level) (setOnHand newQuantity) ;;
    prisma.transaction_create
      (adjustRecord now itemId quantity (Some propertyId) unitId roomId
         (adjustReason data) (a_reasonCode data) (a_notes data)
         (a_createdBy data)) ;;;
    checkAndCreateAlert updatedLevel ;;;
    ret updatedLevel.

Definition reserveInventory (itemId propertyId : string) (quantity : Z)
    (unitId roomId : option string) : M InventoryLevel :=
  level <- getLevelByLocation itemId propertyId unitId roomId ;;
  match level with
  | None => throw "Inventory level not found"
  | Some level =>
    if quantityAvailable level <? quantity
    then throw "Insufficient available inventory"
    else updateLevel (lvl_id level) (setReserved (quantityReserved level + quantity))
  end.

Definition releaseReservedInventory (itemId propertyId : string) (quantity : Z)
    (unitId roomId : option string) : M InventoryLevel :=
  level <- getLevelByLocation itemId propertyId unitId roomId ;;
  match level with
  | None => throw "Inventory level not found"
  | Some level =>
    if quantityReserved level <? quantity
    then throw "Cannot release more than reserved quantity"
    else updateLevel (lvl_id level) (setReserved (quantityReserved level - quantity))
  end.

(** [`${n}`] for an integer. *)
Definition numberToString (n : Z) : string :=
  DecimalString.NilZero.string_of_int (Z.to_int n).

(** The columns [cycleCount] writes, computed from the row [level] it read,
    over a row [l]. *)
Definition countData (now : Z) (countedQuantity : Z) (countedBy : string)
    (notes : option string) (level l : InventoryLevel) : InventoryLevel := {|
  lvl_id := lvl_id l;
  lvl_itemId := lvl_itemId l;
  lvl_propertyId := lvl_propertyId l;
  lvl_unitId := lvl_unitId l;
  lvl_roomId := lvl_roomId l;
  lvl_locationName := lvl_locationName l;
  lvl_locationPath := lvl_locationPath l;
  quantityOnHand := countedQuantity;
  quantityReserved := quantityReserved l;
  quantityAvailable := countedQuantity - quantityReserved level;
  lvl_minQuantity := lvl_minQuantity l;
  lvl_maxQuantity := lvl_maxQuantity l;
  lvl_reorderPoint := lvl_reorderPoint l;
  alertLevel := alertLevel l;
  lastCountedDate := Some now;
  lastCountedBy := Some countedBy;
  lvl_notes :=
    if truthy notes
    then Some (orElse (lvl_notes level) "" ++ newline ++ orElse notes "")%string
    else lvl_notes level |}.

Definition cycleCount (now : Z) (levelId : nat) (countedQuantity : Z)
    (countedBy : string) (notes : option string) : M (InventoryLevel * Z) :=
  level <- prisma.inventoryLevel_findUnique levelId ;;
  match level with
  | None => throw "Inventory level not found"
  | Some level =>
    let variance := countedQuantity - quantityOnHand level in
    updatedLevel <-
      prisma.inventoryLevel_update levelId
        (countData now countedQuantity countedBy notes level) ;;
    (if variance =? 0 then ret tt
     else
       prisma.transaction_create
         (adjustRecord now (lvl_itemId level) variance
            (Some (lvl_propertyId level)) (lvl_unitId level) (lvl_roomId level)
            (Some "Cycle count adjustment") (Some "CYCLE_COUNT")
            (Some ("Variance: " ++ numberToString variance ++ ". "
                   ++ orElse notes "")%string)
            (Some countedBy)) ;;;
       ret tt) ;;;
    ret (updatedLevel, variance)
  end.

(** ** TransactionService (transaction.service.ts) *)

(** A row written over with a new status and the columns that go with it. *)
Definition txWith (status : TransactionStatus) (notes approvedBy' : option string)
    (approvedAt' : option Z) (rejectionReason' : option string)
    (completedAt' : option Z) (t : Transaction) : Transaction := {|
  tx_id := tx_id t;
  tx_type := tx_type t;
  tx_status := status;
  tx_itemId := tx_itemId t;
  tx_quantity := tx_quantity t;
  fromPropertyId := fromPropertyId t;
  fromUnitId := fromUnitId t;
  fromRoomId := fromRoomId t;
  fromLocation := fromLocation t;
  toPropertyId := toPropertyId t;
  toUnitId := toUnitId t;
  toRoomId := toRoomId t;
  toLocation := toLocation t;
  tx_reason := tx_reason t;
  tx_reasonCode := tx_reasonCode t;
  tx_notes := notes;
  stagingDesignId := stagingDesignId t;
  tx_createdBy := tx_createdBy t;
  approvedBy := approvedBy';
  approvedAt := approvedAt';
  rejectionReason := rejectionReason';
  completedAt := completedAt';
  transactionDate := transactionDate t |}.

(** [`${x}`] for a nullable string column. *)
Definition interpolate (o : option string) : string :=
  match o with
  | Some s => s
  | None => "null"
  end.

(** The request the source leg of a transfer sends to the level engine. *)
Definition transferSourceLeg (transaction : Transaction) : AdjustInventoryDTO := {|
  a_itemId := tx_itemId transaction;
  a_propertyId := orElse (fromPropertyId transaction) "";
  a_unitId := orNull (fromUnitId transaction);
  a_roomId := orNull (fromRoomId transaction);
  a_quantity := - tx_quantity transaction;
  a_reason := Some ("Transfer to " ++ interpolate (toLocation transaction))%string;
  a_reasonCode := tx_reasonCode transaction;
  a_notes := None;
  a_createdBy := None |}.

(** The request the destination leg of a transfer sends to the level engine. *)
Definition transferDestinationLeg (transaction : Transaction) : AdjustInventoryDTO := {|
  a_itemId := tx_itemId transaction;
  a_propertyId := orElse (toPropertyId transaction) "";
  a_unitId := orNull (toUnitId transaction);
  a_roomId := orNull (toRoomId transaction);
  a_quantity := tx_quantity transaction;
  a_reason := Some ("Transfer from " ++ interpolate (fromLocation transaction))%string;
  a_reasonCode := tx_reasonCode transaction;
  a_notes := None;
  a_createdBy := None |}.

(** The request [processReceive] sends to the level engine. *)
Definition receiveRequest (transaction : Transaction) : AdjustInventoryDTO := {|
  a_itemId := tx_itemId transaction;
  a_propertyId := orElse (toPropertyId transaction) "";
  a_unitId := orNull (toUnitId transaction);
  a_roomId := orNull (toRoomId transaction);
  a_quantity := tx_quantity transaction;
  a_reason := Some (orElse (tx_reason transaction) "Inventory received");
  a_reasonCode := tx_reasonCode transaction;
  a_notes := tx_notes transaction;
  a_createdBy := None |}.

Definition processReceive (now : Z) (transaction : Transaction) : M unit :=
  if negb (truthy (toPropertyId transaction))
  then throw "Destination property required for receive transaction"
  else adjustInventory now (receiveRequest transaction) ;;; ret tt.

Definition processConsume (now : Z) (transaction : Transaction) : M unit :=
  if negb (truthy (fromPropertyId transaction))
  then throw "Source property required for consume transaction"
  else
    adjustInventory now {|
      a_itemId := tx_itemId transaction;
      a_propertyId := orElse (fromPropertyId transaction) "";
      a_unitId := orNull (fromUnitId transaction);
      a_roomId := orNull (fromRoomId transaction);
      a_quantity := - tx_quantity transaction;
      a_reason := Some (orElse (tx_reason transaction) "Inventory consumed");
      a_reasonCode := tx_reasonCode transaction;
      a_notes := tx_notes transaction;
      a_createdBy := None |} ;;;
    ret tt.

Definition processTransfer (now : Z) (transaction : Transaction) : M unit :=
  if negb (truthy (fromPropertyId transaction)) ||
     negb (truthy (toPropertyId transaction))
  then throw "Both source and destination properties required for transfer"
  else
    (* Decrease from source *)
    adjustInventory now (transferSourceLeg transaction) ;;;
    (* Increase at destination *)
    adjustInventory now (transferDestinationLeg transaction) ;;;
    ret tt.

Definition processAdjust (now : Z) (transaction : Transaction) : M unit :=
  let propertyId := orOpt (toPropertyId transaction) (fromPropertyId transaction) in
  let unitId := orOpt (toUnitId transaction) (fromUnitId transaction) in
  let roomId := orOpt (toRoomId transaction) (fromRoomId transaction) in
  if negb (truthy propertyId) then throw "Property required for adjustment"
  else
    let quantity :=
      if truthy (toPropertyId transaction)
      then tx_quantity transaction else - tx_quantity transaction in
    adjustInventory now {|
      a_itemId := tx_itemId transaction;
      a_propertyId := orElse propertyId "";
      a_unitId := orNull unitId;
      a_roomId := orNull roomId;
      a_quantity := quantity;
      a_reason := Some (orElse (tx_reason transaction) "Manual adjustment");
      a_reasonCode := tx_reasonCode transaction;
      a_notes := tx_notes transaction;
      a_createdBy := None |} ;;;
    ret tt.

Definition processDamageOrDispose (now : Z) (transaction : Transaction) : M unit :=
  if negb (truthy (fromPropertyId transaction))
  then throw "Source property required for damage/dispose transaction"
  else
    adjustInventory now {|
      a_itemId := tx_itemId transaction;
      a_propertyId := orElse (fromPropertyId transaction) "";
      a_unitId := orNull (fromUnitId transaction);
      a_roomId := orNull (fromRoomId transaction);
      a_quantity := - tx_quantity transaction;
      a_reason :=
        Some (orElse (tx_reason transaction)
                ("Item " ++ type_toLowerCase (tx_type transaction) ++ "d")%string);
      a_reasonCode := tx_reasonCode transaction;
      a_notes := tx_notes transaction;
      a_createdBy := None |} ;;;
    (* Update item condition if damage *)
    if TransactionType_eqb (tx_type transaction) DAMAGE
    then prisma.inventoryItem_setCondition (tx_itemId transaction) "DAMAGED"
    else ret tt.

(** Prisma refuses [null] for the required [propertyId] column of a
    [where] clause; the message is the client's. *)
Definition nullProperty : string := "Argument propertyId must not be null".

Definition processAssign (transaction : Transaction) : M unit :=
  if negb (truthy (stagingDesignId transaction))
  then throw "Staging design required for assign transaction"
  else
    match fromPropertyId transaction with
    | None => throw nullProperty
    | Some propertyId =>
      reserveInventory (tx_itemId transaction) propertyId (tx_quantity transaction)
        (orNull (fromUnitId transaction)) (orNull (fromRoomId transaction)) ;;;
      ret tt
    end.

Definition processUnassign (transaction : Transaction) : M unit :=
  match toPropertyId transaction with
  | None => throw nullProperty
  | Some propertyId =>
    releaseReservedInventory (tx_itemId transaction) propertyId
      (tx_quantity transaction)
      (orNull (toUnitId transaction)) (orNull (toRoomId transaction)) ;;;
    ret tt
  end.

(** The [switch (transaction.type)] of [processTransaction]. *)
Definition dispatch (now : Z) (transaction : Transaction) : M unit :=
  match tx_type transaction with
  | RECEIVE => processReceive now transaction
  | CONSUME => processConsume now transaction
  | TRANSFER => processTransfer now transaction
  | ADJUST => processAdjust now transaction
  | DAMAGE | DISPOSE => processDamageOrDispose now transaction
  | ASSIGN => processAssign transaction
  | UNASSIGN => processUnassign transaction
  end.

(** The notes a failed processing leaves on the transaction. *)
Definition failureNotes (transaction : Transaction) (message : string) : string :=
  (orElse (tx_notes transaction) "" ++ newline ++ "Processing failed: " ++ message)%string.

Definition processTransaction (now : Z) (id : nat) : M bool :=
  transaction <- prisma.transaction_findUnique id ;;
  match transaction with
  | None => throw "Transaction not found"
  | Some transaction =>
    if TransactionStatus_eqb (tx_status transaction) COMPLETED
    then throw alreadyCompleted
    else if negb (TransactionStatus_eqb (tx_status transaction) APPROVED)
    then throw mustBeApproved
    else
      tryCatch
        (dispatch now transaction ;;;
         (* Mark as completed *)
         prisma.transaction_update id (fun t =>
           txWith COMPLETED (tx_notes t) (approvedBy t) (approvedAt t)
                  (rejectionReason t) (Some now) t) ;;;
         ret true)
        (fun error =>
           (* Mark as failed *)
           prisma.transaction_update id (fun t =>
             txWith CANCELLED (Some (failureNotes transaction error))
                    (approvedBy t) (approvedAt t) (rejectionReason t)
                    (completedAt t) t) ;;;
           throw error)
  end.

Definition requiresApproval (data : CreateTransactionDTO) : bool :=
  match ct_requiresApproval data with
  | Some b => b
  | None => false
  end.

(** [{ ...data, status: data.requiresApproval ? 'PENDING' : 'APPROVED' }] *)
Definition transactionRow (now : Z) (data : CreateTransactionDTO) (id : nat)
    : Transaction := {|
  tx_id := id;
  tx_type := ct_type data;
  tx_status := if requiresApproval data then PENDING else APPROVED;
  tx_itemId := ct_itemId data;
  tx_quantity := ct_quantity data;
  fromPropertyId := ct_fromPropertyId data;
  fromUnitId := ct_fromUnitId data;
  fromRoomId := ct_fromRoomId data;
  fromLocation := ct_fromLocation data;
  toPropertyId := ct_toPropertyId data;
  toUnitId := ct_toUnitId data;
  toRoomId := ct_toRoomId data;
  toLocation := ct_toLocation data;
  tx_reason := ct_reason data;
  tx_reasonCode := ct_reasonCode data;
  tx_notes := ct_notes data;
  stagingDesignId := ct_stagingDesignId data;
  tx_createdBy := ct_createdBy data;
  approvedBy := None;
  approvedAt := None;
  rejectionReason := None;
  completedAt := None;
  transactionDate := now |}.

Definition createTransaction (now : Z) (data : CreateTransactionDTO) : M Transaction :=
  item <- prisma.inventoryItem_findUnique (ct_itemId data) ;;
  match item with
  | None => throw "Item not found"
  | Some _ =>
    transaction <- prisma.transaction_create (transactionRow now data) ;;
    (* If auto-approved, process immediately *)
    (if negb (requiresApproval data)
     then processTransaction now (tx_id transaction) ;;; ret tt
     else ret tt) ;;;
    ret transaction
  end.

Definition approveTransaction (now : Z) (id : nat) (data : ApproveTransactionDTO)
    : M Transaction :=
  transaction <- prisma.transaction_findUnique id ;;
  match transaction with
  | None => throw "Transaction not found"
  | Some transaction =>
    if negb (TransactionStatus_eqb (tx_status transaction) PENDING)
    then throw "Transaction is not pending approval"
    else
      updated <-
        prisma.transaction_update id (fun t =>
          txWith APPROVED
            (if truthy (ap_notes data)
             then Some (orElse (tx_notes transaction) "" ++ newline
                        ++ "Approval: " ++ orElse (ap_notes data) "")%string
             else tx_notes transaction)
            (Some (ap_approvedBy data)) (Some now) (rejectionReason t)
            (completedAt t) t) ;;
      processTransaction now id ;;;
      ret updated
  end.

Definition rejectTransaction (now : Z) (id : nat) (data : RejectTransactionDTO)
    : M Transaction :=
  transaction <- prisma.transaction_findUnique id ;;
  match transaction with
  | None => throw "Transaction not found"
  | Some transaction =>
    if negb (TransactionStatus_eqb (tx_status transaction) PENDING)
    then throw "Transaction is not pending approval"
    else
      prisma.transaction_update id (fun t =>
        txWith REJECTED (tx_notes t) (Some (rj_rejectedBy data)) (Some now)
               (Some (rj_rejectionReason data)) (completedAt t) t)
  end.

Definition transferInventory (now : Z) (data : TransferInventoryDTO) : M Transaction :=
  fromLevel <-
    getLevelByLocation (tr_itemId data) (tr_fromPropertyId data)
                       (tr_fromUnitId data) (tr_fromRoomId data) ;;
  match fromLevel with
  | None => throw "Source inventory level not found"
  | Some fromLevel =>
    if quantityAvailable fromLevel <? tr_quantity data
    then throw "Insufficient inventory at source location"
    else
      createTransaction now {|
        ct_type := TRANSFER;
        ct_itemId := tr_itemId data;
        ct_quantity := tr_quantity data;
        ct_fromPropertyId := Some (tr_fromPropertyId data);
        ct_fromUnitId := tr_fromUnitId data;
        ct_fromRoomId := tr_fromRoomId data;
        ct_fromLocation := Some (lvl_locationName fromLevel);
        ct_toPropertyId := Some (tr_toPropertyId data);
        ct_toUnitId := tr_toUnitId data;
        ct_toRoomId := tr_toRoomId data;
        ct_toLocation :=
          Some (tr_toPropertyId data
                ++ (if truthy (tr_toUnitId data)
                    then "/" ++ orElse (tr_toUnitId data) "" else "")
                ++ (if truthy (tr_toRoomId data)
                    then "/" ++ orElse (tr_toRoomId data) "" else ""))%string;
        ct_reasonCode := None;
        ct_reason := Some (orElse (tr_reason data) "Inventory transfer");
        ct_notes := tr_notes data;
        ct_requiresApproval := Some false;
        ct_stagingDesignId := None;
        ct_createdBy := tr_createdBy data |}
  end.

(** ** ForecastingService (forecasting.service.ts)

    A date string ['YYYY-MM-DD'] is the number of its calendar day;
    [localeCompare] on such strings is the order of the day numbers. *)

Definition msPerDay : Z := 86400000.

(** [dayjs(t).format('YYYY-MM-DD')] *)
Definition dayOf (t : Z) : Z := t / msPerDay.

(** [dayjs(t).add(n, 'days')] *)
Definition addDays (t n : Z) : Z := t + n * msPerDay.

Record ForecastPoint := {
  date : Z;
  predictedDemand : Q;
  lowerBound : Q;
  upperBound : Q;
  confidence : Q }.

(** What the prediction service (or the fallback) hands back. *)
Record ForecastData := {
  forecasts : list ForecastPoint;
  seasonal_factor : option Q;
  trend_factor : option Q;
  model_version : option string }.

Record ForecastDemandDTO := {
  f_itemId : string;
  f_propertyId : option string;
  f_periodDays : option Z }.

Record DemandForecastResult := {
  r_itemId : string;
  r_propertyId : option string;
  r_forecasts : list ForecastPoint;
  recommendedOrder : option Z;   (* [None] is NaN *)
  safetyStock : option Z }.

(** The external prediction service: the answer to a POST of
    [(historical_data, periods, item_id, property_id)], or [None] when
    the call throws (network error, non-2xx status, timeout). *)
Definition Prophet : Type :=
  list (Z * Z) -> Z -> string -> option string -> option ForecastData.

(** A JavaScript [Map] keyed by date, in insertion order. *)
Fixpoint mapGet (k : Z) (m : list (Z * Z)) : option Z :=
  match m with
  | [] => None
  | (k', v) :: r => if k' =? k then Some v else mapGet k r
  end.

Fixpoint mapSet (k v : Z) (m : list (Z * Z)) : list (Z * Z) :=
  match m with
  | [] => [(k, v)]
  | (k', v') :: r => if k' =? k then (k, v) :: r else (k', v') :: mapSet k v r
  end.

(** A stable sort on a numeric key ([Array.prototype.sort], [orderBy ... asc]). *)
Fixpoint insertBy {A} (key : A -> Z) (x : A) (l : list A) : list A :=
  match l with
  | [] => [x]
  | y :: r => if key y <=? key x then y :: insertBy key x r else x :: y :: r
  end.

Definition sortBy {A} (key : A -> Z) (l : list A) : list A :=
  fold_left (fun acc x => insertBy key x acc) l [].

Definition getHistoricalConsumption (now : Z) (itemId : string)
    (propertyId : option string) (days : Z) (s : Store) : list (Z * Z) :=
  let startDate := addDays now (- days) in
  let transactions :=
    sortBy transactionDate
      (filter (fun t =>
         String.eqb (tx_itemId t) itemId &&
         TransactionType_eqb (tx_type t) CONSUME &&
         TransactionStatus_eqb (tx_status t) COMPLETED &&
         (startDate <=? transactionDate t) &&
         (if truthy propertyId
          then opt_eqb (fromPropertyId t) propertyId else true))
        (transactions s)) in
  (* Initialize all dates with 0 *)
  let dailyConsumption :=
    fold_left (fun m i => mapSet (dayOf (addDays now (- Z.of_nat i))) 0 m)
              (seq 0 (Z.to_nat days)) [] in
  (* Add actual consumption *)
  let dailyConsumption :=
    fold_left (fun m t =>
                 let date := dayOf (transactionDate t) in
                 let current :=
                   match mapGet date m with Some c => c | None => 0 end in
                 mapSet date (current + tx_quantity t) m)
              transactions dailyConsumption in
  sortBy fst dailyConsumption.

(** [historicalData.slice(-n)] *)
Definition sliceLast {A} (n : nat) (l : list A) : list A :=
  skipn (List.length l - n) l.

Definition sumQ (l : list Q) : Q := fold_left Qplus l 0%Q.

Definition simpleMovingAverageForecast (now : Z) (historicalData : list (Z * Z))
    (periods : Z) : ForecastData :=
  let recentData := sliceLast 14 historicalData in
  let avgDemand :=
    (sumQ (map (fun d => inject_Z (snd d)) recentData)
     / inject_Z (Z.of_nat (List.length recentData)))%Q in
  {| forecasts :=
       map (fun i => {|
              date := dayOf (addDays now (Z.of_nat i));
              predictedDemand := avgDemand;
              lowerBound := (avgDemand * (7 # 10))%Q;
              upperBound := (avgDemand * (13 # 10))%Q;
              confidence := 6 # 10 |})
           (seq 1 (Z.to_nat periods));
     seasonal_factor := Some 1%Q;
     trend_factor := Some 1%Q;
     model_version := Some "simple-ma" |}.

Definition storeForecastResults (now : Z) (itemId : string)
    (propertyId : option string) (forecastData : ForecastData) : M unit :=
  fun s =>
    let rows :=
      map (fun f => {|
             fc_itemId := itemId;
             fc_propertyId := orNull propertyId;
             forecastDate := now;
             periodStart := date f * msPerDay;
             periodEnd := (date f + 1) * msPerDay;
             fc_predictedDemand := predictedDemand f;
             fc_lowerBound := lowerBound f;
             fc_upperBound := upperBound f;
             fc_confidence := confidence f;
             seasonalFactor := seasonal_factor forecastData;
             trendFactor := trend_factor forecastData;
             modelVersion := orElse (model_version forecastData) "prophet-v1" |})
          (forecasts forecastData) in
    (* Delete old forecasts for this item/property *)
    let kept :=
      filter (fun r =>
                negb (String.eqb (fc_itemId r) itemId &&
                      opt_eqb (fc_propertyId r) (orNull propertyId) &&
                      (forecastDate r <? addDays now (-7))))
             (demandForecasts s) in
    (* Insert new forecasts *)
    (prisma.withForecasts (kept ++ rows)%list s, Ok tt).

(** [Math.ceil(stdDev * 1.65)] for [stdDev = Math.sqrt(variance)], over
    the reals: the least integer [n] with [n * n >= variance * 1.65^2]. *)
Definition ceilScaledSqrt (variance : Q) : Z :=
  Z.sqrt_up (Qceiling (variance * (33 # 20) * (33 # 20))).

(** The square of [calculateStdDev(values)]. *)
Definition variance (values : list Q) : Q :=
  let n := inject_Z (Z.of_nat (List.length values)) in
  let avg := (sumQ values / n)%Q in
  let squareDiffs := map (fun v => ((v - avg) * (v - avg))%Q) values in
  (sumQ squareDiffs / n)%Q.

Definition insufficientHistory : string :=
  "Insufficient historical data for forecasting (minimum 7 days required)".

Definition forecastDemand (now : Z) (prophet : Prophet) (data : ForecastDemandDTO)
    : M DemandForecastResult :=
  let itemId := f_itemId data in
  let propertyId := f_propertyId data in
  let periodDays := match f_periodDays data with Some p => p | None => 30 end in
  item <- prisma.inventoryItem_findUnique itemId ;;
  match item with
  | None => throw "Item not found"
  | Some _ =>
    historicalData <-
      (fun s => (s, Ok (getHistoricalConsumption now itemId propertyId
                          (config.historicalDays config.forecasting) s))) ;;
    if (List.length historicalData <? 7)%nat then throw insufficientHistory
    else
      let forecastData :=
        match prophet historicalData periodDays itemId propertyId with
        | Some response => response
        | None =>
          (* Fallback to simple moving average if Prophet service unavailable *)
          simpleMovingAverageForecast now historicalData periodDays
        end in
      storeForecastResults now itemId propertyId forecastData ;;;
      let demands := map predictedDemand (forecasts forecastData) in
      let avgDemand :=
        (sumQ demands / inject_Z (Z.of_nat (List.length demands)))%Q in
      let safetyStock' := ceilScaledSqrt (variance demands) in
      let avgLeadTime := 7 in
      let recommendedOrder' :=
        Qceiling (avgDemand * inject_Z avgLeadTime + inject_Z safetyStock') in
      ret {|
        r_itemId := itemId;
        r_propertyId := propertyId;
        r_forecasts := forecasts forecastData;
        recommendedOrder :=
          match demands with [] => None | _ => Some recommendedOrder' end;
        safetyStock :=
          match demands with [] => None | _ => Some safetyStock' end |}
  end.

(** ** The operations a caller can invoke, and the states they reach *)

Inductive Operation :=
| CreateLevel (data : CreateInventoryLevelDTO)
| UpdateLevel (id : nat) (data : UpdateInventoryLevelDTO)
| AdjustInventory (data : AdjustInventoryDTO)
| ReserveInventory (itemId propertyId : string) (quantity : Z)
                   (unitId roomId : option string)
| ReleaseReservedInventory (itemId propertyId : string) (quantity : Z)
                           (unitId roomId : option string)
| CycleCount (levelId : nat) (countedQuantity : Z) (countedBy : string)
             (notes : option string)
| CreateTransaction (data : CreateTransactionDTO)
| ApproveTransaction (id : nat) (data : ApproveTransactionDTO)
| RejectTransaction (id : nat) (data : RejectTransactionDTO)
| ProcessTransaction (id : nat)
| TransferInventory (data : TransferInventoryDTO).

(** The store a call leaves behind, whether it returns or throws. *)
Definition perform (now : Z) (op : Operation) (s : Store) : Store :=
  match op with
  | CreateLevel data => fst (createLevel data s)
  | UpdateLevel id data => fst (updateLevel id data s)
  | AdjustInventory data => fst (adjustInventory now data s)
  | ReserveInventory itemId propertyId quantity unitId roomId =>
    fst (reserveInventory itemId propertyId quantity unitId roomId s)
  | ReleaseReservedInventory itemId propertyId quantity unitId roomId =>
    fst (releaseReservedInventory itemId propertyId quantity unitId roomId s)
  | CycleCount levelId countedQuantity countedBy notes =>
    fst (cycleCount now levelId countedQuantity countedBy notes s)
  | CreateTransaction data => fst (createTransaction now data s)
  | ApproveTransaction id data => fst (approveTransaction now id data s)
  | RejectTransaction id data => fst (rejectTransaction now id data s)
  | ProcessTransaction id => fst (processTransaction now id s)
  | TransferInventory data => fst (transferInventory now data s)
  end.

(** A run: calls in order, each at its clock reading. *)
Definition performAll (calls : list (Z * Operation)) (s : Store) : Store :=
  fold_left (fun s c => perform (fst c) (snd c) s) calls s.

Definition reachable (s : Store) : Prop :=
  exists its calls, s = performAll calls (initialStore its).


(** The calls of [adjustInventory] alone. *)
Definition isAdjust (op : Operation) : Prop :=
  match op with
  | AdjustInventory _ => True
  | _ => False
  end.

(** ** Properties of stores *)



(** Row ids are distinct and below the counter. *)
Definition idsFresh (s : Store) : Prop :=
  NoDup (map lvl_id (levels s)) /\
  Forall (fun l => (lvl_id l < nextId s)%nat) (levels s).


(** A level whose alert level is one of the two low-stock ones. *)
Definition lowStock (l : InventoryLevel) : Prop :=
  alertLevel l = CRITICAL \/ alertLevel l = LOW.

(** Open alerts of one (item, level) pair. *)
Definition openAlerts (itemId : string) (levelId : nat) (s : Store) : list StockAlert :=
  filter (fun a => String.eqb (al_itemId a) itemId &&
                   Nat.eqb (al_levelId a) levelId &&
                   negb (isResolved a))
         (stockAlerts s).

(** At most one open alert for every (item, level) pair. *)
Definition alertsDeduplicated (s : Store) : Prop :=
  forall itemId levelId, (List.length (openAlerts itemId levelId s) <= 1)%nat.

(** The quantities of every level, in store order. *)
Definition quantities (s : Store) : list (Z * Z * Z) :=
  map (fun l => (quantityOnHand l, quantityReserved l, quantityAvailable l)) (levels s).


(** The [where] clause and the ledger row of one [adjustInventory] call. *)
Definition adjustWhere (data : AdjustInventoryDTO) : InventoryLevel -> bool :=
  locationWhere (a_itemId data) (a_propertyId data) (a_unitId data) (a_roomId data).

Definition adjustLedgerRow (now : Z) (data : AdjustInventoryDTO) : nat -> Transaction :=
  adjustRecord now (a_itemId data) (a_quantity data) (Some (a_propertyId data))
    (a_unitId data) (a_roomId data) (adjustReason data) (a_reasonCode data)
    (a_notes data) (a_createdBy data).

(** The store in the middle of [createTransaction]: the row is written,
    approved, and not yet processed. *)
Definition submitted (now : Z) (data : CreateTransactionDTO) (s : Store) : Store :=
  fst (prisma.transaction_create (transactionRow now data) s).

(** The specification's fallback figure: the average of the last 14 days
    of a daily series. *)
Definition movingAverage (history : list (Z * Z)) : Q :=
  (sumQ (map (fun d => inject_Z (snd d)) (sliceLast 14 history)) / 14)%Q.

(** The days of a series on which something was consumed. *)
Definition daysWithData (history : list (Z * Z)) : list (Z * Z) :=
  filter (fun d => negb (snd d =? 0)) history.

(** *** Relations between the store before a call and the store after

    [respects R m]: every call of [m] keeps [R]; with a reflexive and
    transitive [R] this passes through sequencing and [try]/[catch]. *)
Definition respects {A} (R : Store -> Store -> Prop) (m : M A) : Prop :=
  forall s, R s (fst (m s)).


Definition keepsIds (s s' : Store) : Prop := idsFresh s -> idsFresh s'.

Definition keepsAlerts (s s' : Store) : Prop :=
  alertsDeduplicated s -> alertsDeduplicated s'.

(** The ledger only grows at its end. *)
Definition ledgerGrows (s s' : Store) : Prop :=
  exists extra, transactions s' = (transactions s ++ extra)%list.

(** ** Sample data for the concrete runs *)

Definition towel : InventoryItem := {|
  it_id := "towel"; it_name := "Bath towel";
  it_reorderPoint := Some 12; it_reorderQuantity := Some 24;
  it_maxQuantity := Some 40; it_condition := "GOOD" |}.

(** [adjustInventory({ itemId: 'towel', propertyId, quantity })] *)
Definition adjustTowels (propertyId : string) (quantity : Z) : AdjustInventoryDTO := {|
  a_itemId := "towel"; a_propertyId := propertyId;
  a_unitId := None; a_roomId := None; a_quantity := quantity;
  a_reason := None; a_reasonCode := None; a_notes := None; a_createdBy := None |}.

(** [createLevel({ itemId: 'towel', propertyId, quantityOnHand })] *)
Definition towelLevel (propertyId : string) (quantity : Z) : CreateInventoryLevelDTO := {|
  c_itemId := "towel"; c_propertyId := propertyId;
  c_unitId := None; c_roomId := None; c_locationName := propertyId;
  c_quantityOnHand := Some quantity;
  c_minQuantity := None; c_maxQuantity := None; c_reorderPoint := None;
  c_notes := None |}.

(** [createTransaction({ type, itemId: 'towel', quantity, from, to })],
    auto-approved unless [approval] is set. *)
Definition towelTransaction (type : TransactionType) (quantity : Z)
    (from to : option string) (approval : bool) : CreateTransactionDTO := {|
  ct_type := type; ct_itemId := "towel"; ct_quantity := quantity;
  ct_fromPropertyId := from; ct_fromUnitId := None; ct_fromRoomId := None;
  ct_fromLocation := from;
  ct_toPropertyId := to; ct_toUnitId := None; ct_toRoomId := None;
  ct_toLocation := to;
  ct_reasonCode := None; ct_reason := None; ct_notes := None;
  ct_requiresApproval := Some approval; ct_stagingDesignId := None;
  ct_createdBy := None |}.

(** [forecastDemand({ itemId: 'towel' })] *)
Definition forecastTowels : ForecastDemandDTO := {|
  f_itemId := "towel"; f_propertyId := None; f_periodDays := None |}.

(** A prediction service that cannot be reached. *)
Definition unreachable : Prophet := fun _ _ _ _ => None.

(** A level whose unit and room are absent. *)
Definition lobbyLevel : InventoryLevel := {|
  lvl_id := 0; lvl_itemId := "towel"; lvl_propertyId := "p1";
  lvl_unitId := None; lvl_roomId := None;
  lvl_locationName := "p1"; lvl_locationPath := "p1/p1";
  quantityOnHand := 4; quantityReserved := 0; quantityAvailable := 4;
  lvl_minQuantity := None; lvl_maxQuantity := None; lvl_reorderPoint := None;
  alertLevel := NORMAL; lastCountedDate := None; lastCountedBy := None;
  lvl_notes := None |}.

(** The same place, stored with an empty-string unit. *)
Definition emptyUnitLevel : InventoryLevel := {|
  lvl_id := 1; lvl_itemId := "towel"; lvl_propertyId := "p1";
  lvl_unitId := Some ""; lvl_roomId := None;
  lvl_locationName := "p1"; lvl_locationPath := "p1/p1";
  quantityOnHand := 9; quantityReserved := 0; quantityAvailable := 9;
  lvl_minQuantity := None; lvl_maxQuantity := None; lvl_reorderPoint := None;
  alertLevel := NORMAL; lastCountedDate := None; lastCountedBy := None;
  lvl_notes := None |}.

(** Five towels received at p1 by an auto-approved, processed transaction. *)
Definition receivedStore : Store :=
  performAll [(1000, CreateTransaction (towelTransaction RECEIVE 5 None (Some "p1") false))]
             (initialStore [towel]).

(** A RECEIVE of five towels at p1, written and approved, in an empty ledger. *)
Definition receiveSubmitted : Store :=
  submitted 1000 (towelTransaction RECEIVE 5 None (Some "p1") false)
            (initialStore [towel]).

(** A TRANSFER of three towels from p1 (holding five) to p2, written and
    approved, in an empty ledger. *)
Definition transferSubmitted : Store :=
  submitted 2000 (towelTransaction TRANSFER 3 (Some "p1") (Some "p2") false)
            (performAll [(1000, CreateLevel (towelLevel "p1" 5))]
                        (initialStore [towel])).




(** The towel has a reorder point of 12; with 24 received at p1, taking
    21 out leaves 3: a LOW level. *)
Definition wellStocked : Store :=
  performAll [(1000, AdjustInventory (adjustTowels "p1" 24))] (initialStore [towel]).

(** A hundred towels received at p1 on day 0 and two consumed there on
    each of the days 1 to 5. *)
Definition fiveDaysOfHistory : Store :=
  performAll
    [(0, AdjustInventory (adjustTowels "p1" 100));
     (1 * msPerDay, CreateTransaction (towelTransaction CONSUME 2 (Some "p1") None false));
     (2 * msPerDay, CreateTransaction (towelTransaction CONSUME 2 (Some "p1") None false));
     (3 * msPerDay, CreateTransaction (towelTransaction CONSUME 2 (Some "p1") None false));
     (4 * msPerDay, CreateTransaction (towelTransaction CONSUME 2 (Some "p1") None false));
     (5 * msPerDay, CreateTransaction (towelTransaction CONSUME 2 (Some "p1") None false))]
    (initialStore [towel]).

(** ** Properties of the ledger *)

(** A write to a transaction row that sets the status and the columns
    that go with it, and keeps the rest. *)
Definition statusWrite (data : Transaction -> Transaction) : Prop :=
  forall t, exists status notes approvedBy' approvedAt' rejectionReason' completedAt',
    data t = txWith status notes approvedBy' approvedAt' rejectionReason'
                    completedAt' t.

(** Transaction ids are below the counter. *)
Definition txFresh (s : Store) : Prop :=
  Forall (fun t => (tx_id t < nextId s)%nat) (transactions s).

(** No transaction is waiting to be processed. *)
Definition noneApproved (s : Store) : Prop :=
  Forall (fun t => tx_status t <> APPROVED) (transactions s).

(** The ledger grows at its end, by COMPLETED ADJUST rows only. *)
Definition ledgerGrowsByAdjust (s s' : Store) : Prop :=
  exists extra,
    transactions s' = (transactions s ++ extra)%list /\
    Forall (fun t => tx_type t = ADJUST /\ tx_status t = COMPLETED) extra.

Definition keepsTxFresh (s s' : Store) : Prop := txFresh s -> txFresh s'.

(** On-hand and reserved stock of an item, over all its levels. *)
Definition sumZ (l : list Z) : Z := fold_right Z.add 0 l.

Definition stockOf (itemId : string) (s : Store) : Z :=
  sumZ (map quantityOnHand
            (filter (fun l => String.eqb (lvl_itemId l) itemId) (levels s))).


(** ** Stock against the ledger *)

(** The signed quantity of a ledger row: counted in when the row names a
    destination property, out when it names a source property only. *)
Definition signedQuantity (t : Transaction) : Z :=
  match toPropertyId t, fromPropertyId t with
  | Some _, _ => tx_quantity t
  | None, Some _ => - tx_quantity t
  | None, None => 0
  end.

(** The net of the ADJUST rows of an item. *)
Definition ledgerBalance (itemId : string) (s : Store) : Z :=
  sumZ (map signedQuantity
            (filter (fun t => String.eqb (tx_itemId t) itemId &&
                              TransactionType_eqb (tx_type t) ADJUST)
                    (transactions s))).


(** Stock and ledger move together. *)
Definition reconciles (s s' : Store) : Prop :=
  idsFresh s ->
  idsFresh s' /\
  forall i, stockOf i s' - ledgerBalance i s' = stockOf i s - ledgerBalance i s.

(** ** What a processed transaction moves *)



(** The write of [approveTransaction] over the row it read. *)
Definition approvalWrite (now : Z) (data : ApproveTransactionDTO)
    (transaction t : Transaction) : Transaction :=
  txWith APPROVED
    (if truthy (ap_notes data)
     then Some (orElse (tx_notes transaction) "" ++ newline
                ++ "Approval: " ++ orElse (ap_notes data) "")%string
     else tx_notes transaction)
    (Some (ap_approvedBy data)) (Some now) (rejectionReason t) (completedAt t) t.

(** A RECEIVE of five towels at p1 that waits for approval. *)
Definition pendingReceive : Store :=
  performAll [(1000, CreateTransaction (towelTransaction RECEIVE 5 None (Some "p1") true))]
             (initialStore [towel]).

(** [{ approvedBy: 'ann' }] and [{ rejectedBy: 'ann', rejectionReason: 'not ordered' }] *)
Definition approvedByAnn : ApproveTransactionDTO := {|
  ap_approvedBy := "ann"; ap_notes := None |}.

Definition rejectedByAnn : RejectTransactionDTO := {|
  rj_rejectionReason := "not ordered"; rj_rejectedBy := "ann" |}.

(** ** Reading the item of a level *)

(** Whether [updateLevel] gets past its reads of [level.item]: the
    relation is read only where the reorder point or the max quantity is
    nullish in both the request and the row. *)
Definition itemReadable (data : UpdateInventoryLevelDTO) (level : InventoryLevel)
    (s : Store) : bool :=
  match nullish (u_reorderPoint data) (lvl_reorderPoint level),
        nullish (u_maxQuantity data) (lvl_maxQuantity level) with
  | Some _, Some _ => true
  | _, _ =>
    match find (fun i => String.eqb (it_id i) (lvl_itemId level)) (inventoryItems s) with
    | Some _ => true
    | None => false
    end
  end.

(** Twelve towels at p1, none reserved. *)
Definition twelveTowels : Store :=
  performAll [(1000, CreateLevel (towelLevel "p1" 12))] (initialStore [towel]).

(** [adjustInventory({ itemId: 'towel', propertyId: 'p1', unitId: '', quantity })] *)
Definition adjustTowelsEmptyUnit (quantity : Z) : AdjustInventoryDTO := {|
  a_itemId := "towel"; a_propertyId := "p1";
  a_unitId := Some ""; a_roomId := None; a_quantity := quantity;
  a_reason := None; a_reasonCode := None; a_notes := None; a_createdBy := None |}.

(** ** The low-stock report: [InventoryLevelService.getLowStockAlerts]

    The [sku] of the item is left out with its column. *)

Record LowStockAlert := {
  la_itemId : string;
  la_itemName : string;
  la_propertyId : string;
  la_locationName : string;
  la_currentQuantity : Z;
  la_reorderPoint : option Z;
  la_alertLevel : StockAlertLevel;
  la_recommendedOrder : option Z }.

(** [levels.map(f)] for an [f] that may throw. *)
Fixpoint mapM {A B} (f : A -> M B) (l : list A) : M (list B) :=
  match l with
  | [] => ret []
  | x :: r => y <- f x ;; ys <- mapM f r ;; ret (y :: ys)
  end.

(** The [where] clause of [getLowStockAlerts]. *)
Definition lowStockWhere (propertyId : option string) (l : InventoryLevel) : bool :=
  (StockAlertLevel_eqb (alertLevel l) CRITICAL || StockAlertLevel_eqb (alertLevel l) LOW) &&
  (if truthy propertyId then String.eqb (lvl_propertyId l) (orElse propertyId "")
   else true).

Definition getLowStockAlerts (propertyId : option string) : M (list LowStockAlert) :=
  fun s =>
    mapM (fun level =>
            item <- itemOf level ;;
            ret {| la_itemId := it_id item;
                   la_itemName := it_name item;
                   la_propertyId := lvl_propertyId level;
                   la_locationName := lvl_locationName level;
                   la_currentQuantity := quantityOnHand level;
                   la_reorderPoint :=
                     orOptZ (lvl_reorderPoint level) (it_reorderPoint item);
                   la_alertLevel := alertLevel level;
                   la_recommendedOrder := it_reorderQuantity item |})
         (filter (lowStockWhere propertyId) (levels s)) s.

(** A report entry without its quantity. *)
Definition withoutQuantity (a : LowStockAlert) : LowStockAlert := {|
  la_itemId := la_itemId a;
  la_itemName := la_itemName a;
  la_propertyId := la_propertyId a;
  la_locationName := la_locationName a;
  la_currentQuantity := 0;
  la_reorderPoint := la_reorderPoint a;
  la_alertLevel := la_alertLevel a;
  la_recommendedOrder := la_recommendedOrder a |}.

(** Two answers of the report that differ in the quantities at most. *)
Definition sameListing (r r' : Result (list LowStockAlert)) : Prop :=
  match r, r' with
  | Ok a, Ok a' => map withoutQuantity a = map withoutQuantity a'
  | Throw e, Throw e' => e = e'
  | _, _ => False
  end.

(** ** Alerts, once written *)

(** An alert as [checkAndCreateAlert] writes it: open, of one of the two
    low-stock types, with the severity that goes with the type. *)
Definition raisedAlert (a : StockAlert) : Prop :=
  isResolved a = false /\
  ((alertType a = CRITICAL /\ severity a = "critical") \/
   (alertType a = LOW /\ severity a = "high")).

(** The alert table grows at its end, by raised alerts only. *)
Definition alertsGrow (s s' : Store) : Prop :=
  exists extra,
    stockAlerts s' = (stockAlerts s ++ extra)%list /\ Forall raisedAlert extra.

(** ** The daily series *)

(** The ledger rows [getHistoricalConsumption] reads: completed CONSUME
    rows of the item since the start of the window, of the property when
    one is given. *)
Definition consumed (now : Z) (itemId : string) (propertyId : option string)
    (days : Z) (s : Store) : list Transaction :=
  filter (fun t =>
            String.eqb (tx_itemId t) itemId &&
            TransactionType_eqb (tx_type t) CONSUME &&
            TransactionStatus_eqb (tx_status t) COMPLETED &&
            (addDays now (- days) <=? transactionDate t) &&
            (if truthy propertyId
             then opt_eqb (fromPropertyId t) propertyId else true))
         (transactions s).

(** Strictly ascending. *)
Fixpoint ascending (l : list Z) : bool :=
  match l with
  | a :: r =>
    match r with
    | b :: _ => (a <? b) && ascending r
    | [] => true
    end
  | [] => true
  end.

(** ** Reading forecasts back: [ForecastingService.getForecast] *)

Definition getForecast (now : Z) (itemId : string) (propertyId : option string)
    : M (list DemandForecast) :=
  fun s =>
    (s, Ok (sortBy periodStart
              (filter (fun r =>
                         String.eqb (fc_itemId r) itemId &&
                         (addDays now (-7) <=? forecastDate r) &&
                         (now <=? periodStart r) &&
                         (if truthy propertyId
                          then opt_eqb (fc_propertyId r) propertyId else true))
                      (demandForecasts s)))).

(** ** Stock by place *)



(** ** InventoryLevelController (inventory-level.controller.ts)

    What a handler sends: a status code with the payload, or a status
    code with [{ error, message }]. *)

Inductive Reply (A : Type) :=
| Send (code : Z) (payload : A)
| Fail (code : Z) (error message : string).
Arguments Send {A} code payload.
Arguments Fail {A} code error message.

Definition statusCode {A} (r : Reply A) : Z :=
  match r with
  | Send code _ => code
  | Fail code _ _ => code
  end.

(** [message.includes(part)] *)
Definition includes (message part : string) : bool :=
  match String.index 0 part message with
  | Some _ => true
  | None => false
  end.

Definition internalError {A} (message : string) : Reply A :=
  Fail 500 "Internal Server Error" message.

Module controller.

Definition updateLevel (id : nat) (data : UpdateInventoryLevelDTO)
    (s : Store) : Store * Reply InventoryLevel :=
  match updateLevel id data s with
  | (s', Ok level) => (s', Send 200 level)
  | (s', Throw message) =>
    if includes message "not found" then (s', Fail 404 "Not Found" message)
    else (s', internalError message)
  end.

(** [createdBy] is [user?.userId]. *)
Definition adjustInventory (now : Z) (userId : option string) (data : AdjustInventoryDTO)
    (s : Store) : Store * Reply InventoryLevel :=
  match adjustInventory now {|
          a_itemId := a_itemId data;
          a_propertyId := a_propertyId data;
          a_unitId := a_unitId data;
          a_roomId := a_roomId data;
          a_quantity := a_quantity data;
          a_reason := a_reason data;
          a_reasonCode := a_reasonCode data;
          a_notes := a_notes data;
          a_createdBy := userId |} s with
  | (s', Ok level) => (s', Send 200 level)
  | (s', Throw message) =>
    if includes message "Insufficient" then (s', Fail 400 "Bad Request" message)
    else if includes message "not found" then (s', Fail 404 "Not Found" message)
    else (s', internalError message)
  end.

Definition reserveInventory (itemId propertyId : string) (quantity : Z)
    (unitId roomId : option string) (s : Store) : Store * Reply InventoryLevel :=
  match reserveInventory itemId propertyId quantity unitId roomId s with
  | (s', Ok level) => (s', Send 200 level)
  | (s', Throw message) =>
    if includes message "Insufficient" then (s', Fail 400 "Bad Request" message)
    else (s', internalError message)
  end.

Definition releaseReservedInventory (itemId propertyId : string) (quantity : Z)
    (unitId roomId : option string) (s : Store) : Store * Reply InventoryLevel :=
  match releaseReservedInventory itemId propertyId quantity unitId roomId s with
  | (s', Ok level) => (s', Send 200 level)
  | (s', Throw message) =>
    if includes message "Cannot release" then (s', Fail 400 "Bad Request" message)
    else (s', internalError message)
  end.

(** [countedBy] is [user?.userId || 'system']. *)
Definition cycleCount (now : Z) (userId : option string) (levelId : nat)
    (countedQuantity : Z) (notes : option string)
    (s : Store) : Store * Reply (InventoryLevel * Z) :=
  match cycleCount now levelId countedQuantity (orElse userId "system") notes s with
  | (s', Ok result) => (s', Send 200 result)
  | (s', Throw message) =>
    if includes message "not found" then (s', Fail 404 "Not Found" message)
    else (s', internalError message)
  end.

End controller.

(** Towels at p1 and one of them reported damaged. *)
Definition damagedTowel : CreateTransactionDTO :=
  towelTransaction DAMAGE 1 (Some "p1") None false.

(** ** Thresholds in force *)



(** ** Rows that are settled *)

(** A transaction that has reached the end of its life. *)
Definition settled (t : Transaction) : Prop :=
  tx_status t = COMPLETED \/ tx_status t = CANCELLED \/ tx_status t = REJECTED.

(** A row after a call: the same transaction, and the same row if it was
    settled. *)
Definition keptRow (t t' : Transaction) : Prop :=
  tx_id t' = tx_id t /\ (settled t -> t' = t).

(** The ledger after a call: the rows it had, settled ones untouched,
    and new rows at its end. *)
Definition keepsSettled (s s' : Store) : Prop :=
  exists rows extra,
    transactions s' = (rows ++ extra)%list /\
    Forall2 keptRow (transactions s) rows.

(** A RECEIVE of five towels that names no destination. *)
Definition receiveNowhere : CreateTransactionDTO :=
  towelTransaction RECEIVE 5 None None false.

(** A CONSUME of five towels from p1, where there are none, that waits
    for approval. *)
Definition pendingConsume : Store :=
  performAll [(1000, CreateTransaction (towelTransaction CONSUME 5 (Some "p1") None true))]
             (initialStore [towel]).

(** ** Numbers that add exactly

    [Number.isSafeInteger]: between such integers, and with such a
    result, the [+] and [-] of JavaScript are those of the integers. *)
Definition safeInteger (z : Z) : Prop := - 2 ^ 53 < z < 2 ^ 53.

(** What the rows that [getHistoricalConsumption] selects add up to,
    signs left aside: every partial sum of theirs stays within it. *)
Definition volume (rows : list Transaction) : Z :=
  sumZ (map (fun t => Z.abs (tx_quantity t)) rows).

(** ** Calls that overlap

    The service methods are [async]: a call steps aside at every
    [await] of a database call, and another call may take its turn
    before it goes on.  [checkAndCreateAlert], the last step of
    [adjustInventory], awaits twice, the [findFirst] and the [create];
    in between it holds on to what the [findFirst] answered. *)

(** [adjustInventory] up to its call of [checkAndCreateAlert]. *)
Definition adjustInventory_before_alert (now : Z) (data : AdjustInventoryDTO)
    : M InventoryLevel :=
  let itemId := a_itemId data in
  let propertyId := a_propertyId data in
  let unitId := a_unitId data in
  let roomId := a_roomId data in
  let quantity := a_quantity data in
  found <- getLevelByLocation itemId propertyId unitId roomId ;;
  level <-
    match found with
    | Some level => ret level
    | None =>
      item <- prisma.inventoryItem_findUnique itemId ;;
      match item with
      | None => throw "Item not found"
      | Some _ =>
        createLevel (lazyLevel itemId propertyId unitId roomId)
      end
    end ;;
  let newQuantity := quantityOnHand level + quantity in
  if newQuantity <? 0 then throw insufficient
  else
    updatedLevel <- updateLevel (lvl_id level) (setOnHand newQuantity) ;;
    prisma.transaction_create
      (adjustRecord now itemId quantity (Some propertyId) unitId roomId
         (adjustReason data) (a_reasonCode data) (a_notes data)
         (a_createdBy data)) ;;;
    ret updatedLevel.

(** An [adjustInventory] call between its awaits. *)
Inductive AdjustCall :=
| Called (now : Z) (data : AdjustInventoryDTO)
| Entered (level : InventoryLevel)    (* in [checkAndCreateAlert]; the [findFirst] is still to come *)
| Creating (level : InventoryLevel)   (* [findFirst] answered null; the [create] is still to come *)
| Returned (level : InventoryLevel)
| Thrown (e : string).

(** One turn of a call: the database call it waits for is made, and the
    call runs on to its next [await] or to its end.  The first turn
    takes the call through all its database calls before
    [checkAndCreateAlert] at once; calls may take turns there as well,
    which nothing below needs. *)
Definition turn (c : AdjustCall) (s : Store) : Store * AdjustCall :=
  match c with
  | Called now data =>
    match adjustInventory_before_alert now data s with
    | (s', Ok updatedLevel) => (s', Entered updatedLevel)
    | (s', Throw e) => (s', Thrown e)
    end
  | Entered level =>
    match alertLevel level with
    | CRITICAL | LOW =>
      match prisma.stockAlert_findFirst (fun a =>
              String.eqb (al_itemId a) (lvl_itemId level) &&
              Nat.eqb (al_levelId a) (lvl_id level) &&
              negb (isResolved a)) s with
      | (s', Ok (Some _)) => (s', Returned level)
      | (s', Ok None) => (s', Creating level)
      | (s', Throw e) => (s', Thrown e)
      end
    | _ => (s, Returned level)
    end
  | Creating level =>
    match (item <- itemOf level ;;
           prisma.stockAlert_create (fun id => {|
             al_id := id;
             al_itemId := lvl_itemId level;
             al_levelId := lvl_id level;
             alertType := alertLevel level;
             al_message :=
               (it_name item ++ " is " ++ alertLevel_toLowerCase (alertLevel level)
                ++ " at " ++ lvl_locationName level)%string;
             severity :=
               if StockAlertLevel_eqb (alertLevel level) CRITICAL
               then "critical" else "high";
             currentQuantity := quantityOnHand level;
             al_reorderPoint := orOptZ (lvl_reorderPoint level) (it_reorderPoint item);
             isResolved := false |})) s with
    | (s', Ok _) => (s', Returned level)
    | (s', Throw e) => (s', Thrown e)
    end
  | Returned level => (s, Returned level)
  | Thrown e => (s, Thrown e)
  end.

Fixpoint setNth {A} (i : nat) (x : A) (l : list A) : list A :=
  match l, i with
  | [], _ => []
  | _ :: r, O => x :: r
  | y :: r, S i' => y :: setNth i' x r
  end.

(** Calls in flight, taking turns in the order of [schedule]: each entry
    names the call whose database call is answered next. *)
Fixpoint overlap (schedule : list nat) (calls : list AdjustCall) (s : Store)
    : Store * list AdjustCall :=
  match schedule with
  | [] => (s, calls)
  | i :: rest =>
    match nth_error calls i with
    | Some c =>
      let (s', c') := turn c s in
      overlap rest (setNth i c' calls) s'
    | None => overlap rest calls s
    end
  end.

(** * Theorems *)

(** ** Alert evaluator *)










(** ** Location lookup *)

Lemma opt_eqb_eq (a b : option string) : opt_eqb a b = true <-> a = b.
Proof.
  destruct a as [x|], b as [y|]; simpl; try (split; congruence).
  rewrite String.eqb_eq. split; congruence.
Qed.

Lemma orNull_cases (o : option string) :
  (o = None /\ orNull o = None) \/
  (o = Some "" /\ orNull o = None) \/
  (exists s, s <> "" /\ o = Some s /\ orNull o = Some s).
Proof.
  destruct o as [s|]; [|left; split; reflexivity].
  unfold orNull, truthy.
  destruct (String.eqb_spec s "") as [->|Hs]; simpl.
  - right; left; split; reflexivity.
  - right; right; exists s; repeat split; assumption.
Qed.

Lemma locationWhere_spec itemId propertyId unitId roomId l :
  locationWhere itemId propertyId unitId roomId l = true <->
  lvl_itemId l = itemId /\ lvl_propertyId l = propertyId /\
  lvl_unitId l = orNull unitId /\ lvl_roomId l = orNull roomId.
Proof.
  unfold locationWhere.
  rewrite !andb_true_iff, !String.eqb_eq, !opt_eqb_eq. tauto.
Qed.

(** C9, as stated, fails on the empty string: a lookup with unit [''] is
    answered with the level whose unit is absent, and the level stored
    with unit [''] is passed over although all three components are
    exactly equal. *)
Lemma C9_empty_string_counterexample :
  let s := prisma.withLevels [emptyUnitLevel; lobbyLevel] 2 (initialStore []) in
  getLevelByLocation "towel" "p1" (Some "") None s = (s, Ok (Some lobbyLevel)) /\
  lvl_unitId lobbyLevel <> Some "" /\
  lvl_unitId emptyUnitLevel = Some "" /\
  locationWhere "towel" "p1" (Some "") None emptyUnitLevel = false.
Proof.
  repeat split; try reflexivity. discriminate.
Qed.

(** C9, amended: the lookup joins on (itemId, propertyId, unitId, roomId)
    after [unitId || null] and [roomId || null]: it answers with the first
    stored level whose item and property are exactly equal and whose unit
    and room equal the normalised lookup components, where an absent and
    an empty-string lookup component both normalise to absent and any
    other string to itself; absence is no wildcard. *)
Theorem C9_getLevelByLocation_structural :
  forall itemId propertyId unitId roomId s,
    (forall l,
       locationWhere itemId propertyId unitId roomId l = true <->
       lvl_itemId l = itemId /\ lvl_propertyId l = propertyId /\
       lvl_unitId l = orNull unitId /\ lvl_roomId l = orNull roomId) /\
    (forall o,
       (o = None /\ orNull o = None) \/
       (o = Some "" /\ orNull o = None) \/
       (exists x, x <> "" /\ o = Some x /\ orNull o = Some x)) /\
    exists answer,
      getLevelByLocation itemId propertyId unitId roomId s = (s, Ok answer) /\
      match answer with
      | Some l =>
        In l (levels s) /\ locationWhere itemId propertyId unitId roomId l = true
      | None =>
        forall l, In l (levels s) ->
                  locationWhere itemId propertyId unitId roomId l = false
      end.
Proof.
  intros itemId propertyId unitId roomId s.
  split; [intros l; apply locationWhere_spec|].
  split; [apply orNull_cases|].
  exists (find (locationWhere itemId propertyId unitId roomId) (levels s)).
  split; [reflexivity|].
  destruct (find _ (levels s)) as [l|] eqn:E.
  - apply find_some in E. exact E.
  - intros l Hl. exact (find_none _ _ E l Hl).
Qed.

(** ** Running the calls: bookkeeping lemmas *)

Lemma bind_run {A B} (m : M A) (k : A -> M B) s s' r :
  bind m k s = (s', r) ->
  (exists s1 a, m s = (s1, Ok a) /\ k a s1 = (s', r)) \/
  (exists e, m s = (s', Throw e) /\ r = Throw e).
Proof.
  unfold bind. destruct (m s) as [s1 [a|e]].
  - intros H. left. exists s1, a. split; [reflexivity | exact H].
  - intros H. inversion H; subst. right. exists e. split; reflexivity.
Qed.

Lemma bind_ok {A B} (m : M A) (k : A -> M B) s s1 a :
  m s = (s1, Ok a) -> bind m k s = k a s1.
Proof. intros H. unfold bind. rewrite H. reflexivity. Qed.

Lemma bind_throw {A B} (m : M A) (k : A -> M B) s s1 e :
  m s = (s1, Throw e) -> bind m k s = (s1, Throw e).
Proof. intros H. unfold bind. rewrite H. reflexivity. Qed.

Section ReplaceFirst.
Context {A : Type} (p : A -> bool) (f : A -> A).

Lemma replaceFirst_length l :
  List.length (prisma.replaceFirst p f l) = List.length l.
Proof.
  induction l as [|x r IH]; simpl; [reflexivity|].
  destruct (p x); simpl; congruence.
Qed.

Lemma replaceFirst_none l :
  find p l = None -> prisma.replaceFirst p f l = l.
Proof.
  induction l as [|x r IH]; simpl; [reflexivity|].
  destruct (p x); [discriminate|]. intros H. rewrite IH by exact H. reflexivity.
Qed.

Lemma replaceFirst_split l x :
  find p l = Some x ->
  exists l1 l2, l = (l1 ++ x :: l2)%list /\
                prisma.replaceFirst p f l = (l1 ++ f x :: l2)%list /\
                Forall (fun y => p y = false) l1.
Proof.
  induction l as [|y r IH]; simpl; [discriminate|].
  destruct (p y) eqn:E.
  - intros H. inversion H; subst. exists [], r. repeat split. constructor.
  - intros H. destruct (IH H) as (l1 & l2 & -> & E2 & F).
    exists (y :: l1), l2. simpl. rewrite E2. repeat split.
    constructor; assumption.
Qed.

Lemma replaceFirst_Forall (P : A -> Prop) l :
  Forall P l ->
  (forall x, find p l = Some x -> P (f x)) ->
  Forall P (prisma.replaceFirst p f l).
Proof.
  intros HF Hx. destruct (find p l) as [x|] eqn:E.
  - destruct (replaceFirst_split l x E) as (l1 & l2 & -> & -> & _).
    apply Forall_app in HF. destruct HF as [H1 H2].
    apply Forall_app. split; [exact H1|].
    inversion H2; subst. constructor; [apply Hx; reflexivity | assumption].
  - rewrite replaceFirst_none by exact E. exact HF.
Qed.


Lemma replaceFirst_map {B} (g : A -> B) l :
  (forall x, g (f x) = g x) ->
  map g (prisma.replaceFirst p f l) = map g l.
Proof.
  intros Hg. induction l as [|x r IH]; simpl; [reflexivity|].
  destruct (p x); simpl; [rewrite Hg | rewrite IH]; reflexivity.
Qed.

Lemma replaceFirst_find l x :
  find p l = Some x -> p (f x) = true ->
  find p (prisma.replaceFirst p f l) = Some (f x).
Proof.
  induction l as [|y r IH]; simpl; [discriminate|].
  destruct (p y) eqn:E.
  - intros H Hp. inversion H; subst. simpl. rewrite Hp. reflexivity.
  - intros H Hp. simpl. rewrite E. apply IH; assumption.
Qed.
End ReplaceFirst.

Lemma replaceFirst_app_some {A} (p : A -> bool) (f : A -> A) l extra x :
  find p l = Some x ->
  prisma.replaceFirst p f (l ++ extra)%list =
  (prisma.replaceFirst p f l ++ extra)%list.
Proof.
  induction l as [|y r IH]; simpl; [discriminate|].
  destruct (p y); [reflexivity|]. intros H. rewrite IH by exact H. reflexivity.
Qed.

Lemma find_app_some {A} (p : A -> bool) l extra x :
  find p l = Some x -> find p (l ++ extra)%list = Some x.
Proof.
  induction l as [|y r IH]; simpl; [discriminate|].
  destruct (p y); [trivial | exact IH].
Qed.

Lemma TransactionStatus_eqb_eq a b : TransactionStatus_eqb a b = true <-> a = b.
Proof. destruct a, b; simpl; split; congruence. Qed.

Ltac respects_step :=
  match goal with
  | |- respects _ (match ?x with _ => _ end) => destruct x
  end.

Section Respects.
Variable R : Store -> Store -> Prop.
Hypothesis R_refl : forall s, R s s.
Hypothesis R_trans : forall a b c, R a b -> R b c -> R a c.

Lemma respects_ret {A} (a : A) : respects R (ret a).
Proof. intros s. apply R_refl. Qed.

Lemma respects_throw {A} e : respects R (@throw A e).
Proof. intros s. apply R_refl. Qed.

Lemma respects_bind {A B} (m : M A) (k : A -> M B) :
  respects R m -> (forall a, respects R (k a)) -> respects R (bind m k).
Proof.
  intros Hm Hk s. unfold bind. specialize (Hm s).
  destruct (m s) as [s1 [a|e]]; simpl in *.
  - eapply R_trans; [exact Hm | apply Hk].
  - exact Hm.
Qed.

Lemma respects_tryCatch {A} (m : M A) (h : string -> M A) :
  respects R m -> (forall e, respects R (h e)) -> respects R (tryCatch m h).
Proof.
  intros Hm Hh s. unfold tryCatch. specialize (Hm s).
  destruct (m s) as [s1 [a|e]]; simpl in *.
  - exact Hm.
  - eapply R_trans; [exact Hm | apply Hh].
Qed.

Lemma respects_item_findUnique id : respects R (prisma.inventoryItem_findUnique id).
Proof. intros s. apply R_refl. Qed.

Lemma respects_level_findUnique id : respects R (prisma.inventoryLevel_findUnique id).
Proof. intros s. apply R_refl. Qed.

Lemma respects_transaction_findUnique id :
  respects R (prisma.transaction_findUnique id).
Proof. intros s. apply R_refl. Qed.

Lemma respects_getLevelByLocation i p u r :
  respects R (getLevelByLocation i p u r).
Proof. intros s. apply R_refl. Qed.

Ltac go :=
  repeat first
    [ solve [auto]
    | apply respects_ret
    | apply respects_throw
    | apply respects_item_findUnique
    | apply respects_level_findUnique
    | apply respects_transaction_findUnique
    | apply respects_getLevelByLocation
    | respects_step
    | match goal with
      | H : forall id data, statusWrite data -> respects _ _ |- _ =>
        apply H; intros ?; repeat eexists
      end
    | apply respects_tryCatch; [|intros ?]
    | apply respects_bind; [|intros ?] ].

(** *** The level engine above its three writers *)

Hypothesis R_createLevel : forall data, respects R (createLevel data).
Hypothesis R_updateLevel : forall id data, respects R (updateLevel id data).
Hypothesis R_adjust_row :
  forall now itemId quantity propertyId unitId roomId reason reasonCode notes
         createdBy,
    respects R (prisma.transaction_create
                  (adjustRecord now itemId quantity propertyId unitId roomId
                                reason reasonCode notes createdBy)).
Hypothesis R_checkAndCreateAlert :
  forall level, respects R (checkAndCreateAlert level).
Hypothesis R_setCondition :
  forall id c, respects R (prisma.inventoryItem_setCondition id c).

Lemma respects_adjustInventory now data : respects R (adjustInventory now data).
Proof. unfold adjustInventory. cbv zeta. go. Qed.

Lemma respects_reserveInventory i p q u r :
  respects R (reserveInventory i p q u r).
Proof. unfold reserveInventory. go. Qed.

Lemma respects_releaseReservedInventory i p q u r :
  respects R (releaseReservedInventory i p q u r).
Proof. unfold releaseReservedInventory. go. Qed.

Lemma respects_dispatch now t : respects R (dispatch now t).
Proof.
  pose proof respects_adjustInventory.
  pose proof respects_reserveInventory.
  pose proof respects_releaseReservedInventory.
  unfold dispatch, processReceive, processConsume, processTransfer, processAdjust,
    processDamageOrDispose, processAssign, processUnassign.
  cbv zeta. go.
Qed.

(** *** The ledger *)

Hypothesis R_transaction_update :
  forall id data, statusWrite data -> respects R (prisma.transaction_update id data).
Hypothesis R_transaction_row :
  forall now data, respects R (prisma.transaction_create (transactionRow now data)).

Lemma respects_processTransaction now id : respects R (processTransaction now id).
Proof.
  pose proof respects_dispatch.
  unfold processTransaction. go.
Qed.

Lemma respects_createTransaction now data :
  respects R (createTransaction now data).
Proof.
  pose proof respects_processTransaction.
  unfold createTransaction. go.
Qed.

Lemma respects_approveTransaction now id data :
  respects R (approveTransaction now id data).
Proof.
  pose proof respects_processTransaction.
  unfold approveTransaction. go.
Qed.

Lemma respects_rejectTransaction now id data :
  respects R (rejectTransaction now id data).
Proof. unfold rejectTransaction. go. Qed.

Lemma respects_transferInventory now data :
  respects R (transferInventory now data).
Proof.
  pose proof respects_createTransaction.
  unfold transferInventory. go.
Qed.

Hypothesis R_cycleCount :
  forall now id q by_ notes, respects R (cycleCount now id q by_ notes).

Lemma respects_perform now op s : R s (perform now op s).
Proof.
  destruct op; simpl.
  - apply R_createLevel.
  - apply R_updateLevel.
  - apply respects_adjustInventory.
  - apply respects_reserveInventory.
  - apply respects_releaseReservedInventory.
  - apply R_cycleCount.
  - apply respects_createTransaction.
  - apply respects_approveTransaction.
  - apply respects_rejectTransaction.
  - apply respects_processTransaction.
  - apply respects_transferInventory.
Qed.

Lemma respects_performAll calls s : R s (performAll calls s).
Proof.
  revert s. induction calls as [|[now op] r IH]; intros s; simpl.
  - apply R_refl.
  - eapply R_trans; [apply respects_perform | apply IH].
Qed.
End Respects.

(** ** What each writer of the level engine does to the store *)

Lemma createLevel_run data s s' r :
  createLevel data s = (s', r) ->
  (find (fun i => String.eqb (it_id i) (c_itemId data)) (inventoryItems s) = None /\
   s' = s /\ r = Throw "Item not found") \/
  (exists row,
     r = Ok row /\
     s' = prisma.withLevels (levels s ++ [row])%list (S (nextId s)) s /\
     lvl_id row = nextId s /\
     lvl_itemId row = c_itemId data /\
     lvl_propertyId row = c_propertyId data /\
     lvl_unitId row = c_unitId data /\
     lvl_roomId row = c_roomId data /\
     quantityOnHand row = match c_quantityOnHand data with Some q => q | None => 0 end /\
     quantityReserved row = 0 /\
     quantityAvailable row = quantityOnHand row).
Proof.
  unfold createLevel, bind, prisma.inventoryItem_findUnique.
  destruct (find _ (inventoryItems s)) as [item|] eqn:E.
  - unfold prisma.inventoryLevel_create. intros H. inversion H; subst; clear H.
    right. eexists. repeat split.
  - unfold throw. intros H. inversion H; subst. left. repeat split.
Qed.

Lemma nullishItem_run a level f s :
  (exists v, nullishItem a level f s = (s, Ok v)) \/
  nullishItem a level f s = (s, Throw nullItem).
Proof.
  unfold nullishItem, itemOf, bind, prisma.inventoryItem_findUnique, ret, throw.
  destruct a as [v|]; [left; eexists; reflexivity|].
  destruct (find _ (inventoryItems s)).
  - left; eexists; reflexivity.
  - right; reflexivity.
Qed.

Lemma updateLevel_run id data s s' r :
  updateLevel id data s = (s', r) ->
  (s' = s /\ (r = Throw "Inventory level not found" \/ r = Throw nullItem)) \/
  (exists level al,
     find (fun l => Nat.eqb (lvl_id l) id) (levels s) = Some level /\
     let quantityOnHand' :=
       match u_quantityOnHand data with Some q => q | None => quantityOnHand level end in
     let quantityReserved' :=
       match u_quantityReserved data with
       | Some q => q
       | None => quantityReserved level
       end in
     let write := updateData data (quantityOnHand' - quantityReserved') al in
     r = Ok (write level) /\
     s' = prisma.withLevels
            (prisma.replaceFirst (fun l => Nat.eqb (lvl_id l) id) write (levels s))
            (nextId s) s).
Proof.
  unfold updateLevel. intros H.
  apply bind_run in H. destruct H as [(s1 & lv & H1 & H)|(e & H1 & _)];
    [|discriminate H1].
  unfold prisma.inventoryLevel_findUnique in H1. inversion H1; subst s1 lv; clear H1.
  destruct (find _ (levels s)) as [level|] eqn:E.
  2:{ inversion H; subst. left. split; [reflexivity | left; reflexivity]. }
  cbv zeta in H.
  apply bind_run in H. destruct H as [(s1 & rp & H1 & H)|(e & H1 & Hr)].
  2:{ destruct (nullishItem_run (nullish (u_reorderPoint data) (lvl_reorderPoint level))
                  level it_reorderPoint s) as [[v Hv]|Hv];
        rewrite Hv in H1; inversion H1; subst.
      left. split; [reflexivity | right; reflexivity]. }
  destruct (nullishItem_run (nullish (u_reorderPoint data) (lvl_reorderPoint level))
              level it_reorderPoint s) as [[v Hv]|Hv];
    rewrite Hv in H1; inversion H1; subst s1 rp; clear H1.
  apply bind_run in H. destruct H as [(s1 & mq & H1 & H)|(e & H1 & Hr)].
  2:{ destruct (nullishItem_run (nullish (u_maxQuantity data) (lvl_maxQuantity level))
                  level it_maxQuantity s) as [[w Hw]|Hw];
        rewrite Hw in H1; inversion H1; subst.
      left. split; [reflexivity | right; reflexivity]. }
  destruct (nullishItem_run (nullish (u_maxQuantity data) (lvl_maxQuantity level))
              level it_maxQuantity s) as [[w Hw]|Hw];
    rewrite Hw in H1; inversion H1; subst s1 mq; clear H1.
  unfold prisma.inventoryLevel_update in H. rewrite E in H.
  inversion H; subst; clear H.
  right. eexists level, _. split; [reflexivity|]. cbv zeta. split; reflexivity.
Qed.

Lemma find_filter_nonempty {A} (p : A -> bool) l x :
  find p l = Some x -> filter p l <> [].
Proof.
  induction l as [|y r IH]; simpl; [discriminate|].
  destruct (p y); [discriminate | exact IH].
Qed.

Lemma find_filter_empty {A} (p : A -> bool) l :
  find p l = None -> filter p l = [].
Proof.
  induction l as [|y r IH]; simpl; [reflexivity|].
  destruct (p y); [discriminate | exact IH].
Qed.

(** The four ways a call of [checkAndCreateAlert] can go. *)
Lemma checkAndCreateAlert_cases level s s' r :
  checkAndCreateAlert level s = (s', r) ->
  (s' = s /\ r = Ok tt /\
   (~ lowStock level \/ openAlerts (lvl_itemId level) (lvl_id level) s <> [])) \/
  (s' = s /\ r = Throw nullItem) \/
  (exists a,
     r = Ok tt /\
     s' = prisma.withAlerts (stockAlerts s ++ [a])%list (S (nextId s)) s /\
     lowStock level /\
     openAlerts (lvl_itemId level) (lvl_id level) s = [] /\
     al_itemId a = lvl_itemId level /\ al_levelId a = lvl_id level /\
     isResolved a = false).
Proof.
  unfold checkAndCreateAlert. intros H.
  assert (Hcase :
    lowStock level ->
    forall create : InventoryItem -> nat -> StockAlert,
      (forall item id, al_itemId (create item id) = lvl_itemId level /\
                       al_levelId (create item id) = lvl_id level /\
                       isResolved (create item id) = false) ->
      (existingAlert <-
         prisma.stockAlert_findFirst (fun a =>
           String.eqb (al_itemId a) (lvl_itemId level) &&
           Nat.eqb (al_levelId a) (lvl_id level) && negb (isResolved a)) ;;
       match existingAlert with
       | Some _ => ret tt
       | None =>
         item <- itemOf level ;;
         prisma.stockAlert_create (create item) ;;;
         ret tt
       end) s = (s', r) ->
      (s' = s /\ r = Ok tt /\
       (~ lowStock level \/ openAlerts (lvl_itemId level) (lvl_id level) s <> [])) \/
      (s' = s /\ r = Throw nullItem) \/
      (exists a,
         r = Ok tt /\
         s' = prisma.withAlerts (stockAlerts s ++ [a])%list (S (nextId s)) s /\
         lowStock level /\
         openAlerts (lvl_itemId level) (lvl_id level) s = [] /\
         al_itemId a = lvl_itemId level /\ al_levelId a = lvl_id level /\
         isResolved a = false)).
  { clear H. intros Hlow create Hcreate H.
    unfold bind, prisma.stockAlert_findFirst in H.
    destruct (find _ (stockAlerts s)) as [a0|] eqn:E.
    - inversion H; subst. left. split; [reflexivity|]. split; [reflexivity|].
      right. unfold openAlerts. eapply find_filter_nonempty. exact E.
    - unfold itemOf, bind, prisma.inventoryItem_findUnique in H.
      destruct (find _ (inventoryItems s)) as [item|].
      + unfold ret, prisma.stockAlert_create in H. inversion H; subst; clear H.
        right. right. exists (create item (nextId s)).
        split; [reflexivity|]. split; [reflexivity|]. split; [exact Hlow|].
        split; [apply find_filter_empty; exact E | apply Hcreate].
      + unfold throw in H. inversion H; subst.
        right. left. split; reflexivity. }
  assert (Hnot : alertLevel level <> CRITICAL -> alertLevel level <> LOW ->
                 ret tt s = (s', r) ->
                 s' = s /\ r = Ok tt /\
                 (~ lowStock level \/
                  openAlerts (lvl_itemId level) (lvl_id level) s <> [])).
  { intros N1 N2 E. inversion E; subst. split; [reflexivity|]. split; [reflexivity|].
    left. intros [C|C]; contradiction. }
  destruct (alertLevel level) eqn:Eal;
    first [ left; apply Hnot; [discriminate | discriminate | exact H]
          | unfold lowStock in Hcase; rewrite Eal in Hcase;
            unfold lowStock; rewrite Eal;
            eapply Hcase; [auto | | exact H];
            intros item id; simpl; repeat split ].
Qed.

Lemma checkAndCreateAlert_run level s s' r :
  checkAndCreateAlert level s = (s', r) ->
  (s' = s /\ (r = Ok tt \/ r = Throw nullItem)) \/
  (exists a,
     r = Ok tt /\
     s' = prisma.withAlerts (stockAlerts s ++ [a])%list (S (nextId s)) s /\
     lowStock level /\
     openAlerts (lvl_itemId level) (lvl_id level) s = [] /\
     al_itemId a = lvl_itemId level /\ al_levelId a = lvl_id level /\
     isResolved a = false).
Proof.
  intros H. apply checkAndCreateAlert_cases in H.
  destruct H as [(-> & -> & _)|[(-> & ->)|H]].
  - left. split; [reflexivity | left; reflexivity].
  - left. split; [reflexivity | right; reflexivity].
  - right. exact H.
Qed.

Lemma cycleCount_run now id q countedBy notes s s' r :
  cycleCount now id q countedBy notes s = (s', r) ->
  (s' = s /\ r = Throw "Inventory level not found") \/
  (exists level,
     find (fun l => Nat.eqb (lvl_id l) id) (levels s) = Some level /\
     r = Ok (countData now q countedBy notes level level, q - quantityOnHand level) /\
     levels s' =
       prisma.replaceFirst (fun l => Nat.eqb (lvl_id l) id)
         (countData now q countedBy notes level) (levels s) /\
     stockAlerts s' = stockAlerts s /\
     inventoryItems s' = inventoryItems s /\
     (nextId s <= nextId s')%nat /\
     (transactions s' = transactions s \/
      exists t, transactions s' = (transactions s ++ [t])%list)).
Proof.
  unfold cycleCount, bind, prisma.inventoryLevel_findUnique,
    prisma.inventoryLevel_update.
  destruct (find _ (levels s)) as [level|] eqn:E.
  2:{ intros H. inversion H; subst. left. split; reflexivity. }
  rewrite ?E.
  destruct (q - quantityOnHand level =? 0);
    unfold ret, prisma.transaction_create; intros H; inversion H; subst; clear H;
    right; exists level; simpl.
  - repeat split; try lia. left. reflexivity.
  - repeat split; try lia. right. eexists. reflexivity.
Qed.

Lemma transaction_create_frame data s :
  let s' := fst (prisma.transaction_create data s) in
  levels s' = levels s /\ stockAlerts s' = stockAlerts s /\
  inventoryItems s' = inventoryItems s /\ (nextId s <= nextId s')%nat /\
  transactions s' = (transactions s ++ [data (nextId s)])%list.
Proof. simpl. repeat split. lia. Qed.

Lemma transaction_update_frame id data s :
  let s' := fst (prisma.transaction_update id data s) in
  levels s' = levels s /\ stockAlerts s' = stockAlerts s /\
  inventoryItems s' = inventoryItems s /\ nextId s' = nextId s.
Proof.
  unfold prisma.transaction_update.
  destruct (find _ (transactions s)); simpl; repeat split.
Qed.

Lemma setCondition_frame id c s :
  let s' := fst (prisma.inventoryItem_setCondition id c s) in
  levels s' = levels s /\ stockAlerts s' = stockAlerts s /\
  transactions s' = transactions s /\ nextId s' = nextId s.
Proof.
  unfold prisma.inventoryItem_setCondition.
  destruct (find _ (inventoryItems s)); simpl; repeat split.
Qed.

Lemma checkAndCreateAlert_frame level s :
  let s' := fst (checkAndCreateAlert level s) in
  levels s' = levels s /\ transactions s' = transactions s /\
  inventoryItems s' = inventoryItems s /\ (nextId s <= nextId s')%nat.
Proof.
  destruct (checkAndCreateAlert level s) as [s' r] eqn:E. simpl.
  apply checkAndCreateAlert_run in E.
  destruct E as [[-> _]|(a & _ & -> & _)]; simpl; repeat split; lia.
Qed.

Lemma createLevel_frame data s :
  let s' := fst (createLevel data s) in
  transactions s' = transactions s /\ stockAlerts s' = stockAlerts s /\
  inventoryItems s' = inventoryItems s /\ (nextId s <= nextId s')%nat.
Proof.
  destruct (createLevel data s) as [s' r] eqn:E. simpl.
  apply createLevel_run in E.
  destruct E as [(_ & -> & _)|(row & _ & -> & _)]; simpl; repeat split; lia.
Qed.

Lemma updateLevel_frame id data s :
  let s' := fst (updateLevel id data s) in
  transactions s' = transactions s /\ stockAlerts s' = stockAlerts s /\
  inventoryItems s' = inventoryItems s /\ nextId s' = nextId s /\
  map lvl_id (levels s') = map lvl_id (levels s).
Proof.
  destruct (updateLevel id data s) as [s' r] eqn:E. simpl.
  apply updateLevel_run in E.
  destruct E as [[-> _]|(level & al & _ & _ & ->)]; simpl; repeat split.
  apply replaceFirst_map. reflexivity.
Qed.

(** ** Invariants of every reachable store *)

(** *** [quantityAvailable] is always on-hand minus reserved *)






(** ** The anatomy of one [adjustInventory] call

    Phase one finds the level or creates it empty; phase two rejects a
    negative result, or writes the level, then the ledger row, then the
    alert. *)

Lemma adjustInventory_run now data s s' r :
  adjustInventory now data s = (s', r) ->
  (find (adjustWhere data) (levels s) = None /\
   find (fun i => String.eqb (it_id i) (a_itemId data)) (inventoryItems s) = None /\
   s' = s /\ r = Throw "Item not found") \/
  exists s1 level,
    ((find (adjustWhere data) (levels s) = Some level /\ s1 = s) \/
     (find (adjustWhere data) (levels s) = None /\
      s1 = prisma.withLevels (levels s ++ [level])%list (S (nextId s)) s /\
      lvl_id level = nextId s /\ lvl_itemId level = a_itemId data /\
      quantityOnHand level = 0 /\ quantityReserved level = 0 /\
      quantityAvailable level = 0)) /\
    ((quantityOnHand level + a_quantity data < 0 /\ s' = s1 /\ r = Throw insufficient) \/
     (0 <= quantityOnHand level + a_quantity data /\
      exists s2 ru,
        updateLevel (lvl_id level)
          (setOnHand (quantityOnHand level + a_quantity data)) s1 = (s2, ru) /\
        match ru with
        | Throw e => s' = s2 /\ r = Throw e
        | Ok updatedLevel =>
          exists rc,
            checkAndCreateAlert updatedLevel
              (fst (prisma.transaction_create (adjustLedgerRow now data) s2)) = (s', rc) /\
            r = match rc with Ok _ => Ok updatedLevel | Throw e => Throw e end
        end)).
Proof.
  unfold adjustInventory. cbv zeta. intros H.
  apply bind_run in H. destruct H as [(s0 & found & H0 & H)|(e & H0 & _)];
    [|discriminate H0].
  unfold getLevelByLocation, prisma.inventoryLevel_findFirst in H0.
  inversion H0; subst s0 found; clear H0.
  fold (adjustWhere data) in H.
  apply bind_run in H. destruct H as [(s1 & level & H1 & H)|(e & H1 & ->)].
  - right. exists s1, level. split.
    + destruct (find (adjustWhere data) (levels s)) as [l0|] eqn:E.
      * inversion H1; subst. left. split; reflexivity.
      * right. split; [reflexivity|].
        apply bind_run in H1. destruct H1 as [(s0 & it & H0 & H1)|(e & H0 & _)];
          [|discriminate H0].
        inversion H0; subst s0 it; clear H0.
        destruct (find _ (inventoryItems s)) as [it|]; [|discriminate H1].
        apply createLevel_run in H1.
        destruct H1 as [(_ & _ & H1)|(row & H1 & -> & Hid & Hit & _ & _ & _ & Hq & Hr & Ha)];
          [discriminate H1|].
        inversion H1; subst row. unfold lazyLevel in Hq, Hit. simpl in Hq, Hit.
        repeat split; try assumption; lia.
    + destruct (quantityOnHand level + a_quantity data <? 0) eqn:G.
      * apply Z.ltb_lt in G. inversion H; subst. left. repeat split. exact G.
      * apply Z.ltb_ge in G. right. split; [exact G|].
        apply bind_run in H. destruct H as [(s2 & u & H2 & H)|(e & H2 & ->)].
        -- exists s2, (Ok u). split; [exact H2|].
           unfold adjustLedgerRow.
           apply bind_run in H. destruct H as [(s3 & t & H3 & H)|(e & H3 & _)];
             [|discriminate H3].
           assert (s3 = fst (prisma.transaction_create
                               (adjustRecord now (a_itemId data) (a_quantity data)
                                  (Some (a_propertyId data)) (a_unitId data)
                                  (a_roomId data) (adjustReason data)
                                  (a_reasonCode data) (a_notes data)
                                  (a_createdBy data)) s2)) as ->
             by (rewrite H3; reflexivity).
           apply bind_run in H. destruct H as [(s4 & [] & H4 & H)|(e & H4 & ->)].
           ++ exists (Ok tt). inversion H; subst. split; [exact H4 | reflexivity].
           ++ exists (Throw e). split; [exact H4 | reflexivity].
        -- exists s', (Throw e). split; [exact H2 | split; reflexivity].
  - left.
    destruct (find (adjustWhere data) (levels s)) as [l0|] eqn:E;
      [discriminate H1|].
    apply bind_run in H1. destruct H1 as [(s0 & it & H0 & H1)|(e' & H0 & _)];
      [|discriminate H0].
    inversion H0; subst s0 it; clear H0.
    destruct (find _ (inventoryItems s)) as [it|] eqn:Ei.
    + apply createLevel_run in H1.
      destruct H1 as [(Hn & _ & _)|(row & H1 & _)]; [|discriminate H1].
      unfold lazyLevel in Hn. simpl in Hn. congruence.
    + inversion H1; subst. repeat split.
Qed.

(** *** Row ids stay distinct *)

Lemma keepsIds_same s s' :
  levels s' = levels s -> (nextId s <= nextId s')%nat -> keepsIds s s'.
Proof.
  intros E Hn [H1 H2]. unfold idsFresh. rewrite E. split; [exact H1|].
  eapply Forall_impl; [|exact H2]. simpl. intros. lia.
Qed.

Lemma idsFresh_append s row :
  idsFresh s -> lvl_id row = nextId s ->
  idsFresh (prisma.withLevels (levels s ++ [row])%list (S (nextId s)) s).
Proof.
  intros [H1 H2] Hid.
  unfold idsFresh. simpl. split.
  - rewrite map_app. simpl. apply NoDup_app_remove_r with (l' := []).
    rewrite app_nil_r. 
    assert (Hn : ~ In (lvl_id row) (map lvl_id (levels s))).
    { intros Hin. apply in_map_iff in Hin. destruct Hin as (x & Hx & Hin).
      rewrite Forall_forall in H2. specialize (H2 x Hin). lia. }
    clear H2. induction (levels s) as [|x l IH]; simpl.
    + constructor; [intros []|constructor].
    + inversion H1; subst. simpl in Hn. constructor.
      * rewrite in_app_iff. simpl. intros [Hin|[Heq|[]]]; [contradiction|].
        apply Hn. left. symmetry. exact Heq.
      * apply IH; [assumption|]. intros Hin. apply Hn. right. exact Hin.
  - apply Forall_app. split.
    + eapply Forall_impl; [|exact H2]. simpl. intros. lia.
    + constructor; [lia | constructor].
Qed.

Lemma keepsIds_createLevel data : respects keepsIds (createLevel data).
Proof.
  intros s H. destruct (createLevel data s) as [s' r] eqn:E. simpl.
  apply createLevel_run in E.
  destruct E as [(_ & -> & _)|(row & _ & -> & Hid & _)]; [assumption|].
  apply idsFresh_append; assumption.
Qed.

Lemma keepsIds_updateLevel id data : respects keepsIds (updateLevel id data).
Proof.
  intros s [H1 H2]. pose proof (updateLevel_frame id data s) as F.
  destruct (updateLevel id data s) as [s' r] eqn:E. simpl in *.
  destruct F as (_ & _ & _ & Hn & Hm).
  unfold idsFresh. rewrite Hm, Hn. split; [exact H1|].
  apply Forall_forall. intros x Hx.
  assert (Hin : In (lvl_id x) (map lvl_id (levels s)))
    by (rewrite <- Hm; apply in_map; exact Hx).
  apply in_map_iff in Hin. destruct Hin as (y & Hy & Hin).
  rewrite Forall_forall in H2. specialize (H2 y Hin). lia.
Qed.

Lemma keepsIds_cycleCount now id q countedBy notes :
  respects keepsIds (cycleCount now id q countedBy notes).
Proof.
  intros s [H1 H2]. destruct (cycleCount now id q countedBy notes s) as [s' r] eqn:E.
  simpl. apply cycleCount_run in E.
  destruct E as [[-> _]|(level & Hf & _ & Hl & _ & _ & Hn & _)]; [split; assumption|].
  assert (Hm : map lvl_id (levels s') = map lvl_id (levels s))
    by (rewrite Hl; apply replaceFirst_map; reflexivity).
  unfold idsFresh. rewrite Hm. split; [exact H1|].
  apply Forall_forall. intros x Hx.
  assert (Hin : In (lvl_id x) (map lvl_id (levels s)))
    by (rewrite <- Hm; apply in_map; exact Hx).
  apply in_map_iff in Hin. destruct Hin as (y & Hy & Hin).
  rewrite Forall_forall in H2. specialize (H2 y Hin). lia.
Qed.

Lemma idsFresh_perform now op s : idsFresh s -> idsFresh (perform now op s).
Proof.
  apply (respects_perform keepsIds).
  - intros ? H; exact H.
  - intros a b c H1 H2 H; auto.
  - apply keepsIds_createLevel.
  - apply keepsIds_updateLevel.
  - intros; intros s0; apply keepsIds_same; apply transaction_create_frame.
  - intros level s0. apply keepsIds_same; apply checkAndCreateAlert_frame.
  - intros id c s0. pose proof (setCondition_frame id c s0) as (E & _ & _ & En).
    apply keepsIds_same; [exact E | rewrite En; lia].
  - intros id data _ s0.
    pose proof (transaction_update_frame id data s0) as (E & _ & _ & En).
    apply keepsIds_same; [exact E | rewrite En; lia].
  - intros; intros s0; apply keepsIds_same; apply transaction_create_frame.
  - apply keepsIds_cycleCount.
Qed.

Lemma find_by_id ls (l : InventoryLevel) :
  NoDup (map lvl_id ls) -> In l ls ->
  find (fun x => Nat.eqb (lvl_id x) (lvl_id l)) ls = Some l.
Proof.
  induction ls as [|x r IH]; simpl; [intros _ []|].
  intros Hnd [->|Hin].
  - rewrite Nat.eqb_refl. reflexivity.
  - inversion Hnd; subst.
    destruct (Nat.eqb_spec (lvl_id x) (lvl_id l)) as [E|_].
    + exfalso. apply H1. rewrite E. apply in_map. exact Hin.
    + apply IH; assumption.
Qed.


(** *** Reserved stock stays within on-hand stock while stock is only raised *)








(** ** Rejected adjustments *)

Lemma updateLevel_Forall (P : InventoryLevel -> Prop) id data s :
  Forall P (levels s) ->
  (forall level al,
     In level (levels s) ->
     P (updateData data
          (match u_quantityOnHand data with
           | Some q => q | None => quantityOnHand level end
           - match u_quantityReserved data with
             | Some q => q | None => quantityReserved level end)
          al level)) ->
  Forall P (levels (fst (updateLevel id data s))).
Proof.
  intros HP Hw.
  destruct (updateLevel id data s) as [s' r] eqn:E. simpl.
  apply updateLevel_run in E.
  destruct E as [[-> _]|(level0 & al & Hf & _ & ->)]; [exact HP|].
  simpl. apply replaceFirst_Forall; [exact HP|].
  intros x Hx. rewrite Hf in Hx. inversion Hx; subst x.
  apply Hw. apply find_some in Hf. apply Hf.
Qed.

Lemma adjustInventory_rejects_found now data s level :
  find (adjustWhere data) (levels s) = Some level ->
  quantityOnHand level + a_quantity data < 0 ->
  adjustInventory now data s = (s, Throw insufficient).
Proof.
  intros Hf Hneg.
  destruct (adjustInventory now data s) as [s' r] eqn:E.
  apply adjustInventory_run in E.
  destruct E as [(Hn & _)|(s1 & level' & P1 & P2)]; [congruence|].
  destruct P1 as [[Hf' ->]|(Hn & _)]; [|congruence].
  assert (level' = level) by congruence. subst level'.
  destruct P2 as [(_ & -> & ->)|(Hge & _)]; [reflexivity | lia].
Qed.

Lemma adjustInventory_rejects_missing now data s item :
  find (adjustWhere data) (levels s) = None ->
  find (fun i => String.eqb (it_id i) (a_itemId data)) (inventoryItems s) = Some item ->
  a_quantity data < 0 ->
  exists row,
    adjustInventory now data s =
      (prisma.withLevels (levels s ++ [row])%list (S (nextId s)) s,
       Throw insufficient) /\
    lvl_id row = nextId s /\ quantityOnHand row = 0 /\
    quantityReserved row = 0 /\ quantityAvailable row = 0.
Proof.
  intros Hf Hi Hneg.
  destruct (adjustInventory now data s) as [s' r] eqn:E.
  apply adjustInventory_run in E.
  destruct E as [(_ & Hn & _)|(s1 & level & P1 & P2)]; [congruence|].
  destruct P1 as [[Hf' _]|(_ & -> & Hid & _ & Ho & Hr & Ha)]; [congruence|].
  destruct P2 as [(_ & -> & ->)|(Hge & _)]; [|lia].
  exists level. repeat split; assumption.
Qed.

Lemma onHand_nonneg_adjustInventory now data s :
  Forall (fun l => 0 <= quantityOnHand l) (levels s) ->
  Forall (fun l => 0 <= quantityOnHand l) (levels (fst (adjustInventory now data s))).
Proof.
  intros H.
  destruct (adjustInventory now data s) as [s' r] eqn:E. simpl.
  apply adjustInventory_run in E.
  destruct E as [(_ & _ & -> & _)|(s1 & level & P1 & P2)]; [exact H|].
  assert (H1 : Forall (fun l => 0 <= quantityOnHand l) (levels s1)).
  { destruct P1 as [[_ ->]|(_ & -> & _ & _ & Ho & _)]; [exact H|].
    simpl. apply Forall_app. split; [exact H|].
    constructor; [lia | constructor]. }
  destruct P2 as [(_ & -> & _)|(Hge & s2 & ru & Hu & Hrest)]; [exact H1|].
  assert (H2 : Forall (fun l => 0 <= quantityOnHand l) (levels s2)).
  { replace s2 with (fst (updateLevel (lvl_id level)
                            (setOnHand (quantityOnHand level + a_quantity data)) s1))
      by (rewrite Hu; reflexivity).
    apply updateLevel_Forall; [exact H1|].
    intros l al _. simpl. exact Hge. }
  destruct ru as [u|e].
  - destruct Hrest as (rc & Hc & _).
    replace s' with (fst (checkAndCreateAlert u
                            (fst (prisma.transaction_create
                                    (adjustLedgerRow now data) s2))))
      by (rewrite Hc; reflexivity).
    pose proof (checkAndCreateAlert_frame u
                  (fst (prisma.transaction_create (adjustLedgerRow now data) s2)))
      as (El & _).
    rewrite El. exact H2.
  - destruct Hrest as [-> _]. exact H2.
Qed.

Lemma onHand_nonneg_performAll calls s :
  Forall (fun c => isAdjust (snd c)) calls ->
  Forall (fun l => 0 <= quantityOnHand l) (levels s) ->
  Forall (fun l => 0 <= quantityOnHand l) (levels (performAll calls s)).
Proof.
  revert s. induction calls as [|[now op] rest IH]; intros s Hall H; simpl;
    [exact H|].
  inversion Hall as [|c cs Hop Hrest]; subst. simpl in Hop.
  apply IH; [exact Hrest|].
  destruct op; simpl in Hop |- *; try contradiction.
  apply onHand_nonneg_adjustInventory. exact H.
Qed.

(** C4, as stated, fails where no level exists yet: the rejected call
    has already created the level, empty, before it checks the stock. *)
Lemma C4_level_created_counterexample :
  let s := initialStore [towel] in
  let call := adjustInventory 1000 (adjustTowels "p1" (-1)) s in
  snd call = Throw insufficient /\
  levels s = [] /\
  quantities (fst call) = [(0, 0, 0)] /\
  fst call <> s.
Proof.
  repeat split; try (vm_compute; reflexivity).
  intros H. apply (f_equal levels) in H. vm_compute in H. discriminate H.
Qed.

(** C4, amended: an adjustInventory call whose on-hand plus delta would
    be negative fails with the insufficient-stock error; no existing
    level is updated, no transaction record is written and no alert is
    created.  When the level exists the store is left exactly as it was;
    when none exists for the location (the current on-hand counting as
    zero) the only write is the new level, created with zero quantities.
    Over all sequences of adjust calls from a store without levels,
    quantityOnHand never goes negative. *)
Theorem C4_insufficient_stock_rejected :
  (forall now data s level,
     find (adjustWhere data) (levels s) = Some level ->
     quantityOnHand level + a_quantity data < 0 ->
     adjustInventory now data s = (s, Throw insufficient)) /\
  (forall now data s item,
     find (adjustWhere data) (levels s) = None ->
     find (fun i => String.eqb (it_id i) (a_itemId data)) (inventoryItems s)
       = Some item ->
     0 + a_quantity data < 0 ->
     exists row s',
       adjustInventory now data s = (s', Throw insufficient) /\
       levels s' = (levels s ++ [row])%list /\
       quantityOnHand row = 0 /\ quantityReserved row = 0 /\
       quantityAvailable row = 0 /\
       transactions s' = transactions s /\
       stockAlerts s' = stockAlerts s /\
       inventoryItems s' = inventoryItems s) /\
  (forall its calls,
     Forall (fun c => isAdjust (snd c)) calls ->
     Forall (fun l => 0 <= quantityOnHand l)
            (levels (performAll calls (initialStore its)))).
Proof.
  split; [|split].
  - intros now data s level. apply adjustInventory_rejects_found.
  - intros now data s item Hf Hi Hneg.
    destruct (adjustInventory_rejects_missing now data s item Hf Hi)
      as (row & E & _ & Ho & Hr & Ha); [lia|].
    exists row. eexists. split; [exact E|]. simpl. repeat split; assumption.
  - intros its calls Hall. apply onHand_nonneg_performAll; [exact Hall|].
    constructor.
Qed.

(** The theorem at work: taking 9 out of 5, taking 1 out of a place
    without a level, and a run of three adjustments. *)
Lemma C4_insufficient_stock_rejected_witness :
  adjustInventory 3000 (adjustTowels "p1" (-9))
    (performAll [(1000, AdjustInventory (adjustTowels "p1" 5))]
                (initialStore [towel]))
  = (performAll [(1000, AdjustInventory (adjustTowels "p1" 5))]
                (initialStore [towel]),
     Throw insufficient) /\
  (exists row s',
     adjustInventory 1000 (adjustTowels "p1" (-1)) (initialStore [towel])
       = (s', Throw insufficient) /\
     levels s' = (levels (initialStore [towel]) ++ [row])%list /\
     quantityOnHand row = 0 /\ quantityReserved row = 0 /\
     quantityAvailable row = 0 /\
     transactions s' = transactions (initialStore [towel]) /\
     stockAlerts s' = stockAlerts (initialStore [towel]) /\
     inventoryItems s' = inventoryItems (initialStore [towel])) /\
  Forall (fun l => 0 <= quantityOnHand l)
    (levels (performAll [(1000, AdjustInventory (adjustTowels "p1" 5));
                         (2000, AdjustInventory (adjustTowels "p1" (-9)));
                         (3000, AdjustInventory (adjustTowels "p1" (-5)))]
                        (initialStore [towel]))).
Proof.
  destruct C4_insufficient_stock_rejected as (H1 & H2 & H3).
  split; [|split].
  - eapply H1; [vm_compute; reflexivity | vm_compute; reflexivity].
  - apply (H2 1000 (adjustTowels "p1" (-1)) (initialStore [towel]) towel);
      [reflexivity | reflexivity | reflexivity].
  - apply H3. repeat constructor.
Defined.

(** ** Processing a transaction *)

Lemma ledgerGrows_refl s : ledgerGrows s s.
Proof. exists []. rewrite app_nil_r. reflexivity. Qed.

Lemma ledgerGrows_trans a b c : ledgerGrows a b -> ledgerGrows b c -> ledgerGrows a c.
Proof.
  intros [e1 H1] [e2 H2]. exists (e1 ++ e2)%list.
  rewrite H2, H1, app_assoc. reflexivity.
Qed.

Lemma ledgerGrows_same s s' : transactions s' = transactions s -> ledgerGrows s s'.
Proof. intros E. exists []. rewrite app_nil_r. exact E. Qed.

Lemma ledgerGrows_adjustInventory now data : respects ledgerGrows (adjustInventory now data).
Proof.
  apply respects_adjustInventory.
  - apply ledgerGrows_refl.
  - apply ledgerGrows_trans.
  - intros d s. apply ledgerGrows_same. apply createLevel_frame.
  - intros id d s. apply ledgerGrows_same. apply updateLevel_frame.
  - intros; intros s0; eexists; apply transaction_create_frame.
  - intros l s. apply ledgerGrows_same. apply checkAndCreateAlert_frame.
Qed.

Lemma ledgerGrows_dispatch now t : respects ledgerGrows (dispatch now t).
Proof.
  apply respects_dispatch.
  - apply ledgerGrows_refl.
  - apply ledgerGrows_trans.
  - intros d s. apply ledgerGrows_same. apply createLevel_frame.
  - intros id d s. apply ledgerGrows_same. apply updateLevel_frame.
  - intros; intros s0; eexists; apply transaction_create_frame.
  - intros l s. apply ledgerGrows_same. apply checkAndCreateAlert_frame.
  - intros id c s. apply ledgerGrows_same. apply setCondition_frame.
Qed.

Lemma processTransaction_guard now id s t :
  find (fun x => Nat.eqb (tx_id x) id) (transactions s) = Some t ->
  tx_status t <> APPROVED ->
  processTransaction now id s =
    (s, Throw (if TransactionStatus_eqb (tx_status t) COMPLETED
               then alreadyCompleted else mustBeApproved)).
Proof.
  intros Hf Hs. unfold processTransaction, bind, prisma.transaction_findUnique.
  rewrite Hf.
  destruct (TransactionStatus_eqb (tx_status t) COMPLETED); [reflexivity|].
  destruct (TransactionStatus_eqb (tx_status t) APPROVED) eqn:E; [|reflexivity].
  apply TransactionStatus_eqb_eq in E. contradiction.
Qed.

(** What [processTransaction] does with an approved transaction: the
    handler runs once; a normal return marks the row COMPLETED, a throw
    marks it CANCELLED with the failure notes and is re-thrown. *)
Lemma processTransaction_approved now id s t :
  find (fun x => Nat.eqb (tx_id x) id) (transactions s) = Some t ->
  tx_status t = APPROVED ->
  exists t1,
    find (fun x => Nat.eqb (tx_id x) id) (transactions (fst (dispatch now t s)))
      = Some t1 /\
    processTransaction now id s =
      match dispatch now t s with
      | (s1, Ok _) =>
        (prisma.withTransactions
           (prisma.replaceFirst (fun x => Nat.eqb (tx_id x) id)
              (fun x => txWith COMPLETED (tx_notes x) (approvedBy x) (approvedAt x)
                               (rejectionReason x) (Some now) x)
              (transactions s1))
           (nextId s1) s1,
         Ok true)
      | (s1, Throw e) =>
        (prisma.withTransactions
           (prisma.replaceFirst (fun x => Nat.eqb (tx_id x) id)
              (fun x => txWith CANCELLED (Some (failureNotes t e)) (approvedBy x)
                               (approvedAt x) (rejectionReason x) (completedAt x) x)
              (transactions s1))
           (nextId s1) s1,
         Throw e)
      end.
Proof.
  intros Hf Hs.
  destruct (ledgerGrows_dispatch now t s) as [extra Hg].
  pose proof (find_app_some _ _ extra _ Hf) as Hf1. rewrite <- Hg in Hf1.
  exists t. split; [exact Hf1|].
  unfold processTransaction.
  rewrite (bind_ok _ _ s s (Some t))
    by (unfold prisma.transaction_findUnique; rewrite Hf; reflexivity).
  rewrite Hs.
  change (TransactionStatus_eqb APPROVED COMPLETED) with false.
  change (negb (TransactionStatus_eqb APPROVED APPROVED)) with false.
  cbv iota. unfold tryCatch.
  destruct (dispatch now t s) as [s1 [[]|e]] eqn:Ed; simpl in Hf1.
  - rewrite (bind_ok _ _ _ _ _ Ed).
    unfold bind, prisma.transaction_update. rewrite Hf1. reflexivity.
  - rewrite (bind_throw _ _ _ _ _ Ed).
    unfold bind, prisma.transaction_update. rewrite Hf1. reflexivity.
Qed.

Lemma processTransaction_settles now id s t :
  find (fun x => Nat.eqb (tx_id x) id) (transactions s) = Some t ->
  exists t',
    find (fun x => Nat.eqb (tx_id x) id)
         (transactions (fst (processTransaction now id s))) = Some t' /\
    tx_status t' <> APPROVED.
Proof.
  intros Hf.
  destruct (TransactionStatus_eqb (tx_status t) APPROVED) eqn:Hs.
  - apply TransactionStatus_eqb_eq in Hs.
    destruct (processTransaction_approved now id s t Hf Hs) as (t1 & Hf1 & E).
    rewrite E. clear E.
    assert (Hid : Nat.eqb (tx_id t1) id = true)
      by (apply find_some in Hf1; apply Hf1).
    destruct (dispatch now t s) as [s1 [[]|e]]; simpl in Hf1 |- *;
      eexists; (split; [apply replaceFirst_find; [exact Hf1 | exact Hid]|]);
      simpl; discriminate.
  - assert (Hn : tx_status t <> APPROVED)
      by (intros E; apply TransactionStatus_eqb_eq in E; congruence).
    rewrite (processTransaction_guard now id s t Hf Hn). simpl.
    exists t. split; assumption.
Qed.

(** C3: processing a COMPLETED transaction fails with the
    already-completed error, processing in any status other than APPROVED
    fails, and in both cases the store -- every inventory level included
    -- is left as it was; whatever a first processTransaction call did, a
    second call on the same transaction fails in one of these two ways
    and changes nothing, so level effects are applied at most once. *)
Theorem C3_processed_at_most_once :
  forall now id s t,
    find (fun x => Nat.eqb (tx_id x) id) (transactions s) = Some t ->
    (tx_status t = COMPLETED ->
     processTransaction now id s = (s, Throw alreadyCompleted)) /\
    (tx_status t <> APPROVED ->
     exists e, processTransaction now id s = (s, Throw e) /\
               levels (fst (processTransaction now id s)) = levels s) /\
    (forall now',
       let s1 := fst (processTransaction now id s) in
       exists e,
         processTransaction now' id s1 = (s1, Throw e) /\
         (e = alreadyCompleted \/ e = mustBeApproved)).
Proof.
  intros now id s t Hf. split; [|split].
  - intros Hs. rewrite (processTransaction_guard now id s t Hf) by congruence.
    rewrite Hs. reflexivity.
  - intros Hs. rewrite (processTransaction_guard now id s t Hf Hs).
    eexists. split; reflexivity.
  - intros now' s1.
    destruct (processTransaction_settles now id s t Hf) as (t' & Hf' & Hs').
    fold s1 in Hf'.
    rewrite (processTransaction_guard now' id s1 t' Hf' Hs').
    eexists. split; [reflexivity|].
    destruct (TransactionStatus_eqb (tx_status t') COMPLETED); auto.
Qed.

(** The theorem at work: processing the completed RECEIVE again. *)
Lemma C3_processed_at_most_once_witness :
  processTransaction 2000 0 receivedStore = (receivedStore, Throw alreadyCompleted).
Proof.
  refine (proj1 (C3_processed_at_most_once 2000 0%nat receivedStore _ _) _).
  - vm_compute. reflexivity.
  - reflexivity.
Defined.

(** ** The ledger row of every adjustment *)

Lemma adjustInventory_ok now data s s' u :
  adjustInventory now data s = (s', Ok u) ->
  exists s1 level s2,
    ((find (adjustWhere data) (levels s) = Some level /\ s1 = s) \/
     (find (adjustWhere data) (levels s) = None /\
      s1 = prisma.withLevels (levels s ++ [level])%list (S (nextId s)) s /\
      lvl_id level = nextId s /\ lvl_itemId level = a_itemId data /\
      quantityOnHand level = 0 /\ quantityReserved level = 0 /\
      quantityAvailable level = 0)) /\
    0 <= quantityOnHand level + a_quantity data /\
    updateLevel (lvl_id level)
      (setOnHand (quantityOnHand level + a_quantity data)) s1 = (s2, Ok u) /\
    checkAndCreateAlert u
      (fst (prisma.transaction_create (adjustLedgerRow now data) s2)) = (s', Ok tt).
Proof.
  intros E. apply adjustInventory_run in E.
  destruct E as [(_ & _ & _ & E)|(s1 & level & P1 & P2)]; [discriminate E|].
  destruct P2 as [(_ & _ & E)|(Hge & s2 & ru & Hu & Hrest)]; [discriminate E|].
  destruct ru as [u'|e]; [|destruct Hrest as [_ E]; discriminate E].
  destruct Hrest as (rc & Hc & Hr).
  destruct rc as [[]|e]; [|discriminate Hr].
  inversion Hr; subst u'.
  exists s1, level, s2. repeat split; assumption.
Qed.

Lemma adjustInventory_ok_ledger now data s s' u :
  adjustInventory now data s = (s', Ok u) ->
  exists id, transactions s' = (transactions s ++ [adjustLedgerRow now data id])%list.
Proof.
  intros E. apply adjustInventory_ok in E.
  destruct E as (s1 & level & s2 & P1 & _ & Hu & Hc).
  pose proof (checkAndCreateAlert_frame u
                (fst (prisma.transaction_create (adjustLedgerRow now data) s2)))
    as (_ & Et & _).
  rewrite Hc in Et. simpl in Et.
  pose proof (updateLevel_frame (lvl_id level)
                (setOnHand (quantityOnHand level + a_quantity data)) s1) as (Eu & _).
  rewrite Hu in Eu. simpl in Eu.
  exists (nextId s2). rewrite Et, Eu.
  destruct P1 as [[_ ->]|(_ & -> & _)]; reflexivity.
Qed.

Lemma processTransaction_ok now id s s' t :
  find (fun x => Nat.eqb (tx_id x) id) (transactions s) = Some t ->
  tx_status t = APPROVED ->
  processTransaction now id s = (s', Ok true) ->
  exists s1, dispatch now t s = (s1, Ok tt) /\
             List.length (transactions s') = List.length (transactions s1).
Proof.
  intros Hf Hs E.
  destruct (processTransaction_approved now id s t Hf Hs) as (t1 & _ & E1).
  rewrite E1 in E. clear E1.
  destruct (dispatch now t s) as [s1 [[]|e]]; [|discriminate E].
  inversion E; subst s'. exists s1. split; [reflexivity|].
  simpl. apply replaceFirst_length.
Qed.

(** C10: every successful adjustInventory call appends one COMPLETED
    ADJUST record whose quantity is the absolute value of the delta, with
    the location on the to-side for a positive delta and on the from-side
    for a negative one; so a processed RECEIVE transaction leaves one more
    record than before beside its own (two with a ledger that held only
    it) and a processed TRANSFER two more (three). *)
Theorem C10_adjust_writes_ledger_record :
  (forall now data s s' u,
     adjustInventory now data s = (s', Ok u) ->
     exists record,
       transactions s' = (transactions s ++ [record])%list /\
       tx_type record = ADJUST /\ tx_status record = COMPLETED /\
       tx_itemId record = a_itemId data /\
       tx_quantity record = Z.abs (a_quantity data) /\
       (0 < a_quantity data ->
        toPropertyId record = Some (a_propertyId data) /\
        toUnitId record = a_unitId data /\ toRoomId record = a_roomId data /\
        fromPropertyId record = None /\ fromUnitId record = None /\
        fromRoomId record = None) /\
       (a_quantity data < 0 ->
        fromPropertyId record = Some (a_propertyId data) /\
        fromUnitId record = a_unitId data /\ fromRoomId record = a_roomId data /\
        toPropertyId record = None /\ toUnitId record = None /\
        toRoomId record = None)) /\
  (forall now id s s' t,
     find (fun x => Nat.eqb (tx_id x) id) (transactions s) = Some t ->
     tx_status t = APPROVED ->
     processTransaction now id s = (s', Ok true) ->
     (tx_type t = RECEIVE ->
      List.length (transactions s') = S (List.length (transactions s))) /\
     (tx_type t = TRANSFER ->
      List.length (transactions s') = S (S (List.length (transactions s))))).
Proof.
  split.
  - intros now data s s' u E.
    destruct (adjustInventory_ok_ledger now data s s' u E) as (id & Et).
    exists (adjustLedgerRow now data id). split; [exact Et|].
    unfold adjustLedgerRow, adjustRecord. simpl.
    rewrite !Z.gtb_ltb.
    repeat split; try reflexivity;
      destruct (Z.ltb_spec 0 (a_quantity data));
      destruct (Z.ltb_spec (a_quantity data) 0); try lia; reflexivity.
  - intros now id s s' t Hf Hs E.
    destruct (processTransaction_ok now id s s' t Hf Hs E) as (s1 & Ed & El).
    rewrite El. clear El E. unfold dispatch in Ed. split; intros Ht; rewrite Ht in Ed.
    + unfold processReceive in Ed.
      destruct (negb (truthy (toPropertyId t))); [discriminate Ed|].
      apply bind_run in Ed. destruct Ed as [(s2 & u & Ea & Er)|(e & _ & Er)];
        [|discriminate Er].
      inversion Er; subst s2.
      destruct (adjustInventory_ok_ledger _ _ _ _ _ Ea) as (i & ->).
      rewrite length_app. simpl. lia.
    + unfold processTransfer in Ed.
      destruct (negb (truthy (fromPropertyId t)) || negb (truthy (toPropertyId t)));
        [discriminate Ed|].
      apply bind_run in Ed. destruct Ed as [(s2 & u & Ea & Ed)|(e & _ & Er)];
        [|discriminate Er].
      apply bind_run in Ed. destruct Ed as [(s3 & v & Eb & Er)|(e & _ & Er)];
        [|discriminate Er].
      inversion Er; subst s3.
      destruct (adjustInventory_ok_ledger _ _ _ _ _ Eb) as (j & ->).
      destruct (adjustInventory_ok_ledger _ _ _ _ _ Ea) as (i & ->).
      rewrite !length_app. simpl. lia.
Qed.

(** The theorem at work: one RECEIVE leaves two ledger rows, one
    TRANSFER three. *)
Lemma C10_adjust_writes_ledger_record_witness :
  List.length (transactions receiveSubmitted) = 1%nat /\
  List.length (transactions (fst (processTransaction 1000 0 receiveSubmitted))) = 2%nat /\
  List.length (transactions transferSubmitted) = 1%nat /\
  List.length (transactions (fst (processTransaction 2000 1 transferSubmitted))) = 3%nat.
Proof.
  destruct C10_adjust_writes_ledger_record as [_ H].
  split; [reflexivity|]. split.
  - refine (proj1 (H 1000 0%nat receiveSubmitted _ _ _ _ _) _).
    + vm_compute. reflexivity.
    + reflexivity.
    + vm_compute. reflexivity.
    + reflexivity.
  - split; [reflexivity|].
    refine (proj2 (H 2000 1%nat transferSubmitted _ _ _ _ _) _).
    + vm_compute. reflexivity.
    + reflexivity.
    + vm_compute. reflexivity.
    + reflexivity.
Defined.

(** ** Alerts *)

Lemma keepsAlerts_same s s' : stockAlerts s' = stockAlerts s -> keepsAlerts s s'.
Proof.
  intros E H i l. specialize (H i l). unfold openAlerts in *. rewrite E. exact H.
Qed.

Lemma openAlerts_append itemId levelId s a n :
  openAlerts itemId levelId (prisma.withAlerts (stockAlerts s ++ [a])%list n s) =
  (openAlerts itemId levelId s ++
   if String.eqb (al_itemId a) itemId && Nat.eqb (al_levelId a) levelId &&
      negb (isResolved a)
   then [a] else [])%list.
Proof.
  unfold openAlerts. simpl. rewrite filter_app. simpl.
  destruct (String.eqb (al_itemId a) itemId && Nat.eqb (al_levelId a) levelId &&
            negb (isResolved a)); reflexivity.
Qed.

Lemma keepsAlerts_checkAndCreateAlert level :
  respects keepsAlerts (checkAndCreateAlert level).
Proof.
  intros s H. destruct (checkAndCreateAlert level s) as [s' r] eqn:E. simpl.
  apply checkAndCreateAlert_run in E.
  destruct E as [[-> _]|(a & _ & -> & _ & Hnone & Hi & Hl & Hr)]; [exact H|].
  intros i l. rewrite openAlerts_append.
  destruct (String.eqb (al_itemId a) i && Nat.eqb (al_levelId a) l &&
            negb (isResolved a)) eqn:G.
  - apply andb_true_iff in G. destruct G as [G _].
    apply andb_true_iff in G. destruct G as [G1 G2].
    apply String.eqb_eq in G1. apply Nat.eqb_eq in G2.
    rewrite <- G1, <- G2, Hi, Hl, Hnone. simpl. lia.
  - rewrite app_nil_r. apply H.
Qed.

Lemma keepsAlerts_refl s : keepsAlerts s s.
Proof. intros H. exact H. Qed.

Lemma keepsAlerts_trans a b c : keepsAlerts a b -> keepsAlerts b c -> keepsAlerts a c.
Proof. intros H1 H2 H. auto. Qed.

Lemma keepsAlerts_cycleCount now id q countedBy notes :
  respects keepsAlerts (cycleCount now id q countedBy notes).
Proof.
  intros s. destruct (cycleCount now id q countedBy notes s) as [s' r] eqn:E. simpl.
  apply cycleCount_run in E.
  destruct E as [[-> _]|(level & _ & _ & _ & Ea & _)];
    [apply keepsAlerts_refl | apply keepsAlerts_same; exact Ea].
Qed.

Lemma alerts_adjustInventory now data s :
  alertsDeduplicated s -> alertsDeduplicated (fst (adjustInventory now data s)).
Proof.
  apply (respects_adjustInventory keepsAlerts).
  - apply keepsAlerts_refl.
  - apply keepsAlerts_trans.
  - intros d s0. apply keepsAlerts_same. apply createLevel_frame.
  - intros id d s0. apply keepsAlerts_same. apply updateLevel_frame.
  - intros; intros s0; apply keepsAlerts_same; apply transaction_create_frame.
  - apply keepsAlerts_checkAndCreateAlert.
Qed.

Lemma alerts_performAll calls s :
  alertsDeduplicated s -> alertsDeduplicated (performAll calls s).
Proof.
  apply (respects_performAll keepsAlerts).
  - apply keepsAlerts_refl.
  - apply keepsAlerts_trans.
  - intros d s0. apply keepsAlerts_same. apply createLevel_frame.
  - intros id d s0. apply keepsAlerts_same. apply updateLevel_frame.
  - intros; intros s0; apply keepsAlerts_same; apply transaction_create_frame.
  - apply keepsAlerts_checkAndCreateAlert.
  - intros id c s0. apply keepsAlerts_same. apply setCondition_frame.
  - intros id d _ s0. apply keepsAlerts_same. apply transaction_update_frame.
  - intros; intros s0; apply keepsAlerts_same; apply transaction_create_frame.
  - apply keepsAlerts_cycleCount.
Qed.

Lemma checkAndCreateAlert_open level s s' :
  lowStock level ->
  checkAndCreateAlert level s = (s', Ok tt) ->
  openAlerts (lvl_itemId level) (lvl_id level) s' <> [].
Proof.
  intros Hlow E. apply checkAndCreateAlert_cases in E.
  destruct E as [(-> & _ & [N|N])|[(_ & E)|(a & _ & -> & _ & _ & Hi & Hl & Hr)]].
  - contradiction.
  - exact N.
  - discriminate E.
  - rewrite openAlerts_append, Hi, Hl, Hr, String.eqb_refl, Nat.eqb_refl. simpl.
    intros Eq. apply (f_equal (@List.length _)) in Eq.
    rewrite length_app in Eq. simpl in Eq. lia.
Qed.

(** C6, for calls that run one after another: at most one unresolved
    StockAlert exists for every (itemId, levelId) pair in every state
    the operations reach from a store where that holds (a store without
    alerts in particular); and whenever adjustInventory returns a level
    whose alertLevel is CRITICAL or LOW, exactly one open StockAlert
    exists for that level -- so repeated adjustments that keep the level
    CRITICAL or LOW never add a second.  Calls that overlap are another
    matter (below). *)
Theorem C6_alert_creation_idempotent :
  (forall s, reachable s -> alertsDeduplicated s) /\
  (forall s calls, alertsDeduplicated s -> alertsDeduplicated (performAll calls s)) /\
  (forall s now data s' u,
     alertsDeduplicated s ->
     adjustInventory now data s = (s', Ok u) ->
     lowStock u ->
     List.length (openAlerts (lvl_itemId u) (lvl_id u) s') = 1%nat).
Proof.
  split; [|split].
  - intros s (its & calls & ->). apply alerts_performAll.
    intros i l. simpl. lia.
  - intros s calls. apply alerts_performAll.
  - intros s now data s' u Hd E Hlow.
    pose proof (alerts_adjustInventory now data s Hd) as Hd'.
    rewrite E in Hd'. simpl in Hd'. specialize (Hd' (lvl_itemId u) (lvl_id u)).
    apply adjustInventory_ok in E.
    destruct E as (s1 & level & s2 & _ & _ & _ & Hc).
    pose proof (checkAndCreateAlert_open u _ s' Hlow Hc) as Hne.
    destruct (openAlerts (lvl_itemId u) (lvl_id u) s') as [|a [|b l]];
      [contradiction | reflexivity | simpl in Hd'; lia].
Qed.

(** The theorem at work: 24 towels, then 21 taken out (LOW), one more
    (LOW) and one more (CRITICAL): one open alert. *)
Lemma C6_alert_creation_idempotent_witness :
  List.length
    (openAlerts "towel" 0
       (performAll [(2000, AdjustInventory (adjustTowels "p1" (-21)));
                    (3000, AdjustInventory (adjustTowels "p1" (-1)));
                    (4000, AdjustInventory (adjustTowels "p1" (-1)))]
                   wellStocked)) = 1%nat.
Proof.
  destruct C6_alert_creation_idempotent as (H0 & H1 & H2).
  refine (H2 (performAll [(2000, AdjustInventory (adjustTowels "p1" (-21)));
                          (3000, AdjustInventory (adjustTowels "p1" (-1)))]
                         wellStocked)
             4000 (adjustTowels "p1" (-1)) _
             {| lvl_id := 0; lvl_itemId := "towel"; lvl_propertyId := "p1";
                lvl_unitId := None; lvl_roomId := None;
                lvl_locationName := "p1"; lvl_locationPath := "p1/p1";
                quantityOnHand := 1; quantityReserved := 0; quantityAvailable := 1;
                lvl_minQuantity := Some 12; lvl_maxQuantity := Some 40;
                lvl_reorderPoint := Some 12; alertLevel := CRITICAL;
                lastCountedDate := None; lastCountedBy := None;
                lvl_notes := None |} _ _ _).
  - apply H0. exists [towel].
    exists [(1000, AdjustInventory (adjustTowels "p1" 24));
            (2000, AdjustInventory (adjustTowels "p1" (-21)));
            (3000, AdjustInventory (adjustTowels "p1" (-1)))].
    reflexivity.
  - vm_compute. reflexivity.
  - left. reflexivity.
Defined.

(** *** Calls that overlap *)

Lemma bind_assoc {A B C} (m : M A) (f : A -> M B) (g : B -> M C) s :
  bind (bind m f) g s = bind m (fun a => bind (f a) g) s.
Proof.
  unfold bind. destruct (m s) as [s1 [a|e]]; reflexivity.
Qed.

Lemma bind_ext {A B} (m : M A) (f g : A -> M B) s :
  (forall a s', f a s' = g a s') -> bind m f s = bind m g s.
Proof.
  intros H. unfold bind. destruct (m s) as [s1 [a|e]]; [apply H | reflexivity].
Qed.

(** [adjustInventory] is its first part followed by
    [checkAndCreateAlert]. *)
Lemma adjustInventory_split now data s :
  adjustInventory now data s =
  (updatedLevel <- adjustInventory_before_alert now data ;;
   checkAndCreateAlert updatedLevel ;;;
   ret updatedLevel) s.
Proof.
  unfold adjustInventory, adjustInventory_before_alert. cbv zeta.
  rewrite bind_assoc. apply bind_ext. intros found s0.
  rewrite bind_assoc. apply bind_ext. intros level s1.
  destruct (quantityOnHand level + a_quantity data <? 0); [reflexivity|].
  rewrite bind_assoc. apply bind_ext. intros updatedLevel s2.
  rewrite bind_assoc. apply bind_ext. intros row s3.
  reflexivity.
Qed.

(** The turns of one call, taken with no other call in between, are
    [adjustInventory]. *)
Lemma adjustInventory_alone now data s :
  overlap [0%nat; 0%nat; 0%nat] [Called now data] s =
  (fst (adjustInventory now data s),
   [match snd (adjustInventory now data s) with
    | Ok updatedLevel => Returned updatedLevel
    | Throw e => Thrown e
    end]).
Proof.
  rewrite adjustInventory_split.
  unfold overlap, nth_error, setNth, turn at 1, bind at 1 3.
  destruct (adjustInventory_before_alert now data s) as [s1 [u|e]]; [|reflexivity].
  unfold turn, checkAndCreateAlert, bind at 1 3.
  destruct (alertLevel u) eqn:Ea; try reflexivity;
    unfold bind, prisma.stockAlert_findFirst, ret;
    (destruct (find _ (stockAlerts s1)); [reflexivity|]);
    unfold itemOf, bind, prisma.inventoryItem_findUnique, prisma.stockAlert_create,
      ret, throw;
    destruct (find _ (inventoryItems s1)); simpl; rewrite ?Ea; reflexivity.
Qed.

(** C6, as stated, fails for calls that overlap.  Two [adjustInventory]
    calls take 21 and 1 of the 24 towels at p1, where no alert is open.
    The first writes its quantity and its ledger row, finds the level
    LOW and asks for an open alert: there is none.  Before it creates
    one, the second call does the same and is answered the same.  Both
    create, both return their level, and the level has two unresolved
    alerts. *)
Lemma C6_overlapping_calls_counterexample :
  alertsDeduplicated wellStocked /\
  exists s' ua ub,
    overlap [0%nat; 0%nat; 1%nat; 1%nat; 0%nat; 1%nat]
            [Called 2000 (adjustTowels "p1" (-21));
             Called 2001 (adjustTowels "p1" (-1))]
            wellStocked
      = (s', [Returned ua; Returned ub]) /\
    lvl_id ua = 0%nat /\ lvl_id ub = 0%nat /\
    alertLevel ua = LOW /\ alertLevel ub = LOW /\
    List.length (openAlerts "towel" 0 s') = 2%nat /\
    ~ alertsDeduplicated s'.
Proof.
  split.
  - intros i l. vm_compute. lia.
  - do 3 eexists. split; [vm_compute; reflexivity|].
    repeat (split; [reflexivity|]).
    intros H. specialize (H "towel" 0%nat). vm_compute in H. lia.
Qed.

(** ** A transfer whose second leg fails *)








(** ** Forecasting *)

Lemma dayOf_addDays now n : dayOf (addDays now n) = dayOf now + n.
Proof. unfold dayOf, addDays. apply Z.div_add. discriminate. Qed.

Lemma mapSet_length_ge k v m : (List.length m <= List.length (mapSet k v m))%nat.
Proof.
  induction m as [|[k' v'] r IH]; simpl; [lia|].
  destruct (k' =? k); simpl; lia.
Qed.

Lemma mapSet_absent k v m :
  Forall (fun e => fst e <> k) m -> mapSet k v m = (m ++ [(k, v)])%list.
Proof.
  induction m as [|[k' v'] r IH]; simpl; [reflexivity|].
  intros H. inversion H as [|e l Hk Hr]; subst. simpl in Hk.
  destruct (Z.eqb_spec k' k); [contradiction|].
  rewrite IH by exact Hr. reflexivity.
Qed.

(** The zero-filling loop adds one entry for each of the [n] days. *)
Lemma zero_fill_length d n : forall a m,
  Forall (fun e => d - Z.of_nat a < fst e) m ->
  List.length
    (fold_left (fun m i => mapSet (d - Z.of_nat i) 0 m) (seq a n) m)
  = (List.length m + n)%nat.
Proof.
  induction n as [|n IH]; intros a m Hm; simpl; [lia|].
  rewrite mapSet_absent.
  - rewrite IH.
    + rewrite length_app. simpl. lia.
    + apply Forall_app. split.
      * eapply Forall_impl; [|exact Hm]. simpl. intros e He. lia.
      * constructor; [simpl; lia | constructor].
  - eapply Forall_impl; [|exact Hm]. simpl. intros e He. lia.
Qed.

Lemma insertBy_length {A} (key : A -> Z) x l :
  List.length (insertBy key x l) = S (List.length l).
Proof.
  induction l as [|y r IH]; simpl; [reflexivity|].
  destruct (key y <=? key x); simpl; [rewrite IH|]; reflexivity.
Qed.

Lemma sortBy_length {A} (key : A -> Z) (l : list A) :
  List.length (sortBy key l) = List.length l.
Proof.
  unfold sortBy.
  assert (H : forall acc,
             List.length (fold_left (fun acc x => insertBy key x acc) l acc)
             = (List.length acc + List.length l)%nat).
  { induction l as [|x r IH]; intros acc; simpl; [lia|].
    rewrite IH, insertBy_length. lia. }
  rewrite H. reflexivity.
Qed.

Lemma consumption_fold_length (txs : list Transaction) : forall m,
  Nat.le (List.length m)
    (List.length
       (fold_left (fun m t =>
                     let date := dayOf (transactionDate t) in
                     let current :=
                       match mapGet date m with Some c => c | None => 0 end in
                     mapSet date (current + tx_quantity t) m)
                  txs m)).
Proof.
  induction txs as [|t r IH]; intros m; simpl; [lia|].
  eapply Nat.le_trans; [|apply IH]. apply mapSet_length_ge.
Qed.

(** The daily series is dense: it has an entry for each of the [days]
    zero-filled days, whatever the ledger holds. *)
Lemma getHistoricalConsumption_dense now itemId propertyId days s :
  (Z.to_nat days <=
   List.length (getHistoricalConsumption now itemId propertyId days s))%nat.
Proof.
  unfold getHistoricalConsumption. cbv zeta.
  rewrite sortBy_length.
  eapply Nat.le_trans; [|apply consumption_fold_length].
  assert (E : fold_left (fun m i => mapSet (dayOf (addDays now (- Z.of_nat i))) 0 m)
                        (seq 0 (Z.to_nat days)) [] =
              fold_left (fun m i => mapSet (dayOf now - Z.of_nat i) 0 m)
                        (seq 0 (Z.to_nat days)) []).
  { generalize (@nil (Z * Z)). generalize (seq 0 (Z.to_nat days)).
    induction l as [|i r IH]; intros m; simpl; [reflexivity|].
    rewrite dayOf_addDays. rewrite IH. reflexivity. }
  rewrite E, zero_fill_length by constructor. simpl. lia.
Qed.

Lemma forecastDemand_run now prophet data s item :
  find (fun i => String.eqb (it_id i) (f_itemId data)) (inventoryItems s) = Some item ->
  let periodDays := match f_periodDays data with Some p => p | None => 30 end in
  let historicalData :=
    getHistoricalConsumption now (f_itemId data) (f_propertyId data)
      (config.historicalDays config.forecasting) s in
  let forecastData :=
    match prophet historicalData periodDays (f_itemId data) (f_propertyId data) with
    | Some response => response
    | None => simpleMovingAverageForecast now historicalData periodDays
    end in
  exists result,
    forecastDemand now prophet data s =
      (fst (storeForecastResults now (f_itemId data) (f_propertyId data)
              forecastData s),
       Ok result) /\
    r_forecasts result = forecasts forecastData.
Proof.
  intros Hi periodDays historicalData forecastData.
  unfold forecastDemand. cbv zeta.
  unfold bind at 1. unfold prisma.inventoryItem_findUnique. rewrite Hi.
  unfold bind at 1.
  fold historicalData.
  assert (G : (List.length historicalData <? 7)%nat = false).
  { apply Nat.ltb_ge.
    pose proof (getHistoricalConsumption_dense now (f_itemId data) (f_propertyId data)
                  (config.historicalDays config.forecasting) s) as D.
    fold historicalData in D. simpl in D.
    change (Z.to_nat 90) with 90%nat in D. lia. }
  rewrite G. fold periodDays. fold forecastData.
  unfold bind, storeForecastResults, ret. simpl.
  eexists. split; reflexivity.
Qed.

Lemma sliceLast_length {A} (n : nat) (l : list A) :
  (n <= List.length l)%nat -> List.length (sliceLast n l) = n.
Proof. intros H. unfold sliceLast. rewrite length_skipn. lia. Qed.

Lemma simpleMovingAverageForecast_flat now history periods :
  (14 <= List.length history)%nat ->
  List.length (forecasts (simpleMovingAverageForecast now history periods))
    = Z.to_nat periods /\
  Forall (fun f =>
            predictedDemand f = movingAverage history /\
            lowerBound f = (movingAverage history * (7 # 10))%Q /\
            upperBound f = (movingAverage history * (13 # 10))%Q /\
            confidence f = 6 # 10)
         (forecasts (simpleMovingAverageForecast now history periods)) /\
  model_version (simpleMovingAverageForecast now history periods) = Some "simple-ma".
Proof.
  intros Hlen. unfold simpleMovingAverageForecast. cbv zeta. simpl forecasts.
  rewrite (sliceLast_length 14 history Hlen).
  change (inject_Z (Z.of_nat 14)) with (14 : Q). fold (movingAverage history).
  split; [rewrite length_map, length_seq; reflexivity|].
  split; [|reflexivity].
  apply Forall_forall. intros f Hf. apply in_map_iff in Hf.
  destruct Hf as (i & <- & _). simpl. repeat split.
Qed.

(** C7: the minimum-history check of forecastDemand never fires.  The
    series it counts is zero-filled to one entry per day of the 90-day
    window before its length is compared with 7, so an item with
    consumption on only five days (or none) is forecast, and the forecast
    is persisted, where the specification requires the
    insufficient-history error and no persisted forecast. *)
Theorem C7_history_check_never_fires :
  (forall now prophet data s,
     snd (forecastDemand now prophet data s) <> Throw insufficientHistory) /\
  (let now := 6 * msPerDay in
   let history := getHistoricalConsumption now "towel" None 90 fiveDaysOfHistory in
   let call := forecastDemand now unreachable forecastTowels fiveDaysOfHistory in
   List.length (daysWithData history) = 5%nat /\
   List.length history = 90%nat /\
   demandForecasts fiveDaysOfHistory = [] /\
   match snd call with
   | Ok result => List.length (r_forecasts result) = 30%nat
   | Throw _ => False
   end /\
   List.length (demandForecasts (fst call)) = 30%nat).
Proof.
  split.
  - intros now prophet data s.
    destruct (find (fun i => String.eqb (it_id i) (f_itemId data)) (inventoryItems s))
      as [item|] eqn:Hi.
    + destruct (forecastDemand_run now prophet data s item Hi) as (result & E & _).
      rewrite E. simpl. discriminate.
    + unfold forecastDemand. cbv zeta. unfold bind at 1.
      unfold prisma.inventoryItem_findUnique. rewrite Hi. simpl. discriminate.
  - vm_compute. repeat split; reflexivity.
Qed.

(** C8: whenever the call to the prediction service fails, forecastDemand
    answers with the moving-average fallback: one forecast for each of the
    periodDays horizon days, each with predictedDemand equal to the
    average of the last 14 days of the historical series, lowerBound 0.7
    times and upperBound 1.3 times that average and confidence 0.6; the
    rows it persists carry the same figures and the model version
    'simple-ma'. *)
Theorem C8_fallback_is_moving_average :
  forall now (prophet : Prophet) data s item,
    find (fun i => String.eqb (it_id i) (f_itemId data)) (inventoryItems s)
      = Some item ->
    let periodDays := match f_periodDays data with Some p => p | None => 30 end in
    let history :=
      getHistoricalConsumption now (f_itemId data) (f_propertyId data)
        (config.historicalDays config.forecasting) s in
    prophet history periodDays (f_itemId data) (f_propertyId data) = None ->
    exists s' result,
      forecastDemand now prophet data s = (s', Ok result) /\
      List.length (r_forecasts result) = Z.to_nat periodDays /\
      Forall (fun f =>
                predictedDemand f = movingAverage history /\
                lowerBound f = (movingAverage history * (7 # 10))%Q /\
                upperBound f = (movingAverage history * (13 # 10))%Q /\
                confidence f = 6 # 10)
             (r_forecasts result) /\
      exists kept rows,
        demandForecasts s' = (kept ++ rows)%list /\
        List.length rows = Z.to_nat periodDays /\
        Forall (fun r =>
                  modelVersion r = "simple-ma" /\
                  fc_predictedDemand r = movingAverage history /\
                  fc_lowerBound r = (movingAverage history * (7 # 10))%Q /\
                  fc_upperBound r = (movingAverage history * (13 # 10))%Q /\
                  fc_confidence r = 6 # 10)
               rows.
Proof.
  intros now prophet data s item Hi periodDays history Hdown.
  destruct (forecastDemand_run now prophet data s item Hi) as (result & E & Er).
  cbv zeta in E, Er. fold periodDays history in E, Er. rewrite Hdown in E, Er.
  assert (Hlen : (14 <= List.length history)%nat).
  { pose proof (getHistoricalConsumption_dense now (f_itemId data) (f_propertyId data)
                  (config.historicalDays config.forecasting) s) as D.
    fold history in D. simpl in D. change (Z.to_nat 90) with 90%nat in D. lia. }
  destruct (simpleMovingAverageForecast_flat now history periodDays Hlen)
    as (Hn & Hflat & Hver).
  eexists. exists result. split; [exact E|].
  rewrite Er. split; [exact Hn|]. split; [exact Hflat|].
  unfold storeForecastResults. simpl.
  eexists. eexists. split; [reflexivity|].
  split; [rewrite length_map; exact Hn|].
  apply Forall_forall. intros r Hr. apply in_map_iff in Hr.
  destruct Hr as (f & <- & Hf). simpl.
  rewrite Forall_forall in Hflat. destruct (Hflat f Hf) as (H1 & H2 & H3 & H4).
  repeat split; assumption.
Qed.

(** The theorem at work: thirty fallback forecasts for the towel. *)
Lemma C8_fallback_is_moving_average_witness :
  exists s' result,
    forecastDemand (6 * msPerDay) unreachable forecastTowels fiveDaysOfHistory
      = (s', Ok result) /\
    List.length (r_forecasts result) = 30%nat.
Proof.
  edestruct (C8_fallback_is_moving_average (6 * msPerDay) unreachable forecastTowels
               fiveDaysOfHistory) as (s' & result & E & Hn & _).
  - vm_compute. reflexivity.
  - reflexivity.
  - exists s', result. split; [exact E | exact Hn].
Defined.

(** * Further properties of the services *)

(** ** Cycle counts *)

(** The ledger row of a cycle count with a variance. *)
Lemma cycleCount_found now id q countedBy notes s level :
  find (fun l => Nat.eqb (lvl_id l) id) (levels s) = Some level ->
  let variance := q - quantityOnHand level in
  let counted :=
    prisma.withLevels
      (prisma.replaceFirst (fun l => Nat.eqb (lvl_id l) id)
         (countData now q countedBy notes level) (levels s))
      (nextId s) s in
  cycleCount now id q countedBy notes s =
    (if variance =? 0 then counted
     else fst (prisma.transaction_create
                 (adjustRecord now (lvl_itemId level) variance
                    (Some (lvl_propertyId level)) (lvl_unitId level)
                    (lvl_roomId level) (Some "Cycle count adjustment")
                    (Some "CYCLE_COUNT")
                    (Some ("Variance: " ++ numberToString variance ++ ". "
                           ++ orElse notes "")%string)
                    (Some countedBy)) counted),
     Ok (countData now q countedBy notes level level, variance)).
Proof.
  intros Hf variance counted.
  unfold cycleCount, bind, prisma.inventoryLevel_findUnique,
    prisma.inventoryLevel_update.
  rewrite Hf. cbv zeta. rewrite Hf. fold variance.
  destruct (variance =? 0); reflexivity.
Qed.

Lemma cycleCount_missing now id q countedBy notes s :
  find (fun l => Nat.eqb (lvl_id l) id) (levels s) = None ->
  cycleCount now id q countedBy notes s = (s, Throw "Inventory level not found").
Proof.
  intros Hf. unfold cycleCount, bind, prisma.inventoryLevel_findUnique.
  rewrite Hf. reflexivity.
Qed.

(** ** The ledger in every reachable store *)

Lemma keepsTxFresh_same s s' :
  transactions s' = transactions s -> (nextId s <= nextId s')%nat ->
  keepsTxFresh s s'.
Proof.
  intros E Hn H. unfold txFresh. rewrite E.
  eapply Forall_impl; [|exact H]. simpl. intros. lia.
Qed.

Lemma txFresh_append s (row : nat -> Transaction) :
  tx_id (row (nextId s)) = nextId s ->
  keepsTxFresh s (fst (prisma.transaction_create row s)).
Proof.
  intros Hid H. unfold txFresh. simpl. apply Forall_app. split.
  - eapply Forall_impl; [|exact H]. simpl. intros. lia.
  - constructor; [rewrite Hid; lia | constructor].
Qed.

Lemma txFresh_update id data s :
  statusWrite data -> keepsTxFresh s (fst (prisma.transaction_update id data s)).
Proof.
  intros Hw H. unfold prisma.transaction_update.
  destruct (find _ (transactions s)) as [t|] eqn:E; [|exact H].
  unfold txFresh in *. simpl. apply replaceFirst_Forall; [exact H|].
  intros x Hx. destruct (Hw x) as (st & n & ab & aa & rr & ca & ->). simpl.
  rewrite Forall_forall in H. apply H. apply find_some in Hx. apply Hx.
Qed.

Lemma txFresh_cycleCount now id q countedBy notes :
  respects keepsTxFresh (cycleCount now id q countedBy notes).
Proof.
  intros s H.
  destruct (find (fun l => Nat.eqb (lvl_id l) id) (levels s)) as [level|] eqn:Hf.
  - rewrite (cycleCount_found _ _ _ _ _ _ _ Hf). cbv zeta. simpl fst.
    destruct (q - quantityOnHand level =? 0).
    + exact H.
    + apply (txFresh_append
               (prisma.withLevels
                  (prisma.replaceFirst (fun l => Nat.eqb (lvl_id l) id)
                     (countData now q countedBy notes level) (levels s))
                  (nextId s) s)); [reflexivity | exact H].
  - rewrite (cycleCount_missing _ _ _ _ _ _ Hf). exact H.
Qed.

Lemma txFresh_perform now op s : txFresh s -> txFresh (perform now op s).
Proof.
  apply (respects_perform keepsTxFresh).
  - intros ? H; exact H.
  - intros a b c H1 H2 H; auto.
  - intros d s0. apply keepsTxFresh_same; apply createLevel_frame.
  - intros id d s0. pose proof (updateLevel_frame id d s0) as (E & _ & _ & En & _).
    apply keepsTxFresh_same; [exact E | rewrite En; lia].
  - intros; intros s0; apply txFresh_append; reflexivity.
  - intros l s0. apply keepsTxFresh_same; apply checkAndCreateAlert_frame.
  - intros id c s0. pose proof (setCondition_frame id c s0) as (_ & _ & E & En).
    apply keepsTxFresh_same; [exact E | rewrite En; lia].
  - intros id data Hw s0. apply txFresh_update. exact Hw.
  - intros; intros s0; apply txFresh_append; reflexivity.
  - apply txFresh_cycleCount.
Qed.

Lemma reachable_step now op s : reachable s -> reachable (perform now op s).
Proof.
  intros (its & calls & ->). exists its, (calls ++ [(now, op)])%list.
  unfold performAll. rewrite fold_left_app. reflexivity.
Qed.

Lemma reachable_ind' (P : Store -> Prop) :
  (forall its, P (initialStore its)) ->
  (forall now op s, reachable s -> P s -> P (perform now op s)) ->
  forall s, reachable s -> P s.
Proof.
  intros H0 Hstep s (its & calls & ->).
  induction calls as [|[now op] rest IH] using rev_ind; [apply H0|].
  unfold performAll. rewrite fold_left_app. simpl.
  apply Hstep; [exists its, rest; reflexivity | exact IH].
Qed.

Lemma reachable_idsFresh s : reachable s -> idsFresh s.
Proof.
  apply reachable_ind'.
  - intros its. split; constructor.
  - intros now op s0 _. apply idsFresh_perform.
Qed.

Lemma reachable_txFresh s : reachable s -> txFresh s.
Proof.
  apply reachable_ind'.
  - intros its. constructor.
  - intros now op s0 _. apply txFresh_perform.
Qed.

Lemma ledgerGrowsByAdjust_refl s : ledgerGrowsByAdjust s s.
Proof. exists []. rewrite app_nil_r. split; [reflexivity | constructor]. Qed.

Lemma ledgerGrowsByAdjust_trans a b c :
  ledgerGrowsByAdjust a b -> ledgerGrowsByAdjust b c -> ledgerGrowsByAdjust a c.
Proof.
  intros (e1 & H1 & F1) (e2 & H2 & F2). exists (e1 ++ e2)%list. split.
  - rewrite H2, H1, app_assoc. reflexivity.
  - apply Forall_app. split; assumption.
Qed.

Lemma ledgerGrowsByAdjust_same s s' :
  transactions s' = transactions s -> ledgerGrowsByAdjust s s'.
Proof.
  intros E. exists []. rewrite app_nil_r. split; [exact E | constructor].
Qed.

Lemma ledgerGrowsByAdjust_dispatch now t :
  respects ledgerGrowsByAdjust (dispatch now t).
Proof.
  apply respects_dispatch.
  - apply ledgerGrowsByAdjust_refl.
  - apply ledgerGrowsByAdjust_trans.
  - intros d s. apply ledgerGrowsByAdjust_same. apply createLevel_frame.
  - intros id d s. apply ledgerGrowsByAdjust_same. apply updateLevel_frame.
  - intros; intros s0. eexists. split; [apply transaction_create_frame|].
    constructor; [split; reflexivity | constructor].
  - intros l s. apply ledgerGrowsByAdjust_same. apply checkAndCreateAlert_frame.
  - intros id c s. apply ledgerGrowsByAdjust_same. apply setCondition_frame.
Qed.

Lemma ledgerGrowsByAdjust_adjustInventory now data :
  respects ledgerGrowsByAdjust (adjustInventory now data).
Proof.
  apply respects_adjustInventory.
  - apply ledgerGrowsByAdjust_refl.
  - apply ledgerGrowsByAdjust_trans.
  - intros d s. apply ledgerGrowsByAdjust_same. apply createLevel_frame.
  - intros id d s. apply ledgerGrowsByAdjust_same. apply updateLevel_frame.
  - intros; intros s0. eexists. split; [apply transaction_create_frame|].
    constructor; [split; reflexivity | constructor].
  - intros l s. apply ledgerGrowsByAdjust_same. apply checkAndCreateAlert_frame.
Qed.

Lemma noneApproved_grows s s' :
  ledgerGrowsByAdjust s s' -> noneApproved s -> noneApproved s'.
Proof.
  intros (extra & E & F) H. unfold noneApproved. rewrite E.
  apply Forall_app. split; [exact H|].
  eapply Forall_impl; [|exact F]. simpl. intros t [_ Hs]. rewrite Hs. discriminate.
Qed.

Section ReplaceFirstMore.
Context {A : Type} (p : A -> bool).

Lemma find_app_none l extra :
  find p l = None -> find p (l ++ extra)%list = find p extra.
Proof.
  induction l as [|y r IH]; simpl; [reflexivity|].
  destruct (p y); [discriminate | exact IH].
Qed.

Lemma replaceFirst_app_none (f : A -> A) l extra :
  find p l = None ->
  prisma.replaceFirst p f (l ++ extra)%list =
  (l ++ prisma.replaceFirst p f extra)%list.
Proof.
  induction l as [|y r IH]; simpl; [reflexivity|].
  destruct (p y); [discriminate|]. intros H. rewrite IH by exact H. reflexivity.
Qed.

Lemma replaceFirst_twice (f g : A -> A) l :
  (forall x, p (f x) = p x) ->
  prisma.replaceFirst p g (prisma.replaceFirst p f l) =
  prisma.replaceFirst p (fun x => g (f x)) l.
Proof.
  intros Hp. induction l as [|y r IH]; simpl; [reflexivity|].
  destruct (p y) eqn:E; simpl.
  - rewrite Hp, E. reflexivity.
  - rewrite E, IH. reflexivity.
Qed.

Lemma replaceFirst_Forall_other (P : A -> Prop) (f g : A -> A) l :
  Forall P (prisma.replaceFirst p f l) -> (forall x, P (g x)) ->
  Forall P (prisma.replaceFirst p g l).
Proof.
  intros H Hg. induction l as [|y r IH]; simpl in *; [constructor|].
  destruct (p y).
  - inversion H; subst. constructor; [apply Hg | assumption].
  - inversion H; subst. constructor; [assumption | apply IH; assumption].
Qed.

Lemma replaceFirst_Forall_back (P : A -> Prop) (f : A -> A) l x :
  Forall P (prisma.replaceFirst p f l) -> find p l = Some x -> P x ->
  Forall P l.
Proof.
  intros H Hf Hx. induction l as [|y r IH]; simpl in *; [constructor|].
  destruct (p y).
  - inversion Hf; subst y. inversion H; subst. constructor; assumption.
  - inversion H; subst. constructor; [assumption | apply IH; assumption].
Qed.
End ReplaceFirstMore.

(** One [processTransaction] call settles the row it is given: if no
    other row is waiting, none is afterwards. *)
Lemma processTransaction_settles_all now id s t :
  find (fun x => Nat.eqb (tx_id x) id) (transactions s) = Some t ->
  Forall (fun x => tx_status x <> APPROVED)
         (prisma.replaceFirst (fun x => Nat.eqb (tx_id x) id)
            (fun x => txWith CANCELLED None None None None None x)
            (transactions s)) ->
  noneApproved (fst (processTransaction now id s)).
Proof.
  intros Hf Hrest.
  destruct (TransactionStatus_eqb (tx_status t) APPROVED) eqn:Hs.
  - apply TransactionStatus_eqb_eq in Hs.
    destruct (processTransaction_approved now id s t Hf Hs) as (t1 & _ & E).
    rewrite E. clear E.
    destruct (ledgerGrowsByAdjust_dispatch now t s) as (extra & Hg & Fx).
    assert (Hx : Forall (fun x => tx_status x <> APPROVED) extra).
    { eapply Forall_impl; [|exact Fx]. simpl. intros x [_ Ex]. rewrite Ex.
      discriminate. }
    destruct (dispatch now t s) as [s1 [[]|e]]; simpl in Hg |- *;
      unfold noneApproved; simpl; rewrite Hg;
      rewrite (replaceFirst_app_some _ _ _ _ _ Hf);
      (apply Forall_app; split; [|exact Hx]);
      (eapply replaceFirst_Forall_other; [exact Hrest|]);
      intros x; simpl; discriminate.
  - assert (Hn : tx_status t <> APPROVED)
      by (intros E; apply TransactionStatus_eqb_eq in E; congruence).
    rewrite (processTransaction_guard now id s t Hf Hn). simpl.
    eapply replaceFirst_Forall_back; eassumption.
Qed.

Lemma noneApproved_createTransaction now data s :
  txFresh s -> noneApproved s ->
  noneApproved (fst (createTransaction now data s)).
Proof.
  intros Hfresh Hnone. unfold createTransaction.
  unfold bind at 1. unfold prisma.inventoryItem_findUnique.
  destruct (find _ (inventoryItems s)) as [item|]; [|exact Hnone].
  unfold bind at 1. unfold prisma.transaction_create at 1. cbv iota beta.
  set (row := transactionRow now data (nextId s)).
  set (s0 := prisma.withTransactions (transactions s ++ [row])%list
                                     (S (nextId s)) s).
  assert (Hnew : find (fun x => Nat.eqb (tx_id x) (nextId s)) (transactions s) = None).
  { destruct (find _ (transactions s)) as [x|] eqn:E; [|reflexivity].
    apply find_some in E. destruct E as [Hin Hid]. apply Nat.eqb_eq in Hid.
    unfold txFresh in Hfresh. rewrite Forall_forall in Hfresh.
    specialize (Hfresh x Hin). lia. }
  destruct (requiresApproval data) eqn:Ha; simpl negb; cbv iota.
  - unfold bind, ret. simpl. unfold noneApproved. simpl.
    apply Forall_app. split; [exact Hnone|].
    constructor; [|constructor]. unfold row, transactionRow. simpl.
    rewrite Ha. discriminate.
  - assert (Hset : noneApproved (fst (processTransaction now (tx_id row) s0))).
    { apply (processTransaction_settles_all now (tx_id row) s0 row).
      - unfold s0. simpl. rewrite find_app_none by exact Hnew.
        simpl. rewrite Nat.eqb_refl. reflexivity.
      - unfold s0. simpl. rewrite replaceFirst_app_none by exact Hnew.
        simpl. rewrite Nat.eqb_refl.
        apply Forall_app. split; [exact Hnone|].
        constructor; [simpl; discriminate | constructor]. }
    unfold bind.
    destruct (processTransaction now (tx_id row) s0) as [s1 [b|e]]; exact Hset.
Qed.

Lemma noneApproved_approveTransaction now id data s :
  noneApproved s -> noneApproved (fst (approveTransaction now id data s)).
Proof.
  intros Hnone.
  destruct (approveTransaction now id data s) as [s' r] eqn:E. simpl.
  unfold approveTransaction in E.
  apply bind_run in E. destruct E as [(s0 & found & E0 & E)|(e & E0 & _)];
    [|discriminate E0].
  unfold prisma.transaction_findUnique in E0. inversion E0; subst s0 found; clear E0.
  destruct (find _ (transactions s)) as [t|] eqn:Hf;
    [|inversion E; subst; exact Hnone].
  destruct (negb (TransactionStatus_eqb (tx_status t) PENDING));
    [inversion E; subst; exact Hnone|].
  apply bind_run in E. destruct E as [(s0 & updated & E0 & E)|(e & E0 & _)].
  2:{ unfold prisma.transaction_update in E0. rewrite Hf in E0. discriminate E0. }
  unfold prisma.transaction_update in E0. rewrite Hf in E0.
  inversion E0; subst s0 updated; clear E0.
  assert (Hid : Nat.eqb (tx_id t) id = true) by (apply find_some in Hf; apply Hf).
  match type of E with
  | bind (processTransaction now id) _ ?s0 = _ =>
    assert (Hset : noneApproved (fst (processTransaction now id s0)))
  end.
  { eapply processTransaction_settles_all.
    - simpl. apply replaceFirst_find; [exact Hf | exact Hid].
    - simpl. rewrite replaceFirst_twice by reflexivity.
      apply replaceFirst_Forall; [exact Hnone|].
      intros x _. simpl. discriminate. }
  apply bind_run in E. destruct E as [(s1 & b & E1 & E)|(e & E1 & _)].
  - rewrite E1 in Hset. inversion E; subst. exact Hset.
  - rewrite E1 in Hset. exact Hset.
Qed.

Lemma noneApproved_rejectTransaction now id data s :
  noneApproved s -> noneApproved (fst (rejectTransaction now id data s)).
Proof.
  intros Hnone. unfold rejectTransaction, bind, prisma.transaction_findUnique.
  destruct (find _ (transactions s)) as [t|] eqn:Hf; [|exact Hnone].
  destruct (negb (TransactionStatus_eqb (tx_status t) PENDING)); [exact Hnone|].
  unfold prisma.transaction_update. rewrite Hf. simpl.
  apply replaceFirst_Forall; [exact Hnone|]. intros x _. simpl. discriminate.
Qed.

Lemma processTransaction_refused now id s :
  noneApproved s ->
  exists e,
    processTransaction now id s = (s, Throw e) /\
    (e = "Transaction not found" \/ e = alreadyCompleted \/ e = mustBeApproved).
Proof.
  intros Hnone.
  destruct (find (fun x => Nat.eqb (tx_id x) id) (transactions s)) as [t|] eqn:Hf.
  - assert (Hs : tx_status t <> APPROVED).
    { unfold noneApproved in Hnone. rewrite Forall_forall in Hnone.
      apply Hnone. apply find_some in Hf. apply Hf. }
    rewrite (processTransaction_guard now id s t Hf Hs).
    eexists. split; [reflexivity|].
    destruct (TransactionStatus_eqb (tx_status t) COMPLETED); auto.
  - unfold processTransaction, bind, prisma.transaction_findUnique. rewrite Hf.
    eexists. split; [reflexivity|]. auto.
Qed.

Lemma noneApproved_cycleCount now id q countedBy notes s :
  noneApproved s -> noneApproved (fst (cycleCount now id q countedBy notes s)).
Proof.
  intros Hnone.
  destruct (find (fun l => Nat.eqb (lvl_id l) id) (levels s)) as [level|] eqn:Hf.
  - rewrite (cycleCount_found _ _ _ _ _ _ _ Hf). cbv zeta. simpl fst.
    destruct (q - quantityOnHand level =? 0); [exact Hnone|].
    unfold noneApproved. simpl. apply Forall_app. split; [exact Hnone|].
    constructor; [simpl; discriminate | constructor].
  - rewrite (cycleCount_missing _ _ _ _ _ _ Hf). exact Hnone.
Qed.

Lemma noneApproved_perform now op s :
  txFresh s -> noneApproved s -> noneApproved (perform now op s).
Proof.
  intros Hfresh Hnone. destruct op; simpl.
  - unfold noneApproved. destruct (createLevel_frame data s) as (-> & _). exact Hnone.
  - unfold noneApproved. destruct (updateLevel_frame id data s) as (-> & _).
    exact Hnone.
  - eapply noneApproved_grows; [apply ledgerGrowsByAdjust_adjustInventory | exact Hnone].
  - unfold reserveInventory, bind, getLevelByLocation,
      prisma.inventoryLevel_findFirst.
    destruct (find _ (levels s)) as [level|]; [|exact Hnone].
    destruct (quantityAvailable level <? quantity); [exact Hnone|].
    unfold noneApproved.
    destruct (updateLevel_frame (lvl_id level)
                (setReserved (quantityReserved level + quantity)) s) as (-> & _).
    exact Hnone.
  - unfold releaseReservedInventory, bind, getLevelByLocation,
      prisma.inventoryLevel_findFirst.
    destruct (find _ (levels s)) as [level|]; [|exact Hnone].
    destruct (quantityReserved level <? quantity); [exact Hnone|].
    unfold noneApproved.
    destruct (updateLevel_frame (lvl_id level)
                (setReserved (quantityReserved level - quantity)) s) as (-> & _).
    exact Hnone.
  - apply noneApproved_cycleCount. exact Hnone.
  - apply noneApproved_createTransaction; assumption.
  - apply noneApproved_approveTransaction. exact Hnone.
  - apply noneApproved_rejectTransaction. exact Hnone.
  - destruct (processTransaction_refused now id s Hnone) as (e & -> & _). exact Hnone.
  - unfold transferInventory, bind, getLevelByLocation,
      prisma.inventoryLevel_findFirst.
    destruct (find _ (levels s)) as [level|]; [|exact Hnone].
    destruct (quantityAvailable level <? tr_quantity data); [exact Hnone|].
    apply noneApproved_createTransaction; assumption.
Qed.

Lemma reachable_noneApproved s : reachable s -> noneApproved s.
Proof.
  apply reachable_ind'.
  - intros its. constructor.
  - intros now op s0 Hr. apply noneApproved_perform.
    apply reachable_txFresh. exact Hr.
Qed.

(** X1.  No operation leaves a transaction APPROVED: [createTransaction]
    and [approveTransaction] process the row before they return, and
    processing ends in COMPLETED or CANCELLED.  So in every reachable
    store a separate [processTransaction] call is refused for every id
    -- not found, already completed, or not approved -- and changes
    nothing. *)
Theorem processTransaction_never_applies :
  forall s,
    reachable s ->
    Forall (fun t => tx_status t <> APPROVED) (transactions s) /\
    forall now id,
      exists e,
        processTransaction now id s = (s, Throw e) /\
        (e = "Transaction not found" \/ e = alreadyCompleted \/ e = mustBeApproved).
Proof.
  intros s Hr. pose proof (reachable_noneApproved s Hr) as Hnone.
  split; [exact Hnone|].
  intros now id. apply processTransaction_refused. exact Hnone.
Qed.

(** The theorem at work: after the auto-approved RECEIVE of five towels,
    a call to process its row (id 0) is refused and changes nothing. *)
Lemma processTransaction_never_applies_witness :
  reachable receivedStore /\
  exists e, processTransaction 2000 0 receivedStore = (receivedStore, Throw e).
Proof.
  assert (H : reachable receivedStore).
  { exists [towel]. eexists. reflexivity. }
  split; [exact H|].
  destruct (proj2 (processTransaction_never_applies receivedStore H) 2000 0%nat)
    as (e & He & _).
  exists e. exact He.
Defined.

(** ** Stock against the ledger *)















(** A step that touches neither the on-hand quantities nor the ledger. *)
Lemma reconciles_same s s' :
  idsFresh s' ->
  (forall i, stockOf i s' = stockOf i s) ->
  (forall i, ledgerBalance i s' = ledgerBalance i s) ->
  reconciles s s'.
Proof. intros H E1 E2 _. split; [exact H|]. intros i. rewrite E1, E2. reflexivity. Qed.







(** ** The transaction service above the level engine

    What passes a relation through every handler of [processTransaction]
    and through the calls around it, once [adjustInventory] and the two
    reservation calls keep it.  [accepted] are the requests whose row
    may be written. *)
Section RespectsAbove.
Variable R : Store -> Store -> Prop.
Hypothesis R_refl : forall s, R s s.
Hypothesis R_trans : forall a b c, R a b -> R b c -> R a c.
Hypothesis R_adjustInventory : forall now data, respects R (adjustInventory now data).
Hypothesis R_reserveInventory :
  forall i p q u r, respects R (reserveInventory i p q u r).
Hypothesis R_releaseReservedInventory :
  forall i p q u r, respects R (releaseReservedInventory i p q u r).
Hypothesis R_setCondition :
  forall id c, respects R (prisma.inventoryItem_setCondition id c).
Hypothesis R_transaction_update :
  forall id data, statusWrite data -> respects R (prisma.transaction_update id data).
Variable accepted : CreateTransactionDTO -> Prop.
Hypothesis R_transaction_row :
  forall now data,
    accepted data -> respects R (prisma.transaction_create (transactionRow now data)).
Hypothesis accepted_TRANSFER : forall data, ct_type data = TRANSFER -> accepted data.







End RespectsAbove.




(** ** What a processed transaction moves *)




Lemma ret_run {A} (a b : A) s s' : ret a s = (s', Ok b) -> s' = s.
Proof. unfold ret. intros E. inversion E. reflexivity. Qed.


Lemma txFresh_find_none s :
  txFresh s ->
  find (fun x => Nat.eqb (tx_id x) (nextId s)) (transactions s) = None.
Proof.
  unfold txFresh. intros H.
  destruct (find _ (transactions s)) as [t|] eqn:Hf; [|reflexivity].
  apply find_some in Hf. destruct Hf as [Hin Hid]. apply Nat.eqb_eq in Hid.
  rewrite Forall_forall in H. specialize (H t Hin). lia.
Qed.

(** An auto-approved [createTransaction]: the row is written, its handler
    runs, and the row is marked by the outcome. *)
Lemma createTransaction_auto now data s item :
  find (fun i => String.eqb (it_id i) (ct_itemId data)) (inventoryItems s) = Some item ->
  requiresApproval data = false ->
  txFresh s ->
  let row := transactionRow now data (nextId s) in
  createTransaction now data s =
    match dispatch now row (submitted now data s) with
    | (s2, Ok _) =>
      (prisma.withTransactions
         (prisma.replaceFirst (fun x => Nat.eqb (tx_id x) (nextId s))
            (fun x => txWith COMPLETED (tx_notes x) (approvedBy x) (approvedAt x)
                             (rejectionReason x) (Some now) x)
            (transactions s2))
         (nextId s2) s2,
       Ok row)
    | (s2, Throw e) =>
      (prisma.withTransactions
         (prisma.replaceFirst (fun x => Nat.eqb (tx_id x) (nextId s))
            (fun x => txWith CANCELLED (Some (failureNotes row e)) (approvedBy x)
                             (approvedAt x) (rejectionReason x) (completedAt x) x)
            (transactions s2))
         (nextId s2) s2,
       Throw e)
    end.
Proof.
  intros Hi Hreq Hfresh row.
  assert (Hf : find (fun x => Nat.eqb (tx_id x) (nextId s))
                    (transactions (submitted now data s)) = Some row).
  { unfold submitted. simpl. rewrite find_app_none by (apply txFresh_find_none; exact Hfresh).
    simpl. rewrite Nat.eqb_refl. reflexivity. }
  assert (Hst : tx_status row = APPROVED) by (simpl; rewrite Hreq; reflexivity).
  destruct (processTransaction_approved now (nextId s) (submitted now data s) row Hf Hst)
    as (_ & _ & E).
  unfold createTransaction.
  rewrite (bind_ok _ _ s s (Some item))
    by (unfold prisma.inventoryItem_findUnique; rewrite Hi; reflexivity).
  rewrite (bind_ok _ _ s (submitted now data s) row) by reflexivity.
  rewrite Hreq. simpl negb. cbv iota.
  change (tx_id row) with (nextId s).
  unfold bind at 1. unfold bind at 1. rewrite E.
  destruct (dispatch now row (submitted now data s)) as [s2 [[]|e]]; reflexivity.
Qed.

(** A [createTransaction] that waits for approval writes its row and
    nothing else. *)
Lemma createTransaction_pending now data s item :
  find (fun i => String.eqb (it_id i) (ct_itemId data)) (inventoryItems s) = Some item ->
  requiresApproval data = true ->
  createTransaction now data s =
    (submitted now data s, Ok (transactionRow now data (nextId s))).
Proof.
  intros Hi Hreq. unfold createTransaction.
  rewrite (bind_ok _ _ s s (Some item))
    by (unfold prisma.inventoryItem_findUnique; rewrite Hi; reflexivity).
  rewrite (bind_ok _ _ s (submitted now data s) (transactionRow now data (nextId s)))
    by reflexivity.
  rewrite Hreq. reflexivity.
Qed.

Lemma createTransaction_no_item now data s :
  find (fun i => String.eqb (it_id i) (ct_itemId data)) (inventoryItems s) = None ->
  createTransaction now data s = (s, Throw "Item not found").
Proof.
  intros Hi. unfold createTransaction, bind, prisma.inventoryItem_findUnique.
  rewrite Hi. reflexivity.
Qed.



(** ** Approval and rejection *)

(** [approveTransaction] on a pending row: the row is approved, its
    handler runs, and the row is marked by the outcome; what is returned
    is the row as approved. *)
Lemma approveTransaction_pending now id data s t :
  find (fun x => Nat.eqb (tx_id x) id) (transactions s) = Some t ->
  tx_status t = PENDING ->
  let approved :=
    prisma.withTransactions
      (prisma.replaceFirst (fun x => Nat.eqb (tx_id x) id)
         (approvalWrite now data t) (transactions s))
      (nextId s) s in
  find (fun x => Nat.eqb (tx_id x) id) (transactions approved)
    = Some (approvalWrite now data t t) /\
  approveTransaction now id data s =
    match dispatch now (approvalWrite now data t t) approved with
    | (s2, Ok _) =>
      (prisma.withTransactions
         (prisma.replaceFirst (fun x => Nat.eqb (tx_id x) id)
            (fun x => txWith COMPLETED (tx_notes x) (approvedBy x) (approvedAt x)
                             (rejectionReason x) (Some now) x)
            (transactions s2))
         (nextId s2) s2,
       Ok (approvalWrite now data t t))
    | (s2, Throw e) =>
      (prisma.withTransactions
         (prisma.replaceFirst (fun x => Nat.eqb (tx_id x) id)
            (fun x => txWith CANCELLED
                             (Some (failureNotes (approvalWrite now data t t) e))
                             (approvedBy x) (approvedAt x) (rejectionReason x)
                             (completedAt x) x)
            (transactions s2))
         (nextId s2) s2,
       Throw e)
    end.
Proof.
  intros Hf Hst approved.
  assert (Hid : Nat.eqb (tx_id t) id = true) by (apply find_some in Hf; apply Hf).
  assert (Hf1 : find (fun x => Nat.eqb (tx_id x) id) (transactions approved)
                = Some (approvalWrite now data t t)).
  { simpl. apply replaceFirst_find; [exact Hf | exact Hid]. }
  split; [exact Hf1|].
  destruct (processTransaction_approved now id approved _ Hf1 eq_refl) as (_ & _ & E).
  unfold approveTransaction.
  rewrite (bind_ok _ _ s s (Some t))
    by (unfold prisma.transaction_findUnique; rewrite Hf; reflexivity).
  rewrite Hst.
  change (negb (TransactionStatus_eqb PENDING PENDING)) with false. cbv iota.
  rewrite (bind_ok _ _ s approved (approvalWrite now data t t))
    by (unfold prisma.transaction_update; rewrite Hf; reflexivity).
  unfold bind at 1. rewrite E.
  destruct (dispatch now (approvalWrite now data t t) approved) as [s2 [[]|e]];
    reflexivity.
Qed.

Lemma approveTransaction_refused now id data s :
  (forall t, find (fun x => Nat.eqb (tx_id x) id) (transactions s) = Some t ->
             tx_status t <> PENDING) ->
  exists e,
    approveTransaction now id data s = (s, Throw e) /\
    (e = "Transaction not found" \/ e = "Transaction is not pending approval").
Proof.
  intros H. unfold approveTransaction, bind, prisma.transaction_findUnique.
  destruct (find _ (transactions s)) as [t|]; [|eexists; split; [reflexivity | auto]].
  specialize (H t eq_refl).
  destruct (tx_status t); try contradiction; eexists; split; try reflexivity; auto.
Qed.



(** X5.  Rejection is final and moves nothing.  When [rejectTransaction]
    returns, the row is REJECTED, every level is as it was, and each later
    attempt to approve, reject or process that transaction throws and
    leaves the store untouched. *)
Theorem rejectTransaction_is_final :
  forall now id data s s' t,
    rejectTransaction now id data s = (s', Ok t) ->
    tx_status t = REJECTED /\
    rejectionReason t = Some (rj_rejectionReason data) /\
    find (fun x => Nat.eqb (tx_id x) id) (transactions s') = Some t /\
    levels s' = levels s /\
    (forall now' data',
       approveTransaction now' id data' s' =
         (s', Throw "Transaction is not pending approval")) /\
    (forall now' data',
       rejectTransaction now' id data' s' =
         (s', Throw "Transaction is not pending approval")) /\
    (forall now', processTransaction now' id s' = (s', Throw mustBeApproved)).
Proof.
  intros now id data s s' t E.
  unfold rejectTransaction, bind, prisma.transaction_findUnique in E.
  destruct (find (fun x => Nat.eqb (tx_id x) id) (transactions s)) as [t0|] eqn:Hf;
    [|discriminate E].
  destruct (negb (TransactionStatus_eqb (tx_status t0) PENDING)); [discriminate E|].
  unfold prisma.transaction_update in E. rewrite Hf in E.
  inversion E; subst s' t; clear E.
  assert (Hid : Nat.eqb (tx_id t0) id = true) by (apply find_some in Hf; apply Hf).
  pose proof (replaceFirst_find (fun x => Nat.eqb (tx_id x) id)
                (fun t => txWith REJECTED (tx_notes t) (Some (rj_rejectedBy data))
                                 (Some now) (Some (rj_rejectionReason data))
                                 (completedAt t) t)
                _ _ Hf Hid) as Hf1.
  split; [reflexivity|]. split; [reflexivity|]. split; [exact Hf1|].
  split; [reflexivity|].
  split; [|split].
  - intros now' data'. unfold approveTransaction, bind, prisma.transaction_findUnique.
    cbn [transactions prisma.withTransactions]. rewrite Hf1. reflexivity.
  - intros now' data'. unfold rejectTransaction, bind, prisma.transaction_findUnique.
    cbn [transactions prisma.withTransactions]. rewrite Hf1. reflexivity.
  - intros now'.
    match goal with
    | |- processTransaction now' id ?s1 = _ =>
      rewrite (processTransaction_guard now' id s1 _ Hf1) by (simpl; discriminate)
    end.
    reflexivity.
Qed.

(** The theorem at work: the pending RECEIVE of five towels, rejected. *)
Lemma rejectTransaction_is_final_witness :
  exists s' t,
    rejectTransaction 2000 0 rejectedByAnn pendingReceive = (s', Ok t) /\
    levels s' = levels pendingReceive.
Proof.
  destruct (rejectTransaction 2000 0 rejectedByAnn pendingReceive)
    as [s' [t|e]] eqn:E; [|vm_compute in E; discriminate E].
  exists s', t. split; [reflexivity|].
  apply (rejectTransaction_is_final _ _ _ _ _ _ E).
Defined.

(** ** Reservations *)

(** [updateLevel] on a row that exists: it writes the row, or fails on
    reading the item and writes nothing. *)
Lemma updateLevel_found id data s level :
  find (fun l => Nat.eqb (lvl_id l) id) (levels s) = Some level ->
  let quantityOnHand' :=
    match u_quantityOnHand data with Some q => q | None => quantityOnHand level end in
  let quantityReserved' :=
    match u_quantityReserved data with Some q => q | None => quantityReserved level end in
  if itemReadable data level s
  then exists al,
      let write := updateData data (quantityOnHand' - quantityReserved') al in
      updateLevel id data s =
        (prisma.withLevels
           (prisma.replaceFirst (fun l => Nat.eqb (lvl_id l) id) write (levels s))
           (nextId s) s,
         Ok (write level))
  else updateLevel id data s = (s, Throw nullItem).
Proof.
  intros Hf. cbv zeta. unfold itemReadable.
  assert (E : updateLevel id data s =
              match nullishItem (nullish (u_reorderPoint data) (lvl_reorderPoint level))
                      level it_reorderPoint s with
              | (_, Throw e) => (s, Throw e)
              | (_, Ok reorderPoint) =>
                match nullishItem (nullish (u_maxQuantity data) (lvl_maxQuantity level))
                        level it_maxQuantity s with
                | (_, Throw e) => (s, Throw e)
                | (_, Ok maxQuantity) =>
                  let write :=
                    updateData data
                      (match u_quantityOnHand data with
                       | Some q => q | None => quantityOnHand level end
                       - match u_quantityReserved data with
                         | Some q => q | None => quantityReserved level end)
                      (calculateAlertLevel
                         (match u_quantityOnHand data with
                          | Some q => q | None => quantityOnHand level end)
                         reorderPoint maxQuantity) in
                  (prisma.withLevels
                     (prisma.replaceFirst (fun l => Nat.eqb (lvl_id l) id) write
                        (levels s))
                     (nextId s) s,
                   Ok (write level))
                end
              end).
  { unfold updateLevel, bind at 1, prisma.inventoryLevel_findUnique.
    rewrite Hf. cbv zeta. unfold bind at 1.
    destruct (nullishItem_run (nullish (u_reorderPoint data) (lvl_reorderPoint level))
                level it_reorderPoint s) as [[v ->]| ->]; [|reflexivity].
    unfold bind at 1.
    destruct (nullishItem_run (nullish (u_maxQuantity data) (lvl_maxQuantity level))
                level it_maxQuantity s) as [[w ->]| ->]; [|reflexivity].
    unfold prisma.inventoryLevel_update. rewrite Hf. reflexivity. }
  rewrite E. clear E.
  unfold nullishItem, itemOf, prisma.inventoryItem_findUnique, bind, ret, throw.
  destruct (nullish (u_reorderPoint data) (lvl_reorderPoint level)) as [rp|];
    destruct (nullish (u_maxQuantity data) (lvl_maxQuantity level)) as [mq|];
    try destruct (find (fun i => String.eqb (it_id i) (lvl_itemId level))
                       (inventoryItems s)) as [item|];
    try reflexivity; eexists; reflexivity.
Qed.

(** Looking a level up by its place after the row has been written over
    by id. *)
Lemma find_replaceFirst_located (cond : InventoryLevel -> bool) write ls level :
  NoDup (map lvl_id ls) ->
  find cond ls = Some level ->
  cond (write level) = true ->
  find cond (prisma.replaceFirst (fun l => Nat.eqb (lvl_id l) (lvl_id level)) write ls)
    = Some (write level).
Proof.
  intros Hnd Hf Hc. induction ls as [|x r IH]; [discriminate Hf|].
  simpl in Hnd. inversion Hnd as [|? ? Hnot Hnd']; subst.
  simpl in Hf. simpl. destruct (cond x) eqn:Ex.
  - inversion Hf; subst x. rewrite Nat.eqb_refl. simpl. rewrite Hc. reflexivity.
  - destruct (Nat.eqb (lvl_id x) (lvl_id level)) eqn:E.
    + apply Nat.eqb_eq in E. exfalso. apply Hnot. rewrite E.
      apply in_map. apply find_some in Hf. apply Hf.
    + simpl. rewrite Ex. apply IH; assumption.
Qed.








(** ** Finding the level again

    The store holds what the services write: no two levels are kept
    apart by anything but their ids, as in [createLevel], which writes
    its row without looking for one at the same place. *)

Lemma levels_find_none_fresh s :
  idsFresh s -> find (fun l => Nat.eqb (lvl_id l) (nextId s)) (levels s) = None.
Proof.
  intros [_ H]. destruct (find _ (levels s)) as [l|] eqn:Hf; [|reflexivity].
  apply find_some in Hf. destruct Hf as [Hin Hid]. apply Nat.eqb_eq in Hid.
  rewrite Forall_forall in H. specialize (H l Hin). lia.
Qed.

(** [adjustInventory] at a place that has no level, for an item that
    exists: one row is added; it carries the request's place as given,
    and the delta when the call gets as far as writing it. *)
Lemma adjustInventory_creates now data s item :
  idsFresh s ->
  find (adjustWhere data) (levels s) = None ->
  find (fun i => String.eqb (it_id i) (a_itemId data)) (inventoryItems s) = Some item ->
  exists row,
    levels (fst (adjustInventory now data s)) = (levels s ++ [row])%list /\
    lvl_id row = nextId s /\
    lvl_itemId row = a_itemId data /\
    lvl_propertyId row = a_propertyId data /\
    lvl_unitId row = a_unitId data /\
    lvl_roomId row = a_roomId data /\
    forall u, snd (adjustInventory now data s) = Ok u ->
              u = row /\ quantityOnHand u = a_quantity data.
Proof.
  intros Hids Hf Hi.
  destruct (adjustInventory now data s) as [s' r] eqn:E. simpl fst. simpl snd.
  unfold adjustInventory in E. cbv zeta in E.
  apply bind_run in E. destruct E as [(s0 & found & H0 & E)|(e & H0 & _)];
    [|discriminate H0].
  unfold getLevelByLocation, prisma.inventoryLevel_findFirst in H0.
  inversion H0; subst s0 found; clear H0.
  fold (adjustWhere data) in E. rewrite Hf in E.
  apply bind_run in E. destruct E as [(s1 & level & H1 & E)|(e & H1 & ->)].
  2:{ exfalso. apply bind_run in H1.
      destruct H1 as [(s0 & it & H0 & H1)|(e' & H0 & _)]; [|discriminate H0].
      unfold prisma.inventoryItem_findUnique in H0. rewrite Hi in H0.
      inversion H0; subst s0 it; clear H0.
      apply createLevel_run in H1.
      destruct H1 as [(Hn & _)|(row & H1 & _)]; [|discriminate H1].
      simpl in Hn. congruence. }
  apply bind_run in H1.
  destruct H1 as [(s0 & it & H0 & H1)|(e' & H0 & _)]; [|discriminate H0].
  unfold prisma.inventoryItem_findUnique in H0. rewrite Hi in H0.
  inversion H0; subst s0 it; clear H0.
  apply createLevel_run in H1.
  destruct H1 as [(_ & _ & H1)|(row & H1 & -> & Hid & Hit & Hp & Hu & Hr & Hq & _)];
    [discriminate H1|].
  inversion H1; subst row; clear H1. simpl in Hit, Hp, Hu, Hr, Hq.
  destruct (quantityOnHand level + a_quantity data <? 0).
  { inversion E; subst s' r. exists level. simpl.
    repeat (split; [assumption || reflexivity|]). intros u Hu'. discriminate Hu'. }
  apply bind_run in E. destruct E as [(s2 & u & H2 & E)|(e & H2 & ->)].
  - apply updateLevel_run in H2.
    destruct H2 as [[_ [H2|H2]]|(level' & al & Hf' & H2 & ->)]; try discriminate H2.
    cbv zeta in H2. simpl levels in Hf'.
    rewrite find_app_none in Hf'
      by (rewrite Hid; apply levels_find_none_fresh; exact Hids).
    simpl in Hf'. rewrite Nat.eqb_refl in Hf'. inversion Hf'; subst level'; clear Hf'.
    inversion H2; subst u; clear H2.
    match type of E with
    | bind _ _ ?s2 = _ => set (written := s2) in *
    end.
    assert (Hl : levels s' = levels written).
    { apply bind_run in E. destruct E as [(s3 & t & H3 & E)|(e & H3 & _)];
        [|discriminate H3].
      inversion H3; subst s3 t; clear H3.
      apply bind_run in E. destruct E as [(s4 & [] & H4 & E)|(e & H4 & _)].
      - inversion E; subst s' r.
        match type of H4 with
        | checkAndCreateAlert ?l ?s3 = _ =>
          pose proof (checkAndCreateAlert_frame l s3) as (F & _)
        end.
        rewrite H4 in F. exact F.
      - match type of H4 with
        | checkAndCreateAlert ?l ?s3 = _ =>
          pose proof (checkAndCreateAlert_frame l s3) as (F & _)
        end.
        rewrite H4 in F. exact F. }
    eexists. split.
    + rewrite Hl. unfold written. simpl levels.
      rewrite replaceFirst_app_none
        by (rewrite Hid; apply levels_find_none_fresh; exact Hids).
      simpl. rewrite Nat.eqb_refl. reflexivity.
    + simpl. repeat (split; [assumption || reflexivity|]).
      intros u Hok.
      apply bind_run in E. destruct E as [(s3 & t & H3 & E)|(e & H3 & E)];
        [|subst r; discriminate Hok].
      apply bind_run in E. destruct E as [(s4 & [] & H4 & E)|(e & H4 & E)];
        [|subst r; discriminate Hok].
      rewrite Hok in E. inversion E; subst u. split; [reflexivity | simpl; lia].
  - apply updateLevel_run in H2.
    destruct H2 as [[-> _]|(level' & al & _ & H2 & _)]; [|discriminate H2].
    exists level. simpl.
    repeat (split; [assumption || reflexivity|]). intros u Hu'. discriminate Hu'.
Qed.

Lemma adjustInventory_no_item now data s :
  find (adjustWhere data) (levels s) = None ->
  find (fun i => String.eqb (it_id i) (a_itemId data)) (inventoryItems s) = None ->
  adjustInventory now data s = (s, Throw "Item not found").
Proof.
  intros Hf Hi.
  unfold adjustInventory, bind, getLevelByLocation, prisma.inventoryLevel_findFirst,
    prisma.inventoryItem_findUnique.
  fold (adjustWhere data). rewrite Hf, Hi. reflexivity.
Qed.

(** X8.  A level that [adjustInventory] has written is found again at
    its place.  When the call returns -- with a unit and a room that are
    not the empty string, and with the previous on-hand quantity of the
    place (zero where there was no level), the delta and their sum all
    safe integers -- [getLevelByLocation] with the same item, property,
    unit and room answers with the very row that was returned, and that
    row's on-hand quantity is the previous quantity plus the delta. *)
Theorem adjustInventory_then_lookup :
  forall now data s s' u,
    idsFresh s ->
    a_unitId data <> Some "" ->
    a_roomId data <> Some "" ->
    let before :=
      match find (adjustWhere data) (levels s) with
      | Some level => quantityOnHand level
      | None => 0
      end in
    safeInteger before ->
    safeInteger (a_quantity data) ->
    safeInteger (before + a_quantity data) ->
    adjustInventory now data s = (s', Ok u) ->
    getLevelByLocation (a_itemId data) (a_propertyId data) (a_unitId data)
                       (a_roomId data) s' = (s', Ok (Some u)) /\
    quantityOnHand u = before + a_quantity data.
Proof.
  intros now data s s' u Hids Hunit Hroom before _ _ _ E. unfold before.
  unfold getLevelByLocation, prisma.inventoryLevel_findFirst.
  fold (adjustWhere data).
  destruct (find (adjustWhere data) (levels s)) as [level|] eqn:Hf.
  - destruct (adjustInventory_ok now data s s' u E)
      as (s1 & level1 & s2 & Hfound & _ & Eu & Ec).
    destruct Hfound as [[Hf1 ->]|(Hf1 & _)]; [|congruence].
    assert (level1 = level) by congruence. subst level1.
    pose proof (checkAndCreateAlert_frame u
                  (fst (prisma.transaction_create (adjustLedgerRow now data) s2)))
      as (Hl & _). rewrite Ec in Hl. simpl in Hl.
    apply updateLevel_run in Eu.
    destruct Eu as [[_ [Eu|Eu]]|(level' & al & Hf' & Eu & ->)]; try discriminate Eu.
    pose proof (find_some _ _ Hf) as [Hin Hw].
    rewrite (find_by_id _ _ (proj1 Hids) Hin) in Hf'. inversion Hf'; subst level'.
    cbv zeta in Eu. inversion Eu; subst u; clear Eu.
    rewrite Hl. simpl levels. split; [|reflexivity].
    f_equal. f_equal. apply find_replaceFirst_located; [apply Hids | exact Hf|].
    unfold adjustWhere in *. apply locationWhere_spec in Hw.
    apply locationWhere_spec. exact Hw.
  - destruct (find (fun i => String.eqb (it_id i) (a_itemId data)) (inventoryItems s))
      as [item|] eqn:Hi.
    2:{ rewrite (adjustInventory_no_item now data s Hf Hi) in E. discriminate E. }
    destruct (adjustInventory_creates now data s item Hids Hf Hi)
      as (row & Hl & _ & Hit & Hp & Hu & Hr & Hok).
    rewrite E in Hl, Hok. simpl in Hl, Hok.
    destruct (Hok u eq_refl) as [-> Hq]. rewrite Hq. split; [|lia].
    rewrite Hl, find_app_none by exact Hf. simpl.
    assert (Hw : adjustWhere data row = true).
    { unfold adjustWhere. apply locationWhere_spec.
      repeat split; try assumption.
      - rewrite Hu. destruct (orNull_cases (a_unitId data))
          as [[-> ->]|[[H _]|(x & _ & -> & ->)]]; [reflexivity|contradiction|reflexivity].
      - rewrite Hr. destruct (orNull_cases (a_roomId data))
          as [[-> ->]|[[H _]|(x & _ & -> & ->)]]; [reflexivity|contradiction|reflexivity]. }
    rewrite Hw. reflexivity.
Qed.

(** The theorem at work: 24 towels adjusted in at p1. *)
Lemma adjustInventory_then_lookup_witness :
  exists s' u,
    adjustInventory 1000 (adjustTowels "p1" 24) (initialStore [towel]) = (s', Ok u) /\
    getLevelByLocation "towel" "p1" None None s' = (s', Ok (Some u)) /\
    quantityOnHand u = 0 + 24.
Proof.
  destruct (adjustInventory 1000 (adjustTowels "p1" 24) (initialStore [towel]))
    as [s' [u|e]] eqn:E; [|vm_compute in E; discriminate E].
  exists s', u. split; [reflexivity|].
  assert (H : idsFresh (initialStore [towel])) by (split; simpl; constructor).
  refine (adjustInventory_then_lookup 1000 (adjustTowels "p1" 24) _ _ _ H _ _ _ _ _ E);
    try (simpl; discriminate); split; reflexivity.
Defined.

(** X9.  With the empty string as unit or room, [adjustInventory] never
    finds the level it creates.  At a place that no level answers to, for
    an item that exists, the call adds one level -- whether it then
    returns or throws -- and still no level answers to the place
    afterwards: the row is stored with [''] while the lookup asks for
    null, so the next call adds another. *)
Theorem adjustInventory_empty_string_adds_a_level :
  forall now data s item,
    idsFresh s ->
    a_unitId data = Some "" \/ a_roomId data = Some "" ->
    find (adjustWhere data) (levels s) = None ->
    find (fun i => String.eqb (it_id i) (a_itemId data)) (inventoryItems s)
      = Some item ->
    let s' := fst (adjustInventory now data s) in
    find (adjustWhere data) (levels s') = None /\
    List.length (levels s') = S (List.length (levels s)).
Proof.
  intros now data s item Hids Hempty Hf Hi s'.
  destruct (adjustInventory_creates now data s item Hids Hf Hi)
    as (row & Hl & _ & _ & _ & Hu & Hr & _).
  unfold s'. rewrite Hl. split.
  - rewrite find_app_none by exact Hf. simpl.
    assert (Hw : adjustWhere data row = false).
    { destruct (adjustWhere data row) eqn:Hw; [|reflexivity].
      unfold adjustWhere in Hw. apply locationWhere_spec in Hw.
      destruct Hw as (_ & _ & Hu' & Hr').
      destruct Hempty as [H|H]; rewrite H in *.
      - rewrite Hu in Hu'. discriminate Hu'.
      - rewrite Hr in Hr'. discriminate Hr'. }
    rewrite Hw. reflexivity.
  - rewrite length_app. simpl. lia.
Qed.

(** The theorem at work: towels adjusted in at p1 with unit [''], in a
    store without levels. *)
Lemma adjustInventory_empty_string_adds_a_level_witness :
  let s' := fst (adjustInventory 1000 (adjustTowelsEmptyUnit 5) (initialStore [towel])) in
  find (adjustWhere (adjustTowelsEmptyUnit 5)) (levels s') = None /\
  List.length (levels s') = 1%nat.
Proof.
  apply (adjustInventory_empty_string_adds_a_level 1000 (adjustTowelsEmptyUnit 5)
           (initialStore [towel]) towel).
  - split; simpl; constructor.
  - left. reflexivity.
  - reflexivity.
  - reflexivity.
Defined.

(** ** Cycle counts and the low-stock report *)



Lemma Forall2_filter_replaceFirst {A} (P : A -> A -> Prop) (c p : A -> bool)
    (f : A -> A) l :
  (forall x, c (f x) = c x) -> (forall x, P x x) -> (forall x, P x (f x)) ->
  Forall2 P (filter c l) (filter c (prisma.replaceFirst p f l)).
Proof.
  intros Hc Hrefl Hf. induction l as [|x r IH]; simpl; [constructor|].
  destruct (p x); simpl.
  - rewrite Hc. destruct (c x); [constructor; [apply Hf|]|].
    + clear IH. induction (filter c r); constructor; [apply Hrefl | assumption].
    + clear IH. induction (filter c r); constructor; [apply Hrefl | assumption].
  - destruct (c x); [constructor; [apply Hrefl | exact IH] | exact IH].
Qed.

(** The report over rows that agree on everything it reads but the
    quantity. *)
Lemma mapM_entries_same (entry : InventoryLevel -> M LowStockAlert) s s' l l' :
  Forall2 (fun x y =>
             match snd (entry x s), snd (entry y s') with
             | Ok a, Ok b => withoutQuantity a = withoutQuantity b
             | Throw e, Throw e' => e = e'
             | _, _ => False
             end) l l' ->
  (forall x, fst (entry x s) = s) -> (forall x, fst (entry x s') = s') ->
  sameListing (snd (mapM entry l s)) (snd (mapM entry l' s')).
Proof.
  intros H Hs Hs'. induction H as [|x y l l' Hxy _ IH]; simpl; [reflexivity|].
  unfold bind.
  pose proof (Hs x) as Ex. pose proof (Hs' y) as Ey.
  destruct (entry x s) as [s1 [a|e]], (entry y s') as [s2 [b|e']];
    simpl in *; try contradiction; subst s1 s2; [|exact Hxy].
  assert (Hm : forall t l0, fst (mapM entry l0 t) = t ->
                 forall c, snd (let (s0, r0) := mapM entry l0 t in
                                match r0 with
                                | Ok ys => ret (c :: ys) s0
                                | Throw e => (s0, Throw e)
                                end) =
                           match snd (mapM entry l0 t) with
                           | Ok ys => Ok (c :: ys)
                           | Throw e => Throw e
                           end).
  { intros t l0 _ c. destruct (mapM entry l0 t) as [s0 [ys|e]]; reflexivity. }
  unfold sameListing in *.
  destruct (mapM entry l s) as [s1 [ys|e]], (mapM entry l' s') as [s2 [ys'|e']];
    simpl in *; try contradiction; try assumption.
  rewrite Hxy, IH. reflexivity.
Qed.

(** X11.  A cycle count does not move the low-stock report.  Whatever is
    counted, [getLowStockAlerts] answers after the count as before it --
    the same levels with the same alert levels, or the same error --
    except for the quantities shown: a level counted down to nothing is
    not reported, and a reported level counted up stays reported. *)
Theorem cycleCount_keeps_low_stock_report :
  forall now id q countedBy notes s propertyId,
    sameListing
      (snd (getLowStockAlerts propertyId s))
      (snd (getLowStockAlerts propertyId
              (fst (cycleCount now id q countedBy notes s)))).
Proof.
  intros now id q countedBy notes s propertyId.
  set (s' := fst (cycleCount now id q countedBy notes s)).
  assert (Hi : inventoryItems s' = inventoryItems s).
  { unfold s'.
    destruct (find (fun l => Nat.eqb (lvl_id l) id) (levels s)) as [level|] eqn:Hf.
    - rewrite (cycleCount_found _ _ _ _ _ _ _ Hf). cbv zeta. cbn [fst].
      destruct (_ =? 0); reflexivity.
    - rewrite (cycleCount_missing _ _ _ _ _ _ Hf). reflexivity. }
  unfold getLowStockAlerts.
  apply mapM_entries_same.
  - assert (Hl : levels s' = levels s \/
                 exists level,
                   levels s' = prisma.replaceFirst (fun l => Nat.eqb (lvl_id l) id)
                                 (countData now q countedBy notes level) (levels s)).
    { unfold s'.
      destruct (find (fun l => Nat.eqb (lvl_id l) id) (levels s)) as [level|] eqn:Hf.
      - right. exists level.
        rewrite (cycleCount_found _ _ _ _ _ _ _ Hf). cbv zeta. cbn [fst].
        destruct (_ =? 0); reflexivity.
      - left. rewrite (cycleCount_missing _ _ _ _ _ _ Hf). reflexivity. }
    assert (Hsame : forall x,
              match snd ((item <- itemOf x ;;
                          ret {| la_itemId := it_id item;
                                 la_itemName := it_name item;
                                 la_propertyId := lvl_propertyId x;
                                 la_locationName := lvl_locationName x;
                                 la_currentQuantity := quantityOnHand x;
                                 la_reorderPoint :=
                                   orOptZ (lvl_reorderPoint x) (it_reorderPoint item);
                                 la_alertLevel := alertLevel x;
                                 la_recommendedOrder := it_reorderQuantity item |}) s),
                    snd ((item <- itemOf x ;;
                          ret {| la_itemId := it_id item;
                                 la_itemName := it_name item;
                                 la_propertyId := lvl_propertyId x;
                                 la_locationName := lvl_locationName x;
                                 la_currentQuantity := quantityOnHand x;
                                 la_reorderPoint :=
                                   orOptZ (lvl_reorderPoint x) (it_reorderPoint item);
                                 la_alertLevel := alertLevel x;
                                 la_recommendedOrder := it_reorderQuantity item |}) s')
              with
              | Ok a, Ok b => withoutQuantity a = withoutQuantity b
              | Throw e, Throw e' => e = e'
              | _, _ => False
              end).
    { intros x. unfold itemOf, bind, prisma.inventoryItem_findUnique, ret, throw.
      rewrite Hi. destruct (find _ (inventoryItems s)); reflexivity. }
    destruct Hl as [-> | (level & ->)].
    + induction (filter (lowStockWhere propertyId) (levels s));
        constructor; [apply Hsame | assumption].
    + apply Forall2_filter_replaceFirst.
      * intros x. reflexivity.
      * exact Hsame.
      * intros x. unfold itemOf, bind, prisma.inventoryItem_findUnique, ret, throw.
        rewrite Hi. simpl lvl_itemId.
        destruct (find _ (inventoryItems s)); reflexivity.
  - intros x. unfold itemOf, bind, prisma.inventoryItem_findUnique, ret, throw.
    destruct (find _ (inventoryItems s)); reflexivity.
  - intros x. unfold itemOf, bind, prisma.inventoryItem_findUnique, ret, throw.
    destruct (find _ (inventoryItems s')); reflexivity.
Qed.

(** ** Alerts, once written *)

Lemma alertsGrow_refl s : alertsGrow s s.
Proof. exists []. rewrite app_nil_r. split; [reflexivity | constructor]. Qed.

Lemma alertsGrow_trans a b c : alertsGrow a b -> alertsGrow b c -> alertsGrow a c.
Proof.
  intros (x & E1 & H1) (y & E2 & H2). exists (x ++ y)%list.
  rewrite E2, E1, app_assoc. split; [reflexivity|].
  apply Forall_app. split; assumption.
Qed.

Lemma alertsGrow_same s s' : stockAlerts s' = stockAlerts s -> alertsGrow s s'.
Proof.
  intros E. exists []. rewrite E, app_nil_r. split; [reflexivity | constructor].
Qed.

Lemma alertsGrow_checkAndCreateAlert level :
  respects alertsGrow (checkAndCreateAlert level).
Proof.
  intros s. unfold checkAndCreateAlert.
  assert (Hlow : alertLevel level = CRITICAL \/ alertLevel level = LOW ->
            alertsGrow s
              (fst ((existingAlert <-
                       prisma.stockAlert_findFirst (fun a =>
                         String.eqb (al_itemId a) (lvl_itemId level) &&
                         Nat.eqb (al_levelId a) (lvl_id level) &&
                         negb (isResolved a)) ;;
                     match existingAlert with
                     | Some _ => ret tt
                     | None =>
                       item <- itemOf level ;;
                       prisma.stockAlert_create (fun id => {|
                         al_id := id;
                         al_itemId := lvl_itemId level;
                         al_levelId := lvl_id level;
                         alertType := alertLevel level;
                         al_message :=
                           (it_name item ++ " is "
                            ++ alertLevel_toLowerCase (alertLevel level)
                            ++ " at " ++ lvl_locationName level)%string;
                         severity :=
                           if StockAlertLevel_eqb (alertLevel level) CRITICAL
                           then "critical" else "high";
                         currentQuantity := quantityOnHand level;
                         al_reorderPoint :=
                           orOptZ (lvl_reorderPoint level) (it_reorderPoint item);
                         isResolved := false |}) ;;;
                       ret tt
                     end) s))).
  { intros Ha.
    unfold itemOf, bind, prisma.stockAlert_findFirst, prisma.inventoryItem_findUnique,
      prisma.stockAlert_create, ret, throw.
    destruct (find _ (stockAlerts s)); [apply alertsGrow_refl|].
    cbv beta iota.
    destruct (find _ (inventoryItems s)); [|apply alertsGrow_refl].
    simpl. eexists. split; [reflexivity|].
    constructor; [|constructor].
    split; [reflexivity|]. simpl.
    destruct Ha as [-> | ->]; simpl; auto. }
  destruct (alertLevel level) eqn:Ha; try apply alertsGrow_refl;
    apply Hlow; auto.
Qed.

(** X12.  Alerts are only ever added.  No operation of the level engine
    or the transaction service resolves, rewrites or deletes a stock
    alert: each call leaves the alert table as it was, with at most new
    rows at its end, and every row written is open, of type CRITICAL with
    severity 'critical' or of type LOW with severity 'high'.  So in every
    reachable store all alerts are open -- restocking a level does not
    close its alert. *)
Theorem alerts_are_only_added :
  (forall now op s, alertsGrow s (perform now op s)) /\
  (forall s, reachable s -> Forall raisedAlert (stockAlerts s)).
Proof.
  assert (H : forall now op s, alertsGrow s (perform now op s)).
  { apply (respects_perform alertsGrow).
    - apply alertsGrow_refl.
    - apply alertsGrow_trans.
    - intros d s0. apply alertsGrow_same. apply createLevel_frame.
    - intros id d s0. apply alertsGrow_same. apply updateLevel_frame.
    - intros; intros s0; apply alertsGrow_same; apply transaction_create_frame.
    - apply alertsGrow_checkAndCreateAlert.
    - intros id c s0. apply alertsGrow_same. apply setCondition_frame.
    - intros id d _ s0. apply alertsGrow_same. apply transaction_update_frame.
    - intros; intros s0; apply alertsGrow_same; apply transaction_create_frame.
    - intros now id q countedBy notes s0.
      destruct (cycleCount now id q countedBy notes s0) as [s' r] eqn:E.
      apply cycleCount_run in E. simpl.
      destruct E as [[-> _]|(level & _ & _ & _ & Ea & _)];
        [apply alertsGrow_refl | apply alertsGrow_same; exact Ea]. }
  split; [exact H|].
  apply reachable_ind'.
  - intros its. constructor.
  - intros now op s Hr Hall. destruct (H now op s) as (extra & -> & Hextra).
    apply Forall_app. split; assumption.
Qed.

(** The theorem at work: 21 of 24 towels taken out at p1. *)
Lemma alerts_are_only_added_witness :
  Forall raisedAlert
         (stockAlerts (performAll [(1000, AdjustInventory (adjustTowels "p1" 24));
                                   (2000, AdjustInventory (adjustTowels "p1" (-21)))]
                                  (initialStore [towel]))).
Proof.
  apply (proj2 alerts_are_only_added).
  exists [towel]. eexists. reflexivity.
Defined.

(** ** The daily series *)

Lemma mapGet_mapSet_same k v m : mapGet k (mapSet k v m) = Some v.
Proof.
  induction m as [|[k' v'] r IH]; simpl; [rewrite Z.eqb_refl; reflexivity|].
  destruct (Z.eqb_spec k' k) as [->|Hn]; simpl.
  - rewrite Z.eqb_refl. reflexivity.
  - destruct (Z.eqb_spec k' k); [contradiction | exact IH].
Qed.

Lemma mapGet_mapSet_other k k' v m : k' <> k -> mapGet k' (mapSet k v m) = mapGet k' m.
Proof.
  intros Hn. induction m as [|[k0 v0] r IH]; simpl.
  - destruct (Z.eqb_spec k k'); [congruence | reflexivity].
  - destruct (Z.eqb_spec k0 k) as [->|Hk]; simpl.
    + destruct (Z.eqb_spec k k'); [congruence|].
      destruct (Z.eqb_spec k k'); [congruence | reflexivity].
    + destruct (Z.eqb_spec k0 k'); [reflexivity | exact IH].
Qed.

Lemma mapSet_keys k v m x :
  In x (map fst (mapSet k v m)) <-> x = k \/ In x (map fst m).
Proof.
  induction m as [|[k' v'] r IH]; simpl.
  - split; [intros [H|[]]; auto | intros [H|[]]; auto].
  - destruct (Z.eqb_spec k' k) as [->|Hn]; simpl.
    + intuition congruence.
    + rewrite IH. tauto.
Qed.

Lemma mapSet_NoDup k v m : NoDup (map fst m) -> NoDup (map fst (mapSet k v m)).
Proof.
  induction m as [|[k' v'] r IH]; simpl; intros H.
  - constructor; [intros [] | constructor].
  - inversion H as [|? ? Hnot Hr]; subst.
    destruct (Z.eqb_spec k' k) as [->|Hn]; simpl.
    + constructor; assumption.
    + constructor; [|apply IH; exact Hr].
      rewrite mapSet_keys. intros [E|Hin]; [congruence | contradiction].
Qed.

Lemma mapGet_In m k v : NoDup (map fst m) -> In (k, v) m -> mapGet k m = Some v.
Proof.
  induction m as [|[k' v'] r IH]; simpl; intros Hnd Hin; [destruct Hin|].
  inversion Hnd as [|? ? Hnot Hr]; subst.
  destruct Hin as [E|Hin].
  - inversion E; subst. rewrite Z.eqb_refl. reflexivity.
  - destruct (Z.eqb_spec k' k) as [->|Hn].
    + exfalso. apply Hnot. apply (in_map fst) in Hin. exact Hin.
    + apply IH; assumption.
Qed.

Lemma insertBy_In {A} (key : A -> Z) x l y :
  In y (insertBy key x l) <-> y = x \/ In y l.
Proof.
  induction l as [|z r IH]; simpl; [intuition congruence|].
  destruct (key z <=? key x); simpl; [rewrite IH|]; intuition congruence.
Qed.

Lemma sortBy_In {A} (key : A -> Z) l y : In y (sortBy key l) <-> In y l.
Proof.
  unfold sortBy.
  assert (H : forall acc,
             In y (fold_left (fun acc x => insertBy key x acc) l acc)
             <-> In y acc \/ In y l).
  { induction l as [|x r IH]; intros acc; simpl; [tauto|].
    rewrite IH, insertBy_In. intuition congruence. }
  rewrite H. simpl. tauto.
Qed.

Lemma insertBy_sum {A} (key v : A -> Z) x l :
  sumZ (map v (insertBy key x l)) = v x + sumZ (map v l).
Proof.
  induction l as [|y r IH]; simpl; [reflexivity|].
  destruct (key y <=? key x); simpl; [rewrite IH|]; lia.
Qed.

Lemma sortBy_sum {A} (key v : A -> Z) l :
  sumZ (map v (sortBy key l)) = sumZ (map v l).
Proof.
  unfold sortBy.
  assert (H : forall acc,
             sumZ (map v (fold_left (fun acc x => insertBy key x acc) l acc))
             = sumZ (map v acc) + sumZ (map v l)).
  { induction l as [|x r IH]; intros acc; simpl; [lia|].
    rewrite IH, insertBy_sum. lia. }
  rewrite H. simpl. lia.
Qed.

(** Strict ascent, by the head and the rest. *)
Lemma ascending_cons a l :
  ascending (a :: l) = true <-> (forall b, In b l -> a < b) /\ ascending l = true.
Proof.
  revert a. induction l as [|b r IH]; intros a.
  - simpl. split; [intros _; split; [intros ? []|reflexivity] | reflexivity].
  - change (ascending (a :: b :: r)) with ((a <? b) && ascending (b :: r)).
    rewrite andb_true_iff, Z.ltb_lt. split.
    + intros [Hab Hr]. split; [|exact Hr].
      intros c [<-|Hc]; [exact Hab|].
      apply IH in Hr. destruct Hr as [Hr _]. specialize (Hr c Hc). lia.
    + intros [Hall Hr]. split; [apply Hall; left; reflexivity | exact Hr].
Qed.

Lemma insertBy_ascending {A} (key : A -> Z) x l :
  ascending (map key l) = true -> ~ In (key x) (map key l) ->
  ascending (map key (insertBy key x l)) = true.
Proof.
  induction l as [|y r IH]; intros Hasc Hnot; [reflexivity|].
  simpl map in Hasc. apply ascending_cons in Hasc. destruct Hasc as [Hall Hr].
  simpl. destruct (Z.leb_spec (key y) (key x)) as [Hle|Hgt].
  - simpl map. apply ascending_cons. split.
    + intros b Hb. apply in_map_iff in Hb. destruct Hb as (z & <- & Hz).
      apply insertBy_In in Hz. destruct Hz as [->|Hz].
      * assert (key y <> key x) by (intros E; apply Hnot; left; exact E). lia.
      * apply Hall. apply in_map. exact Hz.
    + apply IH; [exact Hr|]. intros Hin. apply Hnot. right. exact Hin.
  - simpl map. apply ascending_cons. split.
    + intros b [<-|Hb]; [lia|]. specialize (Hall b Hb). lia.
    + apply ascending_cons. split; assumption.
Qed.

Lemma sortBy_ascending {A} (key : A -> Z) l :
  NoDup (map key l) -> ascending (map key (sortBy key l)) = true.
Proof.
  unfold sortBy.
  assert (H : forall acc,
             NoDup (map key l) ->
             ascending (map key acc) = true ->
             (forall x, In x acc -> ~ In (key x) (map key l)) ->
             ascending (map key (fold_left (fun acc x => insertBy key x acc) l acc))
             = true).
  { induction l as [|x r IH]; intros acc Hnd Hasc Hdis; [exact Hasc|].
    simpl in Hnd. inversion Hnd as [|? ? Hnot Hr]; subst. simpl.
    apply IH; [exact Hr| |].
    - apply insertBy_ascending; [exact Hasc|].
      intros Hin. apply in_map_iff in Hin. destruct Hin as (z & Ez & Hz).
      apply (Hdis z Hz). left. symmetry. exact Ez.
    - intros z Hz. apply insertBy_In in Hz. destruct Hz as [->|Hz]; [exact Hnot|].
      intros Hin. apply (Hdis z Hz). right. exact Hin. }
  intros Hnd. apply H; [exact Hnd | reflexivity | intros x []].
Qed.

(** The map after the second loop of [getHistoricalConsumption]: one
    key per day, and under each key the quantities of its day on top of
    what the key held. *)
Lemma consumption_fold (txs : list Transaction) : forall m,
  NoDup (map fst m) ->
  let m' :=
    fold_left (fun m t =>
                 let date := dayOf (transactionDate t) in
                 let current := match mapGet date m with Some c => c | None => 0 end in
                 mapSet date (current + tx_quantity t) m)
              txs m in
  NoDup (map fst m') /\
  forall d,
    match mapGet d m' with Some c => c | None => 0 end =
    match mapGet d m with Some c => c | None => 0 end +
    sumZ (map (fun t => if dayOf (transactionDate t) =? d then tx_quantity t else 0) txs).
Proof.
  induction txs as [|t r IH]; intros m Hnd; simpl.
  - split; [exact Hnd | intros d; lia].
  - specialize (IH (mapSet (dayOf (transactionDate t))
                      (match mapGet (dayOf (transactionDate t)) m with
                       | Some c => c | None => 0 end + tx_quantity t) m)
                   (mapSet_NoDup _ _ _ Hnd)).
    cbv zeta in IH. destruct IH as [Hnd' Hget]. split; [exact Hnd'|].
    intros d. rewrite Hget.
    destruct (Z.eqb_spec (dayOf (transactionDate t)) d) as [<-|Hn].
    + rewrite mapGet_mapSet_same. lia.
    + rewrite mapGet_mapSet_other by congruence. lia.
Qed.

Lemma zero_fill (days : list Z) : forall m,
  NoDup (map fst m) -> Forall (fun e => snd e = 0) m ->
  let m' := fold_left (fun m d => mapSet d 0 m) days m in
  NoDup (map fst m') /\ Forall (fun e => snd e = 0) m'.
Proof.
  induction days as [|d r IH]; intros m Hnd Hz; simpl; [split; assumption|].
  apply IH; [apply mapSet_NoDup; exact Hnd|].
  clear IH Hnd. induction m as [|[k v] m IH]; simpl.
  - constructor; [reflexivity | constructor].
  - inversion Hz; subst. destruct (k =? d); constructor; auto.
Qed.

Lemma mapGet_zero m d :
  Forall (fun e => snd e = 0) m -> match mapGet d m with Some c => c | None => 0 end = 0.
Proof.
  induction m as [|[k v] r IH]; simpl; intros H; [reflexivity|].
  inversion H; subst. simpl in *. destruct (k =? d); [assumption | apply IH; assumption].
Qed.

Lemma sum_filter_day (d : Z) (l : list Transaction) :
  sumZ (map (fun t => if dayOf (transactionDate t) =? d then tx_quantity t else 0) l) =
  sumZ (map tx_quantity (filter (fun t => dayOf (transactionDate t) =? d) l)).
Proof.
  induction l as [|t r IH]; simpl; [reflexivity|].
  destruct (dayOf (transactionDate t) =? d); simpl; lia.
Qed.

(** The map behind the series: one key per day, and under each key the
    quantity of its day. *)
Lemma history_map now itemId propertyId days s :
  exists m,
    getHistoricalConsumption now itemId propertyId days s = sortBy fst m /\
    NoDup (map fst m) /\
    forall d,
      match mapGet d m with Some c => c | None => 0 end =
      sumZ (map tx_quantity
                (filter (fun t => dayOf (transactionDate t) =? d)
                        (consumed now itemId propertyId days s))).
Proof.
  unfold getHistoricalConsumption. cbv zeta.
  fold (consumed now itemId propertyId days s).
  set (zeros := fold_left (fun m i => mapSet (dayOf (addDays now (- Z.of_nat i))) 0 m)
                          (seq 0 (Z.to_nat days)) []).
  assert (Hz : NoDup (map fst zeros) /\ Forall (fun e => snd e = 0) zeros).
  { unfold zeros.
    assert (E : forall l m,
               fold_left (fun m i => mapSet (dayOf (addDays now (- Z.of_nat i))) 0 m) l m =
               fold_left (fun m d => mapSet d 0 m)
                         (map (fun i => dayOf (addDays now (- Z.of_nat i))) l) m).
    { induction l as [|i r IH]; intros m; simpl; [reflexivity | apply IH]. }
    rewrite E. apply zero_fill; constructor. }
  destruct Hz as [Hnd Hzero].
  destruct (consumption_fold
              (sortBy transactionDate (consumed now itemId propertyId days s))
              zeros Hnd) as [Hnd' Hget].
  eexists. split; [reflexivity|]. split; [exact Hnd'|].
  intros d. eapply eq_trans; [exact (Hget d)|].
  rewrite (mapGet_zero zeros d Hzero), sortBy_sum, sum_filter_day. lia.
Qed.

(** A day without completed consumption stands at zero. *)
Lemma history_without_consumption now itemId propertyId days s :
  consumed now itemId propertyId days s = [] ->
  Forall (fun e => snd e = 0) (getHistoricalConsumption now itemId propertyId days s).
Proof.
  intros Hnone.
  destruct (history_map now itemId propertyId days s) as (m & -> & Hnd & Hget).
  apply Forall_forall. intros [d q] Hin. apply sortBy_In in Hin.
  pose proof (mapGet_In _ _ _ Hnd Hin) as Hq.
  specialize (Hget d). rewrite Hq, Hnone in Hget. exact Hget.
Qed.

Lemma zero_fill_keys (days : list Z) : forall m d,
  In d (map fst (fold_left (fun m d => mapSet d 0 m) days m)) <->
  In d days \/ In d (map fst m).
Proof.
  induction days as [|x r IH]; intros m d; simpl; [tauto|].
  rewrite IH, mapSet_keys. intuition congruence.
Qed.

Lemma consumption_fold_keys (txs : list Transaction) : forall m d,
  In d (map fst
          (fold_left (fun m t =>
                        let date := dayOf (transactionDate t) in
                        let current :=
                          match mapGet date m with Some c => c | None => 0 end in
                        mapSet date (current + tx_quantity t) m)
                     txs m)) <->
  (exists t, In t txs /\ dayOf (transactionDate t) = d) \/ In d (map fst m).
Proof.
  induction txs as [|x r IH]; intros m d; simpl.
  - split; [auto | intros [(t & [] & _)|H]; exact H].
  - rewrite IH, mapSet_keys. split.
    + intros [(t & Ht & E)|[E|H]].
      * left. exists t. auto.
      * left. exists x. auto.
      * right. exact H.
    + intros [(t & [<-|Ht] & E)|H].
      * right. left. symmetry. exact E.
      * left. exists t. auto.
      * right. right. exact H.
Qed.

(** The days of the series: the days of the window, and the days on
    which a selected row was written. *)
Lemma history_days now itemId propertyId days s d :
  In d (map fst (getHistoricalConsumption now itemId propertyId days s)) <->
  dayOf now - days < d <= dayOf now \/
  exists t, In t (consumed now itemId propertyId days s) /\
            dayOf (transactionDate t) = d.
Proof.
  unfold getHistoricalConsumption. cbv zeta.
  fold (consumed now itemId propertyId days s).
  assert (Hs : forall m : list (Z * Z), In d (map fst (sortBy fst m)) <-> In d (map fst m)).
  { intros m. rewrite !in_map_iff. split; intros (e & E & He); exists e;
      (split; [exact E|]); apply (sortBy_In fst m e); exact He. }
  rewrite Hs, consumption_fold_keys.
  assert (E : forall l m,
             fold_left (fun m i => mapSet (dayOf (addDays now (- Z.of_nat i))) 0 m) l m =
             fold_left (fun m d => mapSet d 0 m)
                       (map (fun i => dayOf (addDays now (- Z.of_nat i))) l) m).
  { induction l as [|i r IH]; intros m; simpl; [reflexivity | apply IH]. }
  rewrite E, zero_fill_keys. simpl.
  assert (Hw : In d (map (fun i => dayOf (addDays now (- Z.of_nat i)))
                         (seq 0 (Z.to_nat days))) <->
               dayOf now - days < d <= dayOf now).
  { rewrite in_map_iff. split.
    - intros (i & <- & Hi). apply in_seq in Hi. rewrite dayOf_addDays. lia.
    - intros H. exists (Z.to_nat (dayOf now - d)). split.
      + rewrite dayOf_addDays. lia.
      + apply in_seq. lia. }
  rewrite Hw. split.
  - intros [(t & Ht & Et)|[H|[]]]; [right|left; exact H].
    exists t. split; [apply (sortBy_In transactionDate _ t); exact Ht | exact Et].
  - intros [H|(t & Ht & Et)]; [right; left; exact H|left].
    exists t. split; [apply (sortBy_In transactionDate _ t); exact Ht | exact Et].
Qed.

(** X13.  The daily series is exact.  Where the quantities of the rows
    that the query selects -- the completed CONSUME rows of the item
    since the start of the window -- add up within the safe integers,
    [getHistoricalConsumption] answers with the days in strictly
    ascending order, one entry for each; the days are those of the
    window (the [days] days that end today) and those on which a
    selected row was written, and no others; and the quantity of each
    entry is the sum of the quantities of the selected rows of its day:
    no consumption is lost, none is counted twice, and a day of the
    window without consumption stands at zero. *)
Theorem getHistoricalConsumption_daily_totals :
  forall now itemId propertyId days s,
    let history := getHistoricalConsumption now itemId propertyId days s in
    let selected := consumed now itemId propertyId days s in
    safeInteger (volume selected) ->
    ascending (map fst history) = true /\
    (forall d,
       In d (map fst history) <->
       dayOf now - days < d <= dayOf now \/
       exists t, In t selected /\ dayOf (transactionDate t) = d) /\
    (forall d q,
       In (d, q) history ->
       q = sumZ (map tx_quantity
                     (filter (fun t => dayOf (transactionDate t) =? d) selected))).
Proof.
  intros now itemId propertyId days s history selected _.
  split; [|split].
  - destruct (history_map now itemId propertyId days s) as (m & E & Hnd & _).
    unfold history. rewrite E. apply sortBy_ascending. exact Hnd.
  - intros d. apply history_days.
  - destruct (history_map now itemId propertyId days s) as (m & E & Hnd & Hget).
    unfold history. rewrite E. intros d q Hin. apply sortBy_In in Hin.
    pose proof (mapGet_In _ _ _ Hnd Hin) as Hq.
    specialize (Hget d). rewrite Hq in Hget. exact Hget.
Qed.

(** The theorem at work: two towels consumed on each of the days 1 to
    5, read on day 6 over a window of 90 days. *)
Lemma getHistoricalConsumption_daily_totals_witness :
  let history :=
    getHistoricalConsumption (6 * msPerDay) "towel" None 90 fiveDaysOfHistory in
  ascending (map fst history) = true /\
  forall d q,
    In (d, q) history ->
    q = sumZ (map tx_quantity
                  (filter (fun t => dayOf (transactionDate t) =? d)
                          (consumed (6 * msPerDay) "towel" None 90 fiveDaysOfHistory))).
Proof.
  destruct (getHistoricalConsumption_daily_totals
              (6 * msPerDay) "towel" None 90 fiveDaysOfHistory) as (H1 & _ & H3).
  - vm_compute. split; reflexivity.
  - split; [exact H1 | exact H3].
Defined.

(** ** The figures of the fallback *)

Lemma fold_Qplus_const (a : Q) (l : list Q) :
  Forall (fun v => v = a) l ->
  forall acc,
    (fold_left Qplus l acc == acc + inject_Z (Z.of_nat (List.length l)) * a)%Q.
Proof.
  induction 1 as [|v r Hv _ IH]; intros acc; simpl fold_left.
  - simpl. ring.
  - rewrite IH. subst v.
    change (List.length (a :: r)) with (S (List.length r)).
    rewrite Nat2Z.inj_succ. unfold Z.succ. rewrite inject_Z_plus. ring.
Qed.

Lemma sumQ_const (a : Q) (l : list Q) :
  Forall (fun v => v = a) l ->
  (sumQ l == inject_Z (Z.of_nat (List.length l)) * a)%Q.
Proof.
  intros H. unfold sumQ. rewrite (fold_Qplus_const a l H). ring.
Qed.

Lemma average_const (a : Q) (l : list Q) :
  l <> [] -> Forall (fun v => v = a) l ->
  (sumQ l / inject_Z (Z.of_nat (List.length l)) == a)%Q.
Proof.
  intros Hne H. rewrite (sumQ_const a l H).
  rewrite Qmult_comm. apply Qdiv_mult_l.
  destruct l as [|v r]; [contradiction|].
  change 0%Q with (inject_Z 0). rewrite inject_Z_injective.
  simpl List.length. lia.
Qed.

(** The variance of a flat series is zero. *)
Lemma variance_const (a : Q) (l : list Q) :
  l <> [] -> Forall (fun v => v = a) l -> (variance l == 0)%Q.
Proof.
  intros Hne H. unfold variance. cbv zeta.
  set (avg := (sumQ l / inject_Z (Z.of_nat (List.length l)))%Q).
  assert (Havg : (avg == a)%Q) by (apply average_const; assumption).
  assert (Hsq : Forall (fun v => v = ((a - avg) * (a - avg))%Q)
                       (map (fun v => ((v - avg) * (v - avg))%Q) l)).
  { apply Forall_forall. intros v Hv. apply in_map_iff in Hv.
    destruct Hv as (w & <- & Hw). rewrite Forall_forall in H.
    rewrite (H w Hw). reflexivity. }
  rewrite (sumQ_const _ _ Hsq), Havg.
  unfold Qdiv. ring.
Qed.

(** The answer of [forecastDemand] for an item that exists. *)
Lemma forecastDemand_result now prophet data s item :
  find (fun i => String.eqb (it_id i) (f_itemId data)) (inventoryItems s) = Some item ->
  let periodDays := match f_periodDays data with Some p => p | None => 30 end in
  let historicalData :=
    getHistoricalConsumption now (f_itemId data) (f_propertyId data)
      (config.historicalDays config.forecasting) s in
  let forecastData :=
    match prophet historicalData periodDays (f_itemId data) (f_propertyId data) with
    | Some response => response
    | None => simpleMovingAverageForecast now historicalData periodDays
    end in
  let demands := map predictedDemand (forecasts forecastData) in
  forecastDemand now prophet data s =
    (fst (storeForecastResults now (f_itemId data) (f_propertyId data) forecastData s),
     Ok {| r_itemId := f_itemId data;
           r_propertyId := f_propertyId data;
           r_forecasts := forecasts forecastData;
           recommendedOrder :=
             match demands with
             | [] => None
             | _ =>
               Some (Qceiling
                       (sumQ demands / inject_Z (Z.of_nat (List.length demands))
                        * inject_Z 7
                        + inject_Z (ceilScaledSqrt (variance demands))))
             end;
           safetyStock :=
             match demands with
             | [] => None
             | _ => Some (ceilScaledSqrt (variance demands))
             end |}).
Proof.
  intros Hi periodDays historicalData forecastData demands.
  unfold forecastDemand. cbv zeta.
  unfold bind at 1. unfold prisma.inventoryItem_findUnique. rewrite Hi.
  unfold bind at 1.
  fold historicalData.
  assert (G : (List.length historicalData <? 7)%nat = false).
  { apply Nat.ltb_ge.
    pose proof (getHistoricalConsumption_dense now (f_itemId data) (f_propertyId data)
                  (config.historicalDays config.forecasting) s) as D.
    fold historicalData in D. simpl in D.
    change (Z.to_nat 90) with 90%nat in D. lia. }
  rewrite G. fold periodDays. fold forecastData.
  unfold bind, storeForecastResults, ret. reflexivity.
Qed.

(** The figures beside a fallback series that stands at zero. *)
Lemma fallback_figures :
  forall now (prophet : Prophet) data s item,
    find (fun i => String.eqb (it_id i) (f_itemId data)) (inventoryItems s)
      = Some item ->
    let periodDays := match f_periodDays data with Some p => p | None => 30 end in
    let history :=
      getHistoricalConsumption now (f_itemId data) (f_propertyId data)
        (config.historicalDays config.forecasting) s in
    prophet history periodDays (f_itemId data) (f_propertyId data) = None ->
    1 <= periodDays ->
    (movingAverage history == 0)%Q ->
    exists s' result,
      forecastDemand now prophet data s = (s', Ok result) /\
      safetyStock result = Some 0 /\
      recommendedOrder result = Some 0.
Proof.
  intros now prophet data s item Hi periodDays history Hdown Hp Hma.
  pose proof (forecastDemand_result now prophet data s item Hi) as E.
  cbv zeta in E. fold periodDays history in E. rewrite Hdown in E.
  assert (Hlen : (14 <= List.length history)%nat).
  { pose proof (getHistoricalConsumption_dense now (f_itemId data) (f_propertyId data)
                  (config.historicalDays config.forecasting) s) as D.
    fold history in D. simpl in D. change (Z.to_nat 90) with 90%nat in D. lia. }
  destruct (simpleMovingAverageForecast_flat now history periodDays Hlen)
    as (Hn & Hflat & _).
  set (demands := map predictedDemand
                      (forecasts (simpleMovingAverageForecast now history periodDays)))
    in *.
  assert (Hconst : Forall (fun v => v = movingAverage history) demands).
  { unfold demands. apply Forall_forall. intros v Hv. apply in_map_iff in Hv.
    destruct Hv as (f & <- & Hf). rewrite Forall_forall in Hflat.
    apply (Hflat f Hf). }
  assert (Hne : demands <> []).
  { intros E0. apply (f_equal (@List.length Q)) in E0.
    unfold demands in E0. rewrite length_map, Hn in E0. simpl in E0. lia. }
  assert (Hsafe : ceilScaledSqrt (variance demands) = 0).
  { unfold ceilScaledSqrt. rewrite (variance_const _ _ Hne Hconst). reflexivity. }
  eexists. eexists. split; [exact E|]. simpl safetyStock. simpl recommendedOrder.
  destruct demands as [|v r] eqn:Ed; [contradiction|].
  rewrite Hsafe. split; [reflexivity|]. f_equal.
  rewrite (average_const (movingAverage history) (v :: r) Hne Hconst), Hma.
  reflexivity.
Qed.

Lemma sliceLast_Forall {A} (P : A -> Prop) n (l : list A) :
  Forall P l -> Forall P (sliceLast n l).
Proof.
  intros H. unfold sliceLast. rewrite Forall_forall in *. intros x Hx.
  apply H. rewrite <- (firstn_skipn (List.length l - n) l).
  apply in_or_app. right. exact Hx.
Qed.

(** X14.  An item nobody consumed is forecast at zero.  When the ledger
    holds no completed CONSUME row of the item in the window, the
    prediction service cannot be reached and at least one period is asked
    for, [forecastDemand] does not fail: it answers with a predicted
    demand of zero for every period, safety stock 0 and a recommended
    order of 0. *)
Theorem forecast_without_consumption_is_zero :
  forall now (prophet : Prophet) data s item,
    find (fun i => String.eqb (it_id i) (f_itemId data)) (inventoryItems s)
      = Some item ->
    let periodDays := match f_periodDays data with Some p => p | None => 30 end in
    let history :=
      getHistoricalConsumption now (f_itemId data) (f_propertyId data)
        (config.historicalDays config.forecasting) s in
    consumed now (f_itemId data) (f_propertyId data)
             (config.historicalDays config.forecasting) s = [] ->
    prophet history periodDays (f_itemId data) (f_propertyId data) = None ->
    1 <= periodDays ->
    exists s' result,
      forecastDemand now prophet data s = (s', Ok result) /\
      List.length (r_forecasts result) = Z.to_nat periodDays /\
      Forall (fun f => (predictedDemand f == 0)%Q) (r_forecasts result) /\
      safetyStock result = Some 0 /\
      recommendedOrder result = Some 0.
Proof.
  intros now prophet data s item Hi periodDays history Hnone Hdown Hp.
  assert (Hzero : Forall (fun e => snd e = 0) history).
  { apply history_without_consumption. exact Hnone. }
  assert (Hma : (movingAverage history == 0)%Q).
  { unfold movingAverage.
    assert (Hall : Forall (fun v => v = 0%Q)
                          (map (fun d => inject_Z (snd d)) (sliceLast 14 history))).
    { apply Forall_forall. intros v Hv. apply in_map_iff in Hv.
      destruct Hv as (e & <- & He).
      pose proof (sliceLast_Forall _ 14 history Hzero) as Hz.
      rewrite Forall_forall in Hz. rewrite (Hz e He). reflexivity. }
    rewrite (sumQ_const 0 _ Hall). unfold Qdiv. ring. }
  destruct (fallback_figures now prophet data s item Hi Hdown Hp Hma)
    as (s' & result & E & Hs & Hr).
  destruct (forecastDemand_run now prophet data s item Hi) as (result' & E' & Ef).
  cbv zeta in E', Ef. fold periodDays history in E', Ef. rewrite Hdown in E', Ef.
  rewrite E in E'. inversion E'; subst result'; clear E'.
  assert (Hlen : (14 <= List.length history)%nat).
  { pose proof (getHistoricalConsumption_dense now (f_itemId data) (f_propertyId data)
                  (config.historicalDays config.forecasting) s) as D.
    fold history in D. simpl in D. change (Z.to_nat 90) with 90%nat in D. lia. }
  destruct (simpleMovingAverageForecast_flat now history periodDays Hlen)
    as (Hn & Hflat & _).
  exists s', result. split; [exact E|]. rewrite Ef.
  split; [exact Hn|]. split.
  - eapply Forall_impl; [|exact Hflat]. simpl. intros f (Hf & _).
    rewrite Hf. exact Hma.
  - split; [exact Hs | exact Hr].
Qed.

(** The theorem at work: towels that were never consumed. *)
Lemma forecast_without_consumption_is_zero_witness :
  exists s' result,
    forecastDemand (6 * msPerDay) unreachable forecastTowels wellStocked
      = (s', Ok result) /\
    recommendedOrder result = Some 0.
Proof.
  edestruct (forecast_without_consumption_is_zero (6 * msPerDay) unreachable
               forecastTowels wellStocked) as (s' & result & E & _ & _ & _ & Hr).
  - vm_compute. reflexivity.
  - reflexivity.
  - reflexivity.
  - simpl. lia.
  - exists s', result. split; [exact E | exact Hr].
Defined.

(** ** Forecasts, stored and read back *)

Lemma insertBy_filter_length {A} (key : A -> Z) (q : A -> bool) x l :
  List.length (filter q (insertBy key x l)) = List.length (filter q (x :: l)).
Proof.
  induction l as [|y r IH]; [reflexivity|].
  simpl insertBy. destruct (key y <=? key x).
  - simpl filter in *. destruct (q y), (q x); simpl in *; rewrite IH; reflexivity.
  - reflexivity.
Qed.

Lemma sortBy_filter_length {A} (key : A -> Z) (q : A -> bool) l :
  List.length (filter q (sortBy key l)) = List.length (filter q l).
Proof.
  unfold sortBy.
  assert (H : forall acc,
             List.length (filter q (fold_left (fun acc x => insertBy key x acc) l acc))
             = (List.length (filter q acc) + List.length (filter q l))%nat).
  { induction l as [|x r IH]; intros acc; simpl fold_left; [simpl; lia|].
    rewrite IH, insertBy_filter_length. simpl. destruct (q x); simpl; lia. }
  rewrite H. reflexivity.
Qed.

Lemma filter_length_In {A} (q : A -> bool) l x :
  In x l -> q x = true -> (1 <= List.length (filter q l))%nat.
Proof.
  induction l as [|y r IH]; intros Hin Hq; [destruct Hin|].
  simpl. destruct Hin as [->|Hin].
  - rewrite Hq. simpl. lia.
  - destruct (q y); simpl; [lia | apply IH; assumption].
Qed.

Lemma day_start_le t : dayOf t * msPerDay <= t.
Proof.
  unfold dayOf, msPerDay.
  pose proof (Z.mul_div_le t 86400000). lia.
Qed.

Lemma next_day_gt t : t < (dayOf t + 1) * msPerDay.
Proof.
  unfold dayOf, msPerDay.
  pose proof (Z.mod_pos_bound t 86400000).
  pose proof (Z.div_mod t 86400000). lia.
Qed.

(** The rows one fallback forecast stores: one for each period, dated
    with the call, starting at the period's midnight. *)
Lemma fallback_rows now itemId propertyId history periods s i :
  1 <= i <= periods ->
  exists kept rows r,
    demandForecasts
      (fst (storeForecastResults now itemId propertyId
              (simpleMovingAverageForecast now history periods) s))
      = (kept ++ rows)%list /\
    kept = filter (fun r =>
                     negb (String.eqb (fc_itemId r) itemId &&
                           opt_eqb (fc_propertyId r) (orNull propertyId) &&
                           (forecastDate r <? addDays now (-7))))
                  (demandForecasts s) /\
    Forall (fun r => forecastDate r = now) rows /\
    In r rows /\
    fc_itemId r = itemId /\ fc_propertyId r = orNull propertyId /\
    forecastDate r = now /\ periodStart r = (dayOf now + i) * msPerDay.
Proof.
  intros Hi. unfold storeForecastResults. simpl.
  eexists. eexists. eexists. split; [reflexivity|]. split; [reflexivity|].
  split.
  { apply Forall_forall. intros r Hr. apply in_map_iff in Hr.
    destruct Hr as (f & <- & _). reflexivity. }
  split.
  { apply in_map. apply in_map. apply (in_seq (Z.to_nat periods) 1 (Z.to_nat i)). lia. }
  simpl. repeat split.
  rewrite dayOf_addDays, Z2Nat.id by lia. reflexivity.
Qed.

Lemma opt_eqb_refl o : opt_eqb o o = true.
Proof. apply opt_eqb_eq. reflexivity. Qed.

(** X15.  A forecast repeated on the same day is stored twice.
    [storeForecastResults] deletes only rows whose forecast date is more
    than seven days old, so when the moving-average fallback runs twice
    on one calendar day for the same item and property, both sets of
    rows stay, and [getForecast] then answers with at least two rows for
    each forecast period. *)
Theorem repeated_forecast_is_stored_twice :
  forall now1 now2 (prophet : Prophet) data s item i,
    find (fun x => String.eqb (it_id x) (f_itemId data)) (inventoryItems s)
      = Some item ->
    (forall history periods itemId propertyId,
       prophet history periods itemId propertyId = None) ->
    now1 <= now2 ->
    dayOf now1 = dayOf now2 ->
    1 <= i <= match f_periodDays data with Some p => p | None => 30 end ->
    let s1 := fst (forecastDemand now1 prophet data s) in
    let s2 := fst (forecastDemand now2 prophet data s1) in
    exists rows,
      getForecast now2 (f_itemId data) (f_propertyId data) s2 = (s2, Ok rows) /\
      (2 <= List.length
              (filter (fun r => (periodStart r =? (dayOf now2 + i) * msPerDay)%Z)
                      rows))%nat.
Proof.
  intros now1 now2 prophet data s item i Hi Hdown Hle Hday Hper s1 s2.
  destruct (forecastDemand_run now1 prophet data s item Hi) as (res1 & E1 & _).
  cbv zeta in E1. rewrite Hdown in E1.
  assert (Hs1 : s1 = fst (storeForecastResults now1 (f_itemId data) (f_propertyId data)
                            (simpleMovingAverageForecast now1
                               (getHistoricalConsumption now1 (f_itemId data)
                                  (f_propertyId data)
                                  (config.historicalDays config.forecasting) s)
                               match f_periodDays data with Some p => p | None => 30 end)
                            s))
    by (unfold s1; rewrite E1; reflexivity).
  assert (Hi1 : find (fun x => String.eqb (it_id x) (f_itemId data)) (inventoryItems s1)
                = Some item) by (rewrite Hs1; exact Hi).
  destruct (forecastDemand_run now2 prophet data s1 item Hi1) as (res2 & E2 & _).
  cbv zeta in E2. rewrite Hdown in E2.
  assert (Hs2 : s2 = fst (storeForecastResults now2 (f_itemId data) (f_propertyId data)
                            (simpleMovingAverageForecast now2
                               (getHistoricalConsumption now2 (f_itemId data)
                                  (f_propertyId data)
                                  (config.historicalDays config.forecasting) s1)
                               match f_periodDays data with Some p => p | None => 30 end)
                            s1))
    by (unfold s2; rewrite E2; reflexivity).
  clear E1 E2.
  match type of Hs1 with
  | _ = fst (storeForecastResults _ _ _ (simpleMovingAverageForecast _ ?h ?p) _) =>
    destruct (fallback_rows now1 (f_itemId data) (f_propertyId data) h p s i Hper)
      as (kept1 & rows1 & r1 & Hd1 & _ & _ & Hin1 & Hit1 & Hp1 & Hf1 & Hps1)
  end.
  rewrite <- Hs1 in Hd1.
  match type of Hs2 with
  | _ = fst (storeForecastResults _ _ _ (simpleMovingAverageForecast _ ?h ?p) _) =>
    destruct (fallback_rows now2 (f_itemId data) (f_propertyId data) h p s1 i Hper)
      as (kept2 & rows2 & r2 & Hd2 & Hk2 & _ & Hin2 & Hit2 & Hp2 & Hf2 & Hps2)
  end.
  rewrite <- Hs2 in Hd2.
  pose proof (day_start_le now1) as Hlo. pose proof (next_day_gt now2) as Hhi.
  assert (Hms : msPerDay = 86400000) by reflexivity.
  assert (Hclose : now2 - now1 < msPerDay) by (rewrite <- Hday in Hhi; lia).
  assert (Hkept : In r1 kept2).
  { rewrite Hk2. apply filter_In. split.
    - rewrite Hd1. apply in_or_app. right. exact Hin1.
    - rewrite Hf1. apply negb_true_iff. apply andb_false_iff. right.
      apply Z.ltb_ge. unfold addDays. lia. }
  set (w := fun r =>
              String.eqb (fc_itemId r) (f_itemId data) &&
              (addDays now2 (-7) <=? forecastDate r) &&
              (now2 <=? periodStart r) &&
              (if truthy (f_propertyId data)
               then opt_eqb (fc_propertyId r) (f_propertyId data) else true)).
  set (q := fun r => periodStart r =? (dayOf now2 + i) * msPerDay).
  assert (Hprop : forall r, fc_propertyId r = orNull (f_propertyId data) ->
                    (if truthy (f_propertyId data)
                     then opt_eqb (fc_propertyId r) (f_propertyId data) else true) = true).
  { intros r ->. unfold orNull. destruct (truthy (f_propertyId data));
      [apply opt_eqb_refl | reflexivity]. }
  assert (Hw1 : w r1 = true /\ q r1 = true).
  { unfold w, q. rewrite Hit1, Hf1, Hps1, Hday, String.eqb_refl, (Hprop r1 Hp1).
    rewrite Z.eqb_refl. split; [|reflexivity].
    rewrite !andb_true_r. simpl. apply andb_true_iff. split.
    - apply Z.leb_le. unfold addDays. lia.
    - apply Z.leb_le. nia. }
  assert (Hw2 : w r2 = true /\ q r2 = true).
  { unfold w, q. rewrite Hit2, Hf2, Hps2, String.eqb_refl, (Hprop r2 Hp2).
    rewrite Z.eqb_refl. split; [|reflexivity].
    rewrite !andb_true_r. simpl. apply andb_true_iff. split.
    - apply Z.leb_le. unfold addDays. lia.
    - apply Z.leb_le. nia. }
  unfold getForecast. fold w. eexists. split; [reflexivity|]. fold q.
  rewrite sortBy_filter_length, Hd2, !filter_app, length_app.
  assert (H1 : (1 <= List.length (filter q (filter w kept2)))%nat).
  { apply (filter_length_In q _ r1); [|apply Hw1].
    apply filter_In. split; [exact Hkept | apply Hw1]. }
  assert (H2 : (1 <= List.length (filter q (filter w rows2)))%nat).
  { apply (filter_length_In q _ r2); [|apply Hw2].
    apply filter_In. split; [exact Hin2 | apply Hw2]. }
  lia.
Qed.

(** The theorem at work: the towel forecast asked for twice in the
    morning of day 6. *)
Lemma repeated_forecast_is_stored_twice_witness :
  let s1 := fst (forecastDemand (6 * msPerDay) unreachable forecastTowels
                   fiveDaysOfHistory) in
  let s2 := fst (forecastDemand (6 * msPerDay + 3600000) unreachable forecastTowels s1) in
  exists rows,
    getForecast (6 * msPerDay + 3600000) "towel" None s2 = (s2, Ok rows) /\
    (2 <= List.length
            (filter (fun r => (periodStart r
                               =? (dayOf (6 * msPerDay + 3600000) + 1) * msPerDay)%Z)
                    rows))%nat.
Proof.
  apply (repeated_forecast_is_stored_twice (6 * msPerDay) (6 * msPerDay + 3600000)
           unreachable forecastTowels fiveDaysOfHistory towel 1).
  - vm_compute. reflexivity.
  - reflexivity.
  - unfold msPerDay. lia.
  - reflexivity.
  - simpl. lia.
Defined.

(** ** Stock by place *)














(** ** What a caller of the HTTP handlers sees *)

(** X17.  A level that does not exist is a 404 for some handlers and a
    500 for others.  The handlers of updateLevel and cycleCount answer a
    missing level id with 404 Not Found; the handlers of reserveInventory
    and releaseReservedInventory look only for their own error message,
    so the same 'Inventory level not found' leaves them as 500 Internal
    Server Error.  In all four cases the store is untouched. *)
Theorem missing_level_status :
  forall now userId id data counted notes itemId propertyId quantity unitId roomId s,
    find (fun l => Nat.eqb (lvl_id l) id) (levels s) = None ->
    find (locationWhere itemId propertyId unitId roomId) (levels s) = None ->
    controller.updateLevel id data s
      = (s, Fail 404 "Not Found" "Inventory level not found") /\
    controller.cycleCount now userId id counted notes s
      = (s, Fail 404 "Not Found" "Inventory level not found") /\
    controller.reserveInventory itemId propertyId quantity unitId roomId s
      = (s, Fail 500 "Internal Server Error" "Inventory level not found") /\
    controller.releaseReservedInventory itemId propertyId quantity unitId roomId s
      = (s, Fail 500 "Internal Server Error" "Inventory level not found").
Proof.
  intros now userId id data counted notes itemId propertyId quantity unitId roomId s
         Hid Hplace.
  split; [|split; [|split]].
  - unfold controller.updateLevel, updateLevel, bind, prisma.inventoryLevel_findUnique.
    rewrite Hid. reflexivity.
  - unfold controller.cycleCount. rewrite (cycleCount_missing _ _ _ _ _ _ Hid).
    reflexivity.
  - unfold controller.reserveInventory, reserveInventory, bind, getLevelByLocation,
      prisma.inventoryLevel_findFirst.
    rewrite Hplace. reflexivity.
  - unfold controller.releaseReservedInventory, releaseReservedInventory, bind,
      getLevelByLocation, prisma.inventoryLevel_findFirst.
    rewrite Hplace. reflexivity.
Qed.

(** The theorem at work: a store without levels. *)
Lemma missing_level_status_witness :
  controller.reserveInventory "towel" "p1" 1 None None (initialStore [towel])
    = (initialStore [towel],
       Fail 500 "Internal Server Error" "Inventory level not found").
Proof.
  refine (proj1 (proj2 (proj2
            (missing_level_status 0 None 0%nat (setOnHand 0) 0 None "towel" "p1" 1
               None None (initialStore [towel]) _ _))));
    reflexivity.
Defined.

(** Every error [adjustInventory] can throw. *)
Lemma adjustInventory_errors now data s s' e :
  adjustInventory now data s = (s', Throw e) ->
  e = insufficient \/ e = "Item not found" \/ e = "Inventory level not found" \/
  e = nullItem.
Proof.
  intros E. apply adjustInventory_run in E.
  destruct E as [(_ & _ & _ & E)|(s1 & level & _ & Hrest)].
  - inversion E. auto.
  - destruct Hrest as [(_ & _ & E)|(_ & s2 & ru & Eu & Hru)].
    + inversion E. auto.
    + destruct ru as [updated|e'].
      * destruct Hru as (rc & Ec & Er).
        destruct rc as [[]|e']; [discriminate Er|].
        inversion Er; subst e'.
        apply checkAndCreateAlert_run in Ec.
        destruct Ec as [[_ [Ec|Ec]]|(a & Ec & _)]; try discriminate Ec.
        inversion Ec. auto.
      * destruct Hru as [_ Er]. inversion Er; subst e'.
        apply updateLevel_run in Eu.
        destruct Eu as [[_ [Eu|Eu]]|(l & al & _ & Eu & _)]; try discriminate Eu;
          inversion Eu; auto.
Qed.

(** X18.  The answers of the adjustInventory handler.  It answers 200
    with the level, or 400 Bad Request with the insufficient-quantity
    error, or 404 Not Found with the item-not-found (or
    level-not-found) error, or 500 Internal Server Error when the item
    of a level cannot be read; there is no other answer. *)
Theorem adjustInventory_handler_answers :
  forall now userId data s,
    match snd (controller.adjustInventory now userId data s) with
    | Send code _ => code = 200
    | Fail code error message =>
      (code = 400 /\ error = "Bad Request" /\ message = insufficient) \/
      (code = 404 /\ error = "Not Found" /\
       (message = "Item not found" \/ message = "Inventory level not found")) \/
      (code = 500 /\ error = "Internal Server Error" /\ message = nullItem)
    end.
Proof.
  intros now userId data s. unfold controller.adjustInventory.
  match goal with
  | |- context [adjustInventory now ?d s] =>
    destruct (adjustInventory now d s) as [s' [u|e]] eqn:E
  end.
  - reflexivity.
  - apply adjustInventory_errors in E.
    destruct E as [-> | [-> | [-> | ->]]]; vm_compute; auto 10.
Qed.

(** ** The item behind a transaction *)

Lemma items_adjustInventory now data s :
  inventoryItems (fst (adjustInventory now data s)) = inventoryItems s.
Proof.
  apply (respects_adjustInventory (fun s s' => inventoryItems s' = inventoryItems s)).
  - reflexivity.
  - intros a b c H1 H2. congruence.
  - intros d s0. apply createLevel_frame.
  - intros id d s0. apply updateLevel_frame.
  - intros; intros s0; apply transaction_create_frame.
  - intros level s0. apply checkAndCreateAlert_frame.
Qed.

Lemma items_reserveInventory i p q u r s :
  inventoryItems (fst (reserveInventory i p q u r s)) = inventoryItems s.
Proof.
  apply (respects_reserveInventory (fun s s' => inventoryItems s' = inventoryItems s)).
  - reflexivity.
  - intros a b c H1 H2. congruence.
  - intros id d s0. apply updateLevel_frame.
Qed.

Lemma items_releaseReservedInventory i p q u r s :
  inventoryItems (fst (releaseReservedInventory i p q u r s)) = inventoryItems s.
Proof.
  apply (respects_releaseReservedInventory
           (fun s s' => inventoryItems s' = inventoryItems s)).
  - reflexivity.
  - intros a b c H1 H2. congruence.
  - intros id d s0. apply updateLevel_frame.
Qed.

Lemma setCondition_items id c s s0 :
  inventoryItems s0 = inventoryItems s ->
  inventoryItems (fst (prisma.inventoryItem_setCondition id c s0)) =
  inventoryItems (fst (prisma.inventoryItem_setCondition id c s)).
Proof.
  intros E. unfold prisma.inventoryItem_setCondition. rewrite E.
  destruct (find _ (inventoryItems s)); simpl; [reflexivity | exact E].
Qed.

(** The items after a handler of [processTransaction] has returned. *)
Lemma dispatch_items now t s s' :
  dispatch now t s = (s', Ok tt) ->
  inventoryItems s' =
  if TransactionType_eqb (tx_type t) DAMAGE
  then inventoryItems (fst (prisma.inventoryItem_setCondition (tx_itemId t) "DAMAGED" s))
  else inventoryItems s.
Proof.
  intros E. unfold dispatch in E.
  assert (Hadj : forall data k s1,
            (adjustInventory now data ;;; k) s = (s1, Ok tt) ->
            exists s0, inventoryItems s0 = inventoryItems s /\ k s0 = (s1, Ok tt)).
  { intros data k s1 H. apply bind_run in H.
    destruct H as [(s0 & u & H0 & H)|(e & _ & H)]; [|discriminate H].
    exists s0. split; [|exact H].
    pose proof (items_adjustInventory now data s) as Hi. rewrite H0 in Hi. exact Hi. }
  destruct (tx_type t) eqn:Hty; simpl TransactionType_eqb; cbv iota.
  - unfold processReceive in E.
    destruct (negb (truthy (toPropertyId t))); [discriminate E|].
    destruct (Hadj _ _ _ E) as (s0 & Hi & Ek). apply ret_run in Ek. congruence.
  - unfold processConsume in E.
    destruct (negb (truthy (fromPropertyId t))); [discriminate E|].
    destruct (Hadj _ _ _ E) as (s0 & Hi & Ek). apply ret_run in Ek. congruence.
  - unfold processTransfer in E.
    destruct (negb (truthy (fromPropertyId t)) || negb (truthy (toPropertyId t)));
      [discriminate E|].
    destruct (Hadj _ _ _ E) as (s0 & Hi & Ek).
    apply bind_run in Ek. destruct Ek as [(s2 & u & E2 & Ek)|(e & _ & Ek)];
      [|discriminate Ek].
    apply ret_run in Ek. subst s2.
    pose proof (items_adjustInventory now (transferDestinationLeg t) s0) as Hi2.
    rewrite E2 in Hi2. simpl in Hi2. congruence.
  - unfold processAdjust in E. cbv zeta in E.
    destruct (negb (truthy (orOpt (toPropertyId t) (fromPropertyId t))));
      [discriminate E|].
    destruct (Hadj _ _ _ E) as (s0 & Hi & Ek). apply ret_run in Ek. congruence.
  - unfold processDamageOrDispose in E.
    destruct (negb (truthy (fromPropertyId t))); [discriminate E|].
    destruct (Hadj _ _ _ E) as (s0 & Hi & Ek).
    rewrite Hty in Ek. simpl in Ek.
    rewrite <- (setCondition_items _ _ s s0 Hi). rewrite Ek. reflexivity.
  - unfold processDamageOrDispose in E.
    destruct (negb (truthy (fromPropertyId t))); [discriminate E|].
    destruct (Hadj _ _ _ E) as (s0 & Hi & Ek).
    rewrite Hty in Ek. simpl in Ek. apply ret_run in Ek. congruence.
  - unfold processAssign in E.
    destruct (negb (truthy (stagingDesignId t))); [discriminate E|].
    destruct (fromPropertyId t) as [p|]; [|discriminate E].
    apply bind_run in E. destruct E as [(s1 & u & E1 & E)|(e & _ & E)];
      [|discriminate E].
    apply ret_run in E. subst s1.
    match type of E1 with
    | reserveInventory ?i ?p ?q ?u ?r s = _ =>
      pose proof (items_reserveInventory i p q u r s) as Hi
    end.
    rewrite E1 in Hi. exact Hi.
  - unfold processUnassign in E.
    destruct (toPropertyId t) as [p|]; [|discriminate E].
    apply bind_run in E. destruct E as [(s1 & u & E1 & E)|(e & _ & E)];
      [|discriminate E].
    apply ret_run in E. subst s1.
    match type of E1 with
    | releaseReservedInventory ?i ?p ?q ?u ?r s = _ =>
      pose proof (items_releaseReservedInventory i p q u r s) as Hi
    end.
    rewrite E1 in Hi. exact Hi.
Qed.

(** X19.  Only a processed DAMAGE transaction touches an item.  When
    [createTransaction] returns, the item table is as it was, unless the
    transaction is auto-approved and of type DAMAGE: then the condition
    of its item is set to DAMAGED -- whatever the quantity reported, the
    item as a whole -- and nothing else is changed. *)
Theorem createTransaction_marks_damage :
  forall now data s s' t,
    txFresh s ->
    createTransaction now data s = (s', Ok t) ->
    inventoryItems s' =
    if negb (requiresApproval data) && TransactionType_eqb (ct_type data) DAMAGE
    then inventoryItems
           (fst (prisma.inventoryItem_setCondition (ct_itemId data) "DAMAGED" s))
    else inventoryItems s.
Proof.
  intros now data s s' t Htx E.
  destruct (find (fun i => String.eqb (it_id i) (ct_itemId data)) (inventoryItems s))
    as [item|] eqn:Hi.
  2:{ rewrite (createTransaction_no_item now data s Hi) in E. discriminate E. }
  destruct (requiresApproval data) eqn:Hreq.
  - rewrite (createTransaction_pending now data s item Hi Hreq) in E.
    inversion E; subst. reflexivity.
  - rewrite (createTransaction_auto now data s item Hi Hreq Htx) in E. cbv zeta in E.
    destruct (dispatch now (transactionRow now data (nextId s)) (submitted now data s))
      as [s2 [[]|e]] eqn:Ed; [|discriminate E].
    inversion E; subst s' t; clear E.
    apply dispatch_items in Ed. simpl in Ed. simpl. rewrite Ed.
    destruct (TransactionType_eqb (ct_type data) DAMAGE); [|reflexivity].
    apply setCondition_items. reflexivity.
Qed.

(** The theorem at work: twelve towels at p1, one reported damaged. *)
Lemma createTransaction_marks_damage_witness :
  exists s' t,
    createTransaction 2000 damagedTowel twelveTowels = (s', Ok t) /\
    map it_condition (inventoryItems s') = ["DAMAGED"].
Proof.
  destruct (createTransaction 2000 damagedTowel twelveTowels) as [s' [t|e]] eqn:E;
    [|vm_compute in E; discriminate E].
  exists s', t. split; [reflexivity|].
  assert (H : txFresh twelveTowels) by constructor.
  rewrite (createTransaction_marks_damage 2000 damagedTowel twelveTowels s' t H E).
  reflexivity.
Defined.

(** ** Thresholds in force *)




(** ** Rows that are settled *)

Lemma Forall2_keptRow_refl l : Forall2 keptRow l l.
Proof. induction l; constructor; [split; auto | assumption]. Qed.

Lemma Forall2_keptRow_trans a b c :
  Forall2 keptRow a b -> Forall2 keptRow b c -> Forall2 keptRow a c.
Proof.
  intros H. revert c. induction H as [|x y a b [Hid Hxy] _ IH]; intros c Hc.
  - inversion Hc. constructor.
  - inversion Hc as [|? z ? c' [Hid' Hyz] Hrest]; subst. constructor.
    + split; [congruence|]. intros Hs. specialize (Hxy Hs). subst y.
      apply Hyz. exact Hs.
    + apply IH. exact Hrest.
Qed.

Lemma keepsSettled_refl s : keepsSettled s s.
Proof.
  exists (transactions s), []. rewrite app_nil_r.
  split; [reflexivity | apply Forall2_keptRow_refl].
Qed.

Lemma keepsSettled_trans a b c :
  keepsSettled a b -> keepsSettled b c -> keepsSettled a c.
Proof.
  intros (r1 & e1 & E1 & H1) (r2 & e2 & E2 & H2).
  rewrite E1 in H2. apply Forall2_app_inv_l in H2.
  destruct H2 as (x & y & Hx & Hy & ->).
  exists x, (y ++ e2)%list. split; [rewrite E2, app_assoc; reflexivity|].
  eapply Forall2_keptRow_trans; eassumption.
Qed.

Lemma keepsSettled_grows s s' : ledgerGrows s s' -> keepsSettled s s'.
Proof.
  intros (extra & E). exists (transactions s), extra.
  split; [exact E | apply Forall2_keptRow_refl].
Qed.

(** A status write over a row that is not settled. *)
Lemma keptRow_replaceFirst id data l t :
  find (fun x => Nat.eqb (tx_id x) id) l = Some t ->
  ~ settled t -> statusWrite data ->
  Forall2 keptRow l (prisma.replaceFirst (fun x => Nat.eqb (tx_id x) id) data l).
Proof.
  intros Hf Hns Hw. induction l as [|x r IH]; [constructor|].
  simpl in Hf. simpl. destruct (Nat.eqb (tx_id x) id).
  - inversion Hf; subst x. constructor; [|apply Forall2_keptRow_refl].
    destruct (Hw t) as (st & n & a & b & c & d & ->).
    split; [reflexivity | intros Hs; contradiction].
  - constructor; [split; auto | apply IH; exact Hf].
Qed.

Lemma keepsSettled_processTransaction now id s :
  keepsSettled s (fst (processTransaction now id s)).
Proof.
  destruct (find (fun x => Nat.eqb (tx_id x) id) (transactions s)) as [t|] eqn:Hf.
  2:{ unfold processTransaction, bind, prisma.transaction_findUnique.
      rewrite Hf. apply keepsSettled_refl. }
  destruct (TransactionStatus_eqb (tx_status t) APPROVED) eqn:Hs.
  2:{ assert (Hn : tx_status t <> APPROVED)
        by (intros E; apply TransactionStatus_eqb_eq in E; congruence).
      rewrite (processTransaction_guard now id s t Hf Hn). apply keepsSettled_refl. }
  apply TransactionStatus_eqb_eq in Hs.
  destruct (processTransaction_approved now id s t Hf Hs) as (_ & _ & E).
  rewrite E. clear E.
  destruct (ledgerGrows_dispatch now t s) as [extra Hg].
  assert (Hns : ~ settled t).
  { unfold settled. rewrite Hs. intros [H|[H|H]]; discriminate H. }
  destruct (dispatch now t s) as [s1 [[]|e]]; simpl in Hg |- *; rewrite Hg;
    rewrite (replaceFirst_app_some _ _ _ extra _ Hf);
    eexists; eexists; (split; [reflexivity|]);
    apply (keptRow_replaceFirst id _ _ t Hf Hns); intros x; repeat eexists.
Qed.

Lemma keepsSettled_createTransaction now data s :
  keepsSettled s (fst (createTransaction now data s)).
Proof.
  unfold createTransaction, bind at 1, prisma.inventoryItem_findUnique.
  destruct (find _ (inventoryItems s)); [|apply keepsSettled_refl].
  unfold bind at 1.
  change (prisma.transaction_create (transactionRow now data) s)
    with (submitted now data s, Ok (transactionRow now data (nextId s))).
  cbv iota beta.
  assert (H1 : keepsSettled s (submitted now data s)).
  { apply keepsSettled_grows. eexists. reflexivity. }
  destruct (negb (requiresApproval data)).
  - unfold bind.
    pose proof (keepsSettled_processTransaction now
                  (tx_id (transactionRow now data (nextId s))) (submitted now data s))
      as H2.
    destruct (processTransaction now (tx_id (transactionRow now data (nextId s)))
                (submitted now data s)) as [s2 [b|e]]; simpl in *;
      eapply keepsSettled_trans; eassumption.
  - exact H1.
Qed.

Lemma keepsSettled_update_pending id data s t :
  find (fun x => Nat.eqb (tx_id x) id) (transactions s) = Some t ->
  tx_status t = PENDING -> statusWrite data ->
  keepsSettled s
    (prisma.withTransactions
       (prisma.replaceFirst (fun x => Nat.eqb (tx_id x) id) data (transactions s))
       (nextId s) s).
Proof.
  intros Hf Hs Hw. eexists. exists []. rewrite app_nil_r. split; [reflexivity|].
  apply (keptRow_replaceFirst id data _ t Hf); [|exact Hw].
  unfold settled. rewrite Hs. intros [H|[H|H]]; discriminate H.
Qed.

Lemma keepsSettled_approveTransaction now id data s :
  keepsSettled s (fst (approveTransaction now id data s)).
Proof.
  destruct (find (fun x => Nat.eqb (tx_id x) id) (transactions s)) as [t|] eqn:Hf.
  2:{ destruct (approveTransaction_refused now id data s) as (e & -> & _);
        [|apply keepsSettled_refl].
      intros t Ht. rewrite Hf in Ht. discriminate Ht. }
  destruct (TransactionStatus_eqb (tx_status t) PENDING) eqn:Hs.
  2:{ destruct (approveTransaction_refused now id data s) as (e & -> & _);
        [|apply keepsSettled_refl].
      intros t' Ht' Hp. rewrite Hf in Ht'. inversion Ht'; subst t'.
      rewrite Hp in Hs. discriminate Hs. }
  apply TransactionStatus_eqb_eq in Hs.
  unfold approveTransaction.
  rewrite (bind_ok _ _ s s (Some t))
    by (unfold prisma.transaction_findUnique; rewrite Hf; reflexivity).
  rewrite Hs. change (negb (TransactionStatus_eqb PENDING PENDING)) with false.
  cbv iota.
  set (approved := prisma.withTransactions
                     (prisma.replaceFirst (fun x => Nat.eqb (tx_id x) id)
                        (approvalWrite now data t) (transactions s))
                     (nextId s) s).
  rewrite (bind_ok _ _ s approved (approvalWrite now data t t))
    by (unfold prisma.transaction_update; rewrite Hf; reflexivity).
  assert (H1 : keepsSettled s approved).
  { apply (keepsSettled_update_pending id _ s t Hf Hs). intros x. repeat eexists. }
  pose proof (keepsSettled_processTransaction now id approved) as H2.
  unfold bind. destruct (processTransaction now id approved) as [s2 [b|e]];
    simpl in *; eapply keepsSettled_trans; eassumption.
Qed.

Lemma keepsSettled_rejectTransaction now id data s :
  keepsSettled s (fst (rejectTransaction now id data s)).
Proof.
  unfold rejectTransaction.
  destruct (find (fun x => Nat.eqb (tx_id x) id) (transactions s)) as [t|] eqn:Hf.
  2:{ rewrite (bind_ok _ _ s s None)
        by (unfold prisma.transaction_findUnique; rewrite Hf; reflexivity).
      apply keepsSettled_refl. }
  rewrite (bind_ok _ _ s s (Some t))
    by (unfold prisma.transaction_findUnique; rewrite Hf; reflexivity).
  destruct (TransactionStatus_eqb (tx_status t) PENDING) eqn:Hs;
    [|apply keepsSettled_refl].
  apply TransactionStatus_eqb_eq in Hs. change (negb true) with false. cbv iota.
  unfold prisma.transaction_update. rewrite Hf. simpl fst.
  apply (keepsSettled_update_pending id _ s t Hf Hs). intros x. repeat eexists.
Qed.

Lemma keepsSettled_perform now op s : keepsSettled s (perform now op s).
Proof.
  destruct op; simpl.
  - apply keepsSettled_grows. apply ledgerGrows_same. apply createLevel_frame.
  - apply keepsSettled_grows. apply ledgerGrows_same. apply updateLevel_frame.
  - apply keepsSettled_grows. apply ledgerGrows_adjustInventory.
  - apply keepsSettled_grows. apply ledgerGrows_same.
    unfold reserveInventory, bind, getLevelByLocation, prisma.inventoryLevel_findFirst.
    destruct (find _ (levels s)) as [level|]; [|reflexivity].
    destruct (quantityAvailable level <? quantity); [reflexivity|].
    apply updateLevel_frame.
  - apply keepsSettled_grows. apply ledgerGrows_same.
    unfold releaseReservedInventory, bind, getLevelByLocation,
      prisma.inventoryLevel_findFirst.
    destruct (find _ (levels s)) as [level|]; [|reflexivity].
    destruct (quantityReserved level <? quantity); [reflexivity|].
    apply updateLevel_frame.
  - apply keepsSettled_grows.
    destruct (cycleCount now levelId countedQuantity countedBy notes s)
      as [s' r] eqn:E. simpl. apply cycleCount_run in E.
    destruct E as [[-> _]|(level & _ & _ & _ & _ & _ & _ & [E|[t E]])].
    + apply ledgerGrows_refl.
    + apply ledgerGrows_same. exact E.
    + exists [t]. exact E.
  - apply keepsSettled_createTransaction.
  - apply keepsSettled_approveTransaction.
  - apply keepsSettled_rejectTransaction.
  - apply keepsSettled_processTransaction.
  - unfold transferInventory, bind at 1, getLevelByLocation,
      prisma.inventoryLevel_findFirst.
    destruct (find _ (levels s)) as [level|]; [|apply keepsSettled_refl].
    destruct (quantityAvailable level <? tr_quantity data); [apply keepsSettled_refl|].
    apply keepsSettled_createTransaction.
Qed.

(** X21.  A settled transaction is never rewritten.  Through any run of
    calls to the level engine and the transaction service the ledger
    keeps its rows in place and only grows at its end; a row that is
    COMPLETED, CANCELLED or REJECTED is after the run exactly the row it
    was -- status, quantities, notes and dates -- and every other row
    still stands for the same transaction. *)
Theorem settled_rows_are_never_rewritten :
  forall calls s,
    exists rows extra,
      transactions (performAll calls s) = (rows ++ extra)%list /\
      Forall2 (fun t t' => tx_id t' = tx_id t /\ (settled t -> t' = t))
              (transactions s) rows.
Proof.
  intros calls. induction calls as [|[now op] r IH]; intros s.
  - apply keepsSettled_refl.
  - simpl. apply (keepsSettled_trans s (perform now op s)).
    + apply keepsSettled_perform.
    + apply IH.
Qed.

(** X22.  A failed submission stays in the ledger.  When
    [createTransaction] throws for an item that exists, the caller gets
    no transaction back, but the row has been written: it stands in the
    ledger as CANCELLED, with the request's type, item and quantity and
    with the error that was thrown appended to its notes.  Only the
    item-not-found error leaves the store untouched. *)
Theorem createTransaction_failure_is_recorded :
  forall now data s s' e,
    txFresh s ->
    createTransaction now data s = (s', Throw e) ->
    (s' = s /\ e = "Item not found") \/
    exists row,
      find (fun x => Nat.eqb (tx_id x) (nextId s)) (transactions s') = Some row /\
      tx_status row = CANCELLED /\
      tx_notes row = Some (failureNotes (transactionRow now data (nextId s)) e) /\
      tx_type row = ct_type data /\
      tx_itemId row = ct_itemId data /\
      tx_quantity row = ct_quantity data.
Proof.
  intros now data s s' e Htx E.
  destruct (find (fun i => String.eqb (it_id i) (ct_itemId data)) (inventoryItems s))
    as [item|] eqn:Hi.
  2:{ rewrite (createTransaction_no_item now data s Hi) in E.
      inversion E; subst. left. split; reflexivity. }
  right.
  destruct (requiresApproval data) eqn:Hreq.
  { rewrite (createTransaction_pending now data s item Hi Hreq) in E. discriminate E. }
  rewrite (createTransaction_auto now data s item Hi Hreq Htx) in E. cbv zeta in E.
  set (row := transactionRow now data (nextId s)) in *.
  destruct (ledgerGrows_dispatch now row (submitted now data s)) as [extra Hg].
  destruct (dispatch now row (submitted now data s)) as [s2 [[]|e']] eqn:Ed;
    [discriminate E|].
  inversion E; subst s' e'; clear E. simpl in Hg.
  assert (Hf : find (fun x => Nat.eqb (tx_id x) (nextId s)) (transactions s2) = Some row).
  { rewrite Hg. apply find_app_some.
    rewrite find_app_none by (apply txFresh_find_none; exact Htx).
    simpl. rewrite Nat.eqb_refl. reflexivity. }
  eexists. split.
  - simpl transactions. apply replaceFirst_find; [exact Hf|].
    simpl. apply Nat.eqb_refl.
  - simpl. repeat split.
Qed.

(** The theorem at work: a RECEIVE that names no destination. *)
Lemma createTransaction_failure_is_recorded_witness :
  exists s' e,
    createTransaction 1000 receiveNowhere (initialStore [towel]) = (s', Throw e) /\
    ((s' = initialStore [towel] /\ e = "Item not found") \/
     exists row,
       find (fun x => Nat.eqb (tx_id x) 0) (transactions s') = Some row /\
       tx_status row = CANCELLED).
Proof.
  destruct (createTransaction 1000 receiveNowhere (initialStore [towel]))
    as [s' [t|e]] eqn:E; [vm_compute in E; discriminate E|].
  exists s', e. split; [reflexivity|].
  assert (H : txFresh (initialStore [towel])) by constructor.
  destruct (createTransaction_failure_is_recorded _ _ _ _ _ H E)
    as [Hl|(row & Hf & Hs & _)].
  - left. exact Hl.
  - right. exists row. split; [exact Hf | exact Hs].
Defined.

(** ** When an adjustment goes through *)

Lemma checkAndCreateAlert_returns level s item :
  find (fun i => String.eqb (it_id i) (lvl_itemId level)) (inventoryItems s) = Some item ->
  exists s', checkAndCreateAlert level s = (s', Ok tt).
Proof.
  intros Hi.
  destruct (checkAndCreateAlert level s) as [s' [[]|e]] eqn:E; [eexists; reflexivity|].
  exfalso. unfold checkAndCreateAlert in E.
  destruct (alertLevel level); try discriminate E;
    unfold itemOf, bind, prisma.stockAlert_findFirst, prisma.inventoryItem_findUnique,
      prisma.stockAlert_create, ret, throw in E;
    (destruct (find _ (stockAlerts s)); [discriminate E|]);
    cbv beta iota in E; rewrite Hi in E; discriminate E.
Qed.

(** X23.  For an item that exists, [adjustInventory] fails for a
    shortage and for nothing else.  With [before] the on-hand quantity at
    the place (zero where there is no level), and [before], the delta and
    their sum all safe integers: if [before + quantity] is negative the
    call throws the insufficient-quantity error; otherwise it returns,
    and the level it returns holds [before + quantity]. *)
Theorem adjustInventory_fails_only_for_shortage :
  forall now data s item,
    idsFresh s ->
    find (fun i => String.eqb (it_id i) (a_itemId data)) (inventoryItems s)
      = Some item ->
    let before :=
      match find (adjustWhere data) (levels s) with
      | Some level => quantityOnHand level
      | None => 0
      end in
    safeInteger before ->
    safeInteger (a_quantity data) ->
    safeInteger (before + a_quantity data) ->
    (before + a_quantity data < 0 ->
     snd (adjustInventory now data s) = Throw insufficient) /\
    (0 <= before + a_quantity data ->
     exists u,
       snd (adjustInventory now data s) = Ok u /\
       quantityOnHand u = before + a_quantity data).
Proof.
  intros now data s item Hids Hi before _ _ _.
  destruct (adjustInventory now data s) as [s' r] eqn:E. simpl snd.
  pose proof E as Erun. apply adjustInventory_run in Erun.
  destruct Erun as [(_ & Hn & _)|(s1 & level & Hfound & Hrest)]; [congruence|].
  assert (H1 : before = quantityOnHand level /\ idsFresh s1 /\
               In level (levels s1) /\ lvl_itemId level = a_itemId data /\
               inventoryItems s1 = inventoryItems s).
  { unfold before.
    destruct Hfound as [[Hf ->]|(Hf & -> & Hid & Hit & Hq & _)]; rewrite Hf.
    - pose proof (find_some _ _ Hf) as [Hin Hw].
      apply locationWhere_spec in Hw. repeat split; try assumption; try apply Hids.
      apply Hw.
    - split; [symmetry; exact Hq|]. split; [apply idsFresh_append; assumption|].
      split; [simpl; apply in_or_app; right; left; reflexivity|].
      split; [exact Hit | reflexivity]. }
  destruct H1 as (Hb & Hids1 & Hin & Hit & Hitems). rewrite Hb.
  destruct Hrest as [(Hlt & _ & ->)|(Hge & s2 & ru & Eu & Hru)].
  { split; [reflexivity | intros H; lia]. }
  split; [intros H; lia|]. intros _.
  pose proof (updateLevel_found (lvl_id level)
                (setOnHand (quantityOnHand level + a_quantity data)) s1 level
                (find_by_id _ _ (proj1 Hids1) Hin)) as Hup.
  cbv zeta in Hup.
  assert (Hread : itemReadable (setOnHand (quantityOnHand level + a_quantity data))
                    level s1 = true).
  { unfold itemReadable. rewrite Hitems, Hit, Hi.
    destruct (@nullish Z _ _); [destruct (@nullish Z _ _)|]; reflexivity. }
  rewrite Hread in Hup. destruct Hup as (al & Hup). rewrite Hup in Eu.
  inversion Eu; subst s2 ru; clear Eu.
  destruct Hru as (rc & Ec & ->).
  match type of Ec with
  | checkAndCreateAlert ?u ?s3 = _ =>
    destruct (checkAndCreateAlert_returns u s3 item) as (s4 & E4)
  end.
  { simpl. rewrite Hitems, Hit. exact Hi. }
  rewrite E4 in Ec. inversion Ec; subst.
  eexists. split; [reflexivity|]. reflexivity.
Qed.

(** The theorem at work: 24 towels at p1; taking 21 goes through. *)
Lemma adjustInventory_fails_only_for_shortage_witness :
  exists u,
    snd (adjustInventory 2000 (adjustTowels "p1" (-21)) wellStocked) = Ok u /\
    quantityOnHand u = 24 + -21.
Proof.
  refine (proj2 (adjustInventory_fails_only_for_shortage 2000 (adjustTowels "p1" (-21))
                   wellStocked towel _ _ _ _ _) _).
  - split; simpl; repeat constructor. intros [].
  - reflexivity.
  - split; reflexivity.
  - split; reflexivity.
  - split; reflexivity.
  - simpl. lia.
Defined.

(** ** An approval that fails *)

(** X24.  An approval that fails cannot be tried again.  When
    [approveTransaction] throws on a PENDING transaction, the row is left
    CANCELLED, with the approver recorded and the error appended to its
    notes; every later approval of that transaction is refused as not
    pending and changes nothing. *)
Theorem failed_approval_is_final :
  forall now id data s s' e t,
    find (fun x => Nat.eqb (tx_id x) id) (transactions s) = Some t ->
    tx_status t = PENDING ->
    approveTransaction now id data s = (s', Throw e) ->
    (exists row,
       find (fun x => Nat.eqb (tx_id x) id) (transactions s') = Some row /\
       tx_status row = CANCELLED /\
       approvedBy row = Some (ap_approvedBy data) /\
       tx_notes row = Some (failureNotes (approvalWrite now data t t) e)) /\
    forall now' data',
      approveTransaction now' id data' s' =
        (s', Throw "Transaction is not pending approval").
Proof.
  intros now id data s s' e t Hf Hp E.
  destruct (approveTransaction_pending now id data s t Hf Hp) as [Hfa Eq].
  cbv zeta in Hfa, Eq. rewrite Eq in E. clear Eq.
  match type of E with
  | context [dispatch now ?r ?a] =>
    destruct (ledgerGrows_dispatch now r a) as [extra Hg];
    destruct (dispatch now r a) as [s2 [[]|e']] eqn:Ed; [discriminate E|]
  end.
  inversion E; subst s' e'; clear E. simpl in Hg.
  assert (Hid : Nat.eqb (tx_id t) id = true) by (apply (find_some _ _ Hf)).
  assert (Hrow : exists row,
             find (fun x => Nat.eqb (tx_id x) id)
                  (prisma.replaceFirst (fun x => Nat.eqb (tx_id x) id)
                     (fun x => txWith CANCELLED
                                 (Some (failureNotes (approvalWrite now data t t) e))
                                 (approvedBy x) (approvedAt x) (rejectionReason x)
                                 (completedAt x) x)
                     (transactions s2)) = Some row /\
             tx_status row = CANCELLED /\
             approvedBy row = Some (ap_approvedBy data) /\
             tx_notes row = Some (failureNotes (approvalWrite now data t t) e)).
  { eexists. split.
    - apply replaceFirst_find.
      + rewrite Hg. apply find_app_some. exact Hfa.
      + simpl. exact Hid.
    - simpl. repeat split. }
  destruct Hrow as (row & Hfr & Hs & Hby & Hn).
  split.
  - exists row. simpl transactions. repeat split; assumption.
  - intros now' data'.
    unfold approveTransaction, bind, prisma.transaction_findUnique, throw.
    cbn [transactions prisma.withTransactions].
    rewrite Hfr, Hs. reflexivity.
Qed.

(** The theorem at work: approving a CONSUME of five towels where there
    are none. *)
Lemma failed_approval_is_final_witness :
  exists s' e,
    approveTransaction 2000 0 approvedByAnn pendingConsume = (s', Throw e) /\
    approveTransaction 3000 0 approvedByAnn s' =
      (s', Throw "Transaction is not pending approval").
Proof.
  destruct (approveTransaction 2000 0 approvedByAnn pendingConsume)
    as [s' [u|e]] eqn:E; [vm_compute in E; discriminate E|].
  exists s', e. split; [reflexivity|].
  refine (proj2 (failed_approval_is_final 2000 0 approvedByAnn pendingConsume s' e
                   _ _ _ E) 3000 approvedByAnn).
  - reflexivity.
  - reflexivity.
Defined.
